(** * Tremor detection pipeline: window, features, classifier, decision gate

    A shallow embedding of the signal-to-decision pipeline of the
    repository: [api/server.py], [live_detector.py],
    [tremor detection/train_model.py], [tremor detection/data_logger.py]
    and [voice tremor detection/live_voice_analysis.py]; then of the
    code around it: [tremor detection/fabricate_data.py],
    [voice tremor detection/cognitive_tests.py],
    [train_speech_svm_hf.py] and [copy_voice_model.py].

    Conventions.
    - A finite binary64 value is the rational it denotes, so finite
      float data live in [Q] and arithmetic on them is exact: rounding,
      overflow and signed zeros are outside the model.  Where the
      source can produce or receive NaN or an infinity (the voice
      features, the harmonic part of a clip, a parsed serial field) the
      value type is [npfloat].
    - Python exceptions are the [Raise] case of [result].
    - Functions of scipy, numpy's transcendental part and librosa are
      not code of the repository: they are fields of the interfaces
      [Numeric] and [Librosa] below. *)

From Stdlib Require Import ZArith QArith Qabs List String Ascii Bool Arith Lia.
Import ListNotations.

Local Open Scope Q_scope.

(** ** Python runtime *)

Module Py.

Inductive exn : Set :=
| ValueError
| KeyError
| IndexError
| UnboundLocalError
| AttributeError
| FileNotFoundError
| UnpicklingError
| UnicodeDecodeError
| TypeError.

Inductive result (A : Type) : Type :=
| Ok (a : A)
| Raise (e : exn).

Arguments Ok {A} a.
Arguments Raise {A} e.

Definition bind {A B : Type} (m : result A) (k : A -> result B) : result B :=
  match m with
  | Ok a => k a
  | Raise e => Raise e
  end.

(** [try: body except Exception: handler] *)
Definition try_except {A : Type} (body : result A) (handler : exn -> A) : A :=
  match body with
  | Ok a => a
  | Raise e => handler e
  end.

Definition exn_str (e : exn) : string :=
  match e with
  | ValueError => "ValueError"
  | KeyError => "KeyError"
  | IndexError => "IndexError"
  | UnboundLocalError => "UnboundLocalError"
  | AttributeError => "AttributeError"
  | FileNotFoundError => "FileNotFoundError"
  | UnpicklingError => "UnpicklingError"
  | UnicodeDecodeError => "UnicodeDecodeError"
  | TypeError => "TypeError"
  end%string.

Definition returns {A : Type} (m : result A) : Prop :=
  exists a, m = Ok a.

End Py.

Import Py.

Declare Scope py_scope.
Delimit Scope py_scope with py.
Notation "x <- m ;; k" := (bind m (fun x => k))
  (at level 61, m at next level, right associativity) : py_scope.
Local Open Scope py_scope.

(** ** Comparisons and reductions on exact float data *)

Definition Qleb (x y : Q) : bool := Qle_bool x y.
Definition Qltb (x y : Q) : bool := negb (Qle_bool y x).

(** [np.sum] *)
Definition np_sum (l : list Q) : Q := fold_right Qplus 0 l.

(** [np.mean]: the quotient by the length.  On an empty array numpy
    gives NaN; here the quotient by zero is [0], and no result below
    depends on the mean of an empty array. *)
Definition np_mean (l : list Q) : Q :=
  np_sum l / inject_Z (Z.of_nat (List.length l)).

(** Element-wise binary operation of two aligned columns. *)
Fixpoint zip_with {A B C : Type} (f : A -> B -> C) (l : list A) (m : list B)
  : list C :=
  match l, m with
  | a :: l', b :: m' => f a b :: zip_with f l' m'
  | _, _ => []
  end.

(** [a[mask]]: selection by a boolean mask. *)
Fixpoint select (mask : list bool) (a : list Q) : list Q :=
  match mask, a with
  | true :: mask', x :: a' => x :: select mask' a'
  | false :: mask', _ :: a' => select mask' a'
  | _, _ => []
  end.

(** [np.argmax]: the index of the first occurrence of the maximum. *)
Fixpoint argmax_from (best_i : nat) (best : Q) (i : nat) (l : list Q) : nat :=
  match l with
  | [] => best_i
  | x :: t =>
      if Qltb best x then argmax_from i x (S i) t
      else argmax_from best_i best (S i) t
  end.

Definition np_argmax (l : list Q) : result nat :=
  match l with
  | [] => Raise ValueError
  | x :: t => Ok (argmax_from 0 x 1 t)
  end.

(** The running maximum of [np.argmax]: the value at the index
    returned, seen from a scan that started at index [i] with the best
    value [best] found before it. *)
Definition value_at (best : Q) (i : nat) (l : list Q) (r : nat) : Q :=
  if (r <? i)%nat then best else nth (r - i) l 0.

(** [np.fft.fftfreq(n, d)]: [n] sample frequencies, the non-negative half
    first, each an integer times [1/(n*d)]. *)
Definition fftfreq (n : nat) (d : Q) : list Q :=
  let val := 1 / (inject_Z (Z.of_nat n) * d) in
  map (fun i : nat =>
         let k := if (i <? (n - 1) / 2 + 1)%nat
                  then Z.of_nat i
                  else (Z.of_nat i - Z.of_nat n)%Z in
         inject_Z k * val)
      (seq 0 n).

(** ** External numeric kernels *)

(** [np_sqrt] is [np.sqrt]; [fft_abs x] is [np.abs(scipy.fft.fft(x))], the
    moduli of the discrete Fourier transform, one per input sample. *)
Class Numeric : Type := {
  np_sqrt : Q -> Q;
  fft_abs : list Q -> list Q;
  fft_abs_length : forall x, List.length (fft_abs x) = List.length x
}.

(** A kernel to run the model on concrete frames: the square root is
    exact on squares of rationals, and the stand-in for the transform
    keeps the length, which is all the properties below ask of it. *)
#[local] Instance run_kernel : Numeric := {|
  np_sqrt := fun q => Z.sqrt (Qnum q) # Pos.sqrt (Qden q);
  fft_abs := map Qabs;
  fft_abs_length := fun x => length_map Qabs x
|}.

(** ** Motion pipeline *)

Module Motion.

Definition SAMPLING_RATE : Q := 50.

(** A data frame is its columns by name; the columns of one frame have
    one length. *)
Definition DataFrame : Type := list (string * list Q).

Definition columns (df : DataFrame) : list string := map fst df.

Definition has_column (name : string) (df : DataFrame) : bool :=
  existsb (String.eqb name) (columns df).

(** [df[name]] *)
Fixpoint col (df : DataFrame) (name : string) : result (list Q) :=
  match df with
  | [] => Raise KeyError
  | (c, v) :: df' => if String.eqb name c then Ok v else col df' name
  end.

(** [len(df)] *)
Definition df_len (df : DataFrame) : nat :=
  match df with
  | [] => 0%nat
  | (_, v) :: _ => List.length v
  end.

(** One row of sensor data, as the live loop builds it. *)
Record sample : Type := {
  AccelX : Q;
  AccelY : Q;
  AccelZ : Q;
  FSR : Q
}.

(** The frame that holds [rows] under the four channel columns.  For a
    list with rows this is [pd.DataFrame(rows)]; for the empty list it
    is the frame without rows that keeps its columns, as a zero-row
    slice of a recording does. *)
Definition DataFrame_of (rows : list sample) : DataFrame :=
  [("AccelX"%string, map AccelX rows);
   ("AccelY"%string, map AccelY rows);
   ("AccelZ"%string, map AccelZ rows);
   ("FSR"%string, map FSR rows)].

(** The same without the pressure channel. *)
Definition DataFrame_no_FSR (rows : list sample) : DataFrame :=
  [("AccelX"%string, map AccelX rows);
   ("AccelY"%string, map AccelY rows);
   ("AccelZ"%string, map AccelZ rows)].

(** [pd.DataFrame(data)] for a list of row dictionaries: a frame
    without any column when the list is empty. *)
Definition DataFrame_of_records (data : list sample) : DataFrame :=
  match data with
  | [] => []
  | _ => DataFrame_of data
  end.

(** A frame without rows: every column it has is empty. *)
Definition zero_length (df : DataFrame) : Prop :=
  Forall (fun c => snd c = []) df.

Section Extractor.

Context {K : Numeric}.

Definition sq (x : Q) : Q := x * x.

(** [np.sqrt(df['AccelX']**2 + df['AccelY']**2 + df['AccelZ']**2)] *)
Definition magnitude (ax ay az : list Q) : list Q :=
  map np_sqrt
      (zip_with Qplus (zip_with Qplus (map sq ax) (map sq ay)) (map sq az)).

(** [x - np.mean(x)] *)
Definition detrend (x : list Q) : list Q :=
  let m := np_mean x in map (fun v => v - m) x.

(** [np.std], the population standard deviation. *)
Definition np_std (x : list Q) : Q :=
  let m := np_mean x in
  np_sqrt (np_mean (map (fun v => sq (Qabs (v - m))) x)).

(** [scipy.fft.fft] refuses an empty array. *)
Definition scipy_fft_abs (x : list Q) : result (list Q) :=
  match x with
  | [] => Raise ValueError
  | _ => Ok (fft_abs x)
  end.

(** [xf[:N//2]] *)
Definition positive_freqs (N : nat) : list Q :=
  firstn (N / 2) (fftfreq N (1 / SAMPLING_RATE)).

(** [2.0/N * np.abs(yf[0:N//2])] *)
Definition positive_mags (N : nat) (yf_abs : list Q) : list Q :=
  map (Qmult (2 / inject_Z (Z.of_nat N))) (firstn (N / 2) yf_abs).

(** [(positive_freqs >= 3.5) & (positive_freqs <= 7.5)] *)
Definition tremor_band_mask (freqs : list Q) : list bool :=
  zip_with andb (map (fun f => Qleb (35 # 10) f) freqs)
                (map (fun f => Qleb f (75 # 10)) freqs).

(** [(positive_freqs > 0.1) & (positive_freqs < 3.0)] *)
Definition voluntary_band_mask (freqs : list Q) : list bool :=
  zip_with andb (map (fun f => Qltb (1 # 10) f) freqs)
                (map (fun f => Qltb f 3) freqs).

(** [get_features] of [api/server.py]. *)
Definition get_features (df_window : DataFrame) : result (list Q) :=
  ax <- col df_window "AccelX" ;;
  ay <- col df_window "AccelY" ;;
  az <- col df_window "AccelZ" ;;
  let acc_mag := magnitude ax ay az in
  let acc_mag := detrend acc_mag in
  fsr_signal <- (if has_column "FSR" df_window
                 then col df_window "FSR"
                 else Ok (repeat 0 (List.length acc_mag))) ;;
  let N := List.length acc_mag in
  if (N =? 0)%nat then Ok (repeat 0 6) else
  yf <- scipy_fft_abs acc_mag ;;
  let freqs := positive_freqs N in
  let mags := positive_mags N yf in
  dom_freq <- (if (0 <? List.length mags)%nat
               then dom_freq_index <- np_argmax mags ;;
                    Ok (nth dom_freq_index freqs 0)
               else Ok 0) ;;
  let tremor_energy := np_sum (select (tremor_band_mask freqs) mags) in
  let voluntary_energy := np_sum (select (voluntary_band_mask freqs) mags) in
  let acc_std := np_std acc_mag in
  let fsr_mean := np_mean fsr_signal in
  let fsr_std := np_std fsr_signal in
  Ok [dom_freq; tremor_energy; voluntary_energy; acc_std; fsr_mean; fsr_std].

(** [get_features] of [live_detector.py]: no guard on the length, the
    pressure channel is required. *)
Definition get_features_live (df_window : DataFrame) : result (list Q) :=
  ax <- col df_window "AccelX" ;;
  ay <- col df_window "AccelY" ;;
  az <- col df_window "AccelZ" ;;
  let acc_mag := magnitude ax ay az in
  let acc_mag := detrend acc_mag in
  fsr_signal <- col df_window "FSR" ;;
  let N := List.length acc_mag in
  yf <- scipy_fft_abs acc_mag ;;
  let freqs := positive_freqs N in
  let mags := positive_mags N yf in
  dom_freq_index <- np_argmax mags ;;
  let dom_freq := nth dom_freq_index freqs 0 in
  let tremor_energy := np_sum (select (tremor_band_mask freqs) mags) in
  let voluntary_energy := np_sum (select (voluntary_band_mask freqs) mags) in
  let acc_std := np_std acc_mag in
  let fsr_mean := np_mean fsr_signal in
  let fsr_std := np_std fsr_signal in
  Ok [dom_freq; tremor_energy; voluntary_energy; acc_std; fsr_mean; fsr_std].

(** [get_features_from_window] of [train_model.py]: the features as a
    dictionary, in insertion order. *)
Definition get_features_from_window (window : DataFrame)
  : result (list (string * Q)) :=
  ax <- col window "AccelX" ;;
  ay <- col window "AccelY" ;;
  az <- col window "AccelZ" ;;
  let acc_mag := magnitude ax ay az in
  let acc_mag := detrend acc_mag in
  fsr_signal <- col window "FSR" ;;
  let N := List.length acc_mag in
  yf <- scipy_fft_abs acc_mag ;;
  let freqs := positive_freqs N in
  let mags := positive_mags N yf in
  dom_freq_index <- np_argmax mags ;;
  let dom_freq := nth dom_freq_index freqs 0 in
  let tremor_energy := np_sum (select (tremor_band_mask freqs) mags) in
  let voluntary_energy := np_sum (select (voluntary_band_mask freqs) mags) in
  let acc_std := np_std acc_mag in
  let fsr_mean := np_mean fsr_signal in
  let fsr_std := np_std fsr_signal in
  Ok [("dom_freq"%string, dom_freq);
      ("tremor_energy"%string, tremor_energy);
      ("voluntary_energy"%string, voluntary_energy);
      ("acc_std"%string, acc_std);
      ("fsr_mean"%string, fsr_mean);
      ("fsr_std"%string, fsr_std)].

(** [list(features.values())] *)
Definition dict_values (d : list (string * Q)) : list Q := map snd d.

End Extractor.

(** *** Concrete frames *)

(** A frame of one sample at rest. *)
Definition single_sample : list sample :=
  [{| AccelX := 0; AccelY := 0; AccelZ := 98 # 10; FSR := 310 |}].

(** A frame of four samples. *)
Definition four_samples : list sample :=
  [{| AccelX := 3; AccelY := 4; AccelZ := 0; FSR := 310 |};
   {| AccelX := 0; AccelY := 0; AccelZ := 1; FSR := 310 |};
   {| AccelX := 3; AccelY := 4; AccelZ := 0; FSR := 312 |};
   {| AccelX := 0; AccelY := 0; AccelZ := 1; FSR := 312 |}].

(** *** The one-sided spectrum of a frame *)

Section Spectrum.

Context {K : Numeric}.

(** The detrended magnitude series of a frame. *)
Definition acc_signal (rows : list sample) : list Q :=
  detrend (magnitude (map AccelX rows) (map AccelY rows) (map AccelZ rows)).

(** The two arrays of the one-sided spectrum of a frame. *)
Definition freqs_of (rows : list sample) : list Q :=
  positive_freqs (List.length rows).

Definition mags_of (rows : list sample) : list Q :=
  positive_mags (List.length rows) (fft_abs (acc_signal rows)).

(** The bins [k] in [[0, N//2)] of a frame of [N] samples, each with its
    frequency and its one-sided amplitude. *)
Definition spectrum (rows : list sample) : list (Q * Q) :=
  combine (freqs_of rows) (mags_of rows).

Definition tremor_band (f : Q) : bool := Qleb (35 # 10) f && Qleb f (75 # 10).

Definition voluntary_band (f : Q) : bool := Qltb (1 # 10) f && Qltb f 3.

(** The sum of the amplitudes of the bins whose frequency is in a band. *)
Definition band_energy (inband : Q -> bool) (bins : list (Q * Q)) : Q :=
  np_sum (map snd (filter (fun b => inband (fst b)) bins)).

(** The feature vector of a frame, given its dominant frequency: the
    band energies as sums over the bins of the spectrum, then the three
    time-domain statistics. *)
Definition feature_vector (rows : list sample) (dom_freq : Q) : list Q :=
  [dom_freq;
   band_energy tremor_band (spectrum rows);
   band_energy voluntary_band (spectrum rows);
   np_std (acc_signal rows);
   np_mean (map FSR rows);
   np_std (map FSR rows)].

(** The names of the features, in the order of the trained model. *)
Definition feature_names : list string :=
  ["dom_freq"; "tremor_energy"; "voluntary_energy"; "acc_std"; "fsr_mean";
   "fsr_std"]%string.

(** An extractor answers every zero-length frame with six zeros. *)
Definition zero_frame_safe (extractor : DataFrame -> result (list Q)) : Prop :=
  forall df, zero_length df -> extractor df = Ok [0; 0; 0; 0; 0; 0].

(** Bin [k] carries the maximum amplitude, and no bin below [k] does. *)
Definition peak_bin (bins : list (Q * Q)) (k : nat) : Prop :=
  (k < List.length bins)%nat /\
  (forall j, (j < List.length bins)%nat ->
             snd (nth j bins (0, 0)) <= snd (nth k bins (0, 0))) /\
  (forall j, (j < k)%nat ->
             snd (nth j bins (0, 0)) < snd (nth k bins (0, 0))).

(** An extractor returns, as its first feature, the frequency of the
    peak bin of the frame. *)
Definition dom_freq_is_peak (extractor : DataFrame -> result (list Q))
  (rows : list sample) : Prop :=
  exists k features,
    extractor (DataFrame_of rows) = Ok features /\
    peak_bin (spectrum rows) k /\
    nth 0 features 0 = fst (nth k (spectrum rows) (0, 0)).

End Spectrum.

(** *** Decision gate *)

(** The logic gate of [predict] in [api/server.py]; [int(prediction)] is
    the class id itself. *)
Definition gate_api (prediction : Z) (real_freq : Q) : Z :=
  let final_prediction := prediction in
  if (final_prediction =? 1)%Z then
    if Qltb 7 real_freq then 2%Z
    else if Qltb real_freq 3 then 2%Z
    else final_prediction
  else final_prediction.

(** The logic gate of [run_live_detection] in [live_detector.py]. *)
Definition gate_live (prediction : Z) (real_freq : Q) : Z :=
  if (prediction =? 1)%Z then
    if Qltb real_freq (35 # 10) || Qltb (75 # 10) real_freq then 2%Z
    else prediction
  else prediction.

(** *** Request and live orchestration *)

(** [labels.get(c, "Unknown")] *)
Definition labels (c : Z) : string :=
  (if (c =? 0)%Z then "Rest"
   else if (c =? 1)%Z then "Tremor"
   else if (c =? 2)%Z then "Voluntary"
   else "Unknown")%string.

(** [if 'FSR' not in df.columns: df['FSR'] = 0] *)
Definition fill_FSR (df : DataFrame) : DataFrame :=
  if has_column "FSR" df then df
  else df ++ [("FSR"%string, repeat 0 (df_len df))].

(** What [/predict] answers: the verdict, or an error with its HTTP
    status; the message of a caught exception is given by its name. *)
Inductive response : Type :=
| Verdict (class : Z) (label : string) (dom_freq tremor_energy : Q)
| Error (status : Z) (message : string).

Section Orchestrator.

Context {K : Numeric}.

(** [model.predict([features])[0]] of the loaded classifier. *)
Variable model_predict : list Q -> result Z.

(** [predict] of [api/server.py].  [model_loaded] is [model is not None];
    [data] is the frame [pd.DataFrame] builds from the request body, or
    [None] for a body that is empty or not a list. *)
Definition predict (model_loaded : bool) (data : option DataFrame) : response :=
  if negb model_loaded then Error 500 "Model not loaded" else
  match data with
  | None => Error 400 "Invalid input, expected list of objects"
  | Some df =>
      try_except
        (if negb (has_column "AccelX" df) then
           Ok (Error 400 "Missing column AccelX")
         else if negb (has_column "AccelY" df) then
           Ok (Error 400 "Missing column AccelY")
         else if negb (has_column "AccelZ" df) then
           Ok (Error 400 "Missing column AccelZ")
         else
           let df := fill_FSR df in
           features <- get_features df ;;
           prediction <- model_predict features ;;
           let real_freq := nth 0 features 0 in
           let final_prediction := gate_api prediction real_freq in
           Ok (Verdict final_prediction (labels final_prediction)
                       real_freq (nth 1 features 0)))
        (fun e => Error 500 (exn_str e))
  end.

(** The analysis of one full buffer in [run_live_detection]: the gated
    class and the measured frequency that the status line shows. *)
Definition analyse_window (data_buffer : list sample) : result (Z * Q) :=
  let df_window := DataFrame_of_records data_buffer in
  features <- get_features_live df_window ;;
  prediction <- model_predict features ;;
  let real_freq := nth 0 features 0 in
  let prediction := gate_live prediction real_freq in
  Ok (prediction, real_freq).

End Orchestrator.

End Motion.

(** ** Batch windowing of the trainer *)

Module Train.

Import Motion.

Definition WINDOW_SIZE : Z := 100.
Definition STEP_SIZE : Z := 50.

(** One row of [training_data.csv]: the channels and the label. *)
Record labelled : Type := {
  row : sample;
  Label : Z
}.

(** [range(start, stop, step)] for a positive step. *)
Definition py_range (start stop step : Z) : list Z :=
  if (0 <? step)%Z then
    map (fun i : nat => (start + Z.of_nat i * step)%Z)
        (seq 0 (Z.to_nat ((stop - start + step - 1) / step)))
  else [].

(** [df.iloc[start:stop]] for [0 <= start]. *)
Definition iloc {A : Type} (df : list A) (start stop : Z) : list A :=
  firstn (Z.to_nat (stop - start)) (skipn (Z.to_nat start) df).

(** [Series.unique()]: the distinct values in order of first appearance. *)
Fixpoint unique (l : list Z) : list Z :=
  match l with
  | [] => []
  | x :: t => x :: filter (fun v => negb (v =? x)%Z) (unique t)
  end.

(** The local variables the loop of [train] assigns: [features] stays
    unbound until a window is extracted. *)
Record locals : Type := {
  X : list (list Q);
  y : list Z;
  features : option (list (string * Q))
}.

Definition locals0 : locals := {| X := []; y := []; features := None |}.

Section Trainer.

Context {K : Numeric}.

(** The body of [for start in range(...)]. *)
Definition loop_body (df : list labelled) (st : locals) (start : Z)
  : result locals :=
  let end_ := (start + WINDOW_SIZE)%Z in
  let window := iloc df start end_ in
  let labels := unique (map Label window) in
  if (1 <? List.length labels)%nat then Ok st
  else
    f <- get_features_from_window (DataFrame_of (map row window)) ;;
    l0 <- match labels with
          | [] => Raise IndexError
          | l0 :: _ => Ok l0
          end ;;
    Ok {| X := X st ++ [dict_values f]; y := y st ++ [l0];
          features := Some f |}.

Fixpoint for_each (df : list labelled) (starts : list Z) (st : locals)
  : result locals :=
  match starts with
  | [] => Ok st
  | start :: rest => st' <- loop_body df st start ;; for_each df rest st'
  end.

(** The start indices the loop visits. *)
Definition starts (df : list labelled) : list Z :=
  py_range 0 (Z.of_nat (List.length df) - WINDOW_SIZE) STEP_SIZE.

Definition windows (df : list labelled) : result locals :=
  for_each df (starts df) locals0.

(** How [train] leaves its data stage (everything before the forest is
    fitted). *)
Inductive outcome : Type :=
| FileMissing
| NotEnoughData
| Samples (X : list (list Q)) (y : list Z) (feature_names : list string).

(** [train], up to the report of the number of windows; [csv] is the
    content of the input file, [None] when the file is absent. *)
Definition train (csv : option (list labelled)) : result outcome :=
  match csv with
  | None => Ok FileMissing
  | Some df =>
      st <- windows df ;;
      feature_names <- match features st with
                       | None => Raise UnboundLocalError
                       | Some f => Ok (map fst f)
                       end ;;
      if (List.length (X st) =? 0)%nat then Ok NotEnoughData
      else Ok (Samples (X st) (y st) feature_names)
  end.

End Trainer.

(** A recording of [n] rows under one label. *)
Definition recording (n : nat) : list labelled :=
  repeat {| row := {| AccelX := 0; AccelY := 0; AccelZ := 98 # 10;
                      FSR := 310 |};
            Label := 1 |} n.

(** The windows the specification asks of batch mode: every multiple of
    the step whose window lies inside a series of length [L]. *)
Definition spec_start (L : Z) (start : Z) : Prop :=
  (0 <= start /\ start mod STEP_SIZE = 0 /\ start + WINDOW_SIZE <= L)%Z.

End Train.

(** ** Float values with NaN and infinities *)

Module Np.

(** A float is a finite value (the rational it denotes), an infinity or
    NaN.  The special values follow IEEE 754 as numpy applies it: an
    invalid operation gives NaN, a division of a non-zero value by zero
    an infinity, and every comparison with NaN is false. *)
Inductive npfloat : Type :=
| Fin (q : Q)
| PInf
| NInf
| NaN.


(** [np.isnan] *)
Definition isnan (x : npfloat) : bool :=
  match x with NaN => true | _ => false end.

Definition Fneg (x : npfloat) : npfloat :=
  match x with
  | Fin q => Fin (- q)
  | PInf => NInf
  | NInf => PInf
  | NaN => NaN
  end.

(** [np.abs] *)
Definition Fabs (x : npfloat) : npfloat :=
  match x with
  | Fin q => Fin (Qabs q)
  | PInf | NInf => PInf
  | NaN => NaN
  end.

Definition Fadd (x y : npfloat) : npfloat :=
  match x, y with
  | NaN, _ | _, NaN => NaN
  | Fin a, Fin b => Fin (a + b)
  | PInf, NInf | NInf, PInf => NaN
  | PInf, _ | _, PInf => PInf
  | NInf, _ | _, NInf => NInf
  end.

Definition Fsub (x y : npfloat) : npfloat := Fadd x (Fneg y).

(** The infinity of the sign of [q], NaN for zero. *)
Definition inf_of_sign (q : Q) : npfloat :=
  if Qltb 0 q then PInf else if Qltb q 0 then NInf else NaN.

Definition Fmul (x y : npfloat) : npfloat :=
  match x, y with
  | NaN, _ | _, NaN => NaN
  | Fin a, Fin b => Fin (a * b)
  | Fin a, PInf | PInf, Fin a => inf_of_sign a
  | Fin a, NInf | NInf, Fin a => inf_of_sign (- a)
  | PInf, PInf | NInf, NInf => PInf
  | PInf, NInf | NInf, PInf => NInf
  end.

Definition Fdiv (x y : npfloat) : npfloat :=
  match x, y with
  | NaN, _ | _, NaN => NaN
  | Fin a, Fin b => if Qeq_bool b 0 then inf_of_sign a else Fin (a / b)
  | Fin _, PInf | Fin _, NInf => Fin 0
  | PInf, Fin b => if Qltb b 0 then NInf else PInf
  | NInf, Fin b => if Qltb b 0 then PInf else NInf
  | _, _ => NaN
  end.

(** [x <= y] *)
Definition Fleb (x y : npfloat) : bool :=
  match x, y with
  | NaN, _ | _, NaN => false
  | Fin a, Fin b => Qleb a b
  | NInf, _ | _, PInf => true
  | _, _ => false
  end.

(** [np.sum] *)
Definition Fsum (l : list npfloat) : npfloat := fold_right Fadd (Fin 0) l.

(** [np.mean]: NaN on an empty array. *)
Definition Fmean (l : list npfloat) : npfloat :=
  Fdiv (Fsum l) (Fin (inject_Z (Z.of_nat (List.length l)))).

(** [np.diff] *)
Fixpoint Fdiff (l : list npfloat) : list npfloat :=
  match l with
  | a :: (b :: _) as t => Fsub b a :: Fdiff t
  | _ => []
  end.

End Np.

(** ** Serial ingestion *)

Module Serial.

Import Np.

Definition WINDOW_SIZE : nat := 100.

(** One read of the serial port, decoded: the bytes are not UTF-8, or
    they decode to a line of text. *)
Inductive serial_read : Type :=
| Undecodable
| Text (line : string).

(** [raw_line.decode('utf-8')] *)
Definition decode (r : serial_read) : result string :=
  match r with
  | Undecodable => Raise UnicodeDecodeError
  | Text line => Ok line
  end.

(** Python's whitespace among the code points below 256. *)
Definition is_space (c : ascii) : bool :=
  let n := nat_of_ascii c in
  ((9 <=? n) && (n <=? 13) || (28 <=? n) && (n <=? 32)
   || (n =? 133) || (n =? 160))%nat.

Fixpoint lstrip (s : list ascii) : list ascii :=
  match s with
  | c :: t => if is_space c then lstrip t else s
  | [] => []
  end.

(** [str.strip()] *)
Definition strip (s : string) : string :=
  string_of_list_ascii
    (rev (lstrip (rev (lstrip (list_ascii_of_string s))))).

(** [str.split(',')] *)
Fixpoint split_comma (s : string) : list string :=
  match s with
  | EmptyString => [EmptyString]
  | String c t =>
      if Ascii.eqb c "," then EmptyString :: split_comma t
      else match split_comma t with
           | f :: fs => String c f :: fs
           | [] => [String c EmptyString]
           end
  end.

(** The whitespace that [float] and [int] skip around a number: the
    ASCII whitespace, and the two spaces above 127, which the
    conversion turns into blanks first.  The separators 28 to 31, which
    [str.strip] removes, are not among them. *)
Definition is_number_space (c : ascii) : bool :=
  let n := nat_of_ascii c in
  ((9 <=? n) && (n <=? 13) || (n =? 32) || (n =? 133) || (n =? 160))%nat.

Fixpoint number_lstrip (s : list ascii) : list ascii :=
  match s with
  | c :: t => if is_number_space c then number_lstrip t else s
  | [] => []
  end.

(** The characters of a field between the whitespace that the
    conversions skip. *)
Definition number_body (s : string) : list ascii :=
  rev (number_lstrip (rev (number_lstrip (list_ascii_of_string s)))).

Definition digit_val (c : ascii) : option Z :=
  let n := nat_of_ascii c in
  if ((48 <=? n) && (n <=? 57))%nat then Some (Z.of_nat n - 48)%Z else None.

(** The rest of a [digitpart] of Python's numeric grammar,
    [digit (["_"] digit)*], after its first digit: the value so far, the
    number of digits read and the unread input. *)
Fixpoint digitpart_tail (acc : Z) (len : nat) (s : list ascii)
  : Z * nat * list ascii :=
  match s with
  | c :: t =>
      match digit_val c with
      | Some d => digitpart_tail (10 * acc + d)%Z (S len) t
      | None =>
          if Ascii.eqb c "_" then
            match t with
            | c2 :: t2 =>
                match digit_val c2 with
                | Some d => digitpart_tail (10 * acc + d)%Z (S len) t2
                | None => (acc, len, s)
                end
            | [] => (acc, len, s)
            end
          else (acc, len, s)
      end
  | [] => (acc, len, s)
  end.

Definition digitpart (s : list ascii) : option (Z * nat * list ascii) :=
  match s with
  | c :: t =>
      match digit_val c with
      | Some d => Some (digitpart_tail d 1 t)
      | None => None
      end
  | [] => None
  end.

(** An optional sign: whether it is a minus, and the unread input. *)
Definition sign (s : list ascii) : bool * list ascii :=
  match s with
  | c :: t =>
      if Ascii.eqb c "-" then (true, t)
      else if Ascii.eqb c "+" then (false, t)
      else (false, s)
  | [] => (false, s)
  end.

(** [int(s)] in base 10. *)
Definition py_int (s : string) : result Z :=
  let '(neg, body) := sign (number_body s) in
  match digitpart body with
  | Some (v, _, []) => Ok (if neg then (- v)%Z else v)
  | _ => Raise ValueError
  end.

Definition lower (c : ascii) : ascii :=
  let n := nat_of_ascii c in
  if ((65 <=? n) && (n <=? 90))%nat then ascii_of_nat (n + 32) else c.

(** Case-insensitive comparison with a lower-case word. *)
Definition is_word (w : string) (s : list ascii) : bool :=
  String.eqb (string_of_list_ascii (map lower s)) w.

Definition pow10 (e : Z) : Q :=
  if (0 <=? e)%Z then inject_Z (10 ^ e) else 1 / inject_Z (10 ^ (- e)).

(** [number ::= [digitpart] "." digitpart | digitpart ["."]]: the digits
    read as one integer, the number of digits after the point and the
    unread input. *)
Definition number (s : list ascii) : option (Z * nat * list ascii) :=
  match digitpart s with
  | Some (i, _, rest) =>
      match rest with
      | c :: t =>
          if Ascii.eqb c "." then
            match digitpart t with
            | Some (f, fl, rest') =>
                Some ((i * 10 ^ Z.of_nat fl + f)%Z, fl, rest')
            | None => Some (i, 0%nat, t)
            end
          else Some (i, 0%nat, rest)
      | [] => Some (i, 0%nat, [])
      end
  | None =>
      match s with
      | c :: t =>
          if Ascii.eqb c "." then
            match digitpart t with
            | Some (f, fl, rest') => Some (f, fl, rest')
            | None => None
            end
          else None
      | [] => None
      end
  end.

(** [exponent ::= ("e" | "E") ["+" | "-"] digitpart], optional. *)
Definition exponent (s : list ascii) : option (Z * list ascii) :=
  match s with
  | c :: t =>
      if Ascii.eqb (lower c) "e" then
        let '(neg, body) := sign t in
        match digitpart body with
        | Some (v, _, rest) => Some (if neg then (- v)%Z else v, rest)
        | None => None
        end
      else Some (0%Z, s)
  | [] => Some (0%Z, [])
  end.

(** Every magnitude from [2^1024 - 2^970] on rounds beyond the largest
    double, and the conversion gives an infinity.  The rounding of a
    smaller value is outside the model. *)
Definition overflow_bound : Q := inject_Z (2 ^ 1024 - 2 ^ 970).

Definition to_double (v : Q) : npfloat :=
  if Qleb overflow_bound (Qabs v) then inf_of_sign v else Fin v.

(** [float(s)] *)
Definition py_float (s : string) : result npfloat :=
  let '(neg, body) := sign (number_body s) in
  if is_word "inf" body || is_word "infinity" body then
    Ok (if neg then NInf else PInf)
  else if is_word "nan" body then Ok NaN
  else
    match number body with
    | Some (m, fl, rest) =>
        match exponent rest with
        | Some (e, []) =>
            let v := inject_Z m * pow10 (e - Z.of_nat fl) in
            Ok (to_double (if neg then - v else v))
        | _ => Raise ValueError
        end
    | None => Raise ValueError
    end.

(** The row the live loop builds from a line. *)
Record raw_row : Type := {
  AccelX : npfloat;
  AccelY : npfloat;
  AccelZ : npfloat;
  FSR : Z
}.

(** [deque(maxlen=maxlen).append(x)]: the oldest item leaves a full
    deque. *)
Definition deque_append {A : Type} (maxlen : nat) (d : list A) (x : A)
  : list A :=
  let d' := d ++ [x] in skipn (List.length d' - maxlen) d'.

(** The consumed fields of an 8-field line, parsed in the order of the
    dictionary display. *)
Definition parse_row (parts : list string) : result raw_row :=
  ax <- py_float (nth 1 parts EmptyString) ;;
  ay <- py_float (nth 2 parts EmptyString) ;;
  az <- py_float (nth 3 parts EmptyString) ;;
  fsr <- py_int (nth 7 parts EmptyString) ;;
  Ok {| AccelX := ax; AccelY := ay; AccelZ := az; FSR := fsr |}.

(** [bool(line)] *)
Definition nonempty (line : string) : bool :=
  negb (String.eqb line EmptyString).

(** One turn of the [while True] loop of [run_live_detection] on one
    read: the buffer after the turn, and the window handed to the
    analysis ([get_features], the classifier, the gate and the status
    line) when there is one.  An exception of the analysis is swallowed
    by the same handler after the row is in the buffer, so the buffer
    after the turn does not depend on it. *)
Definition live_turn (data_buffer : list raw_row) (r : serial_read)
  : list raw_row * option (list raw_row) :=
  try_except
    (line0 <- decode r ;;
     let line := strip line0 in
     let parts := split_comma line in
     if nonempty line && (List.length (split_comma line) =? 8)%nat then
       let parts := split_comma line in
       row <- parse_row parts ;;
       let data_buffer' := deque_append WINDOW_SIZE data_buffer row in
       if (List.length data_buffer' =? WINDOW_SIZE)%nat
       then Ok (data_buffer', Some data_buffer')
       else Ok (data_buffer', None)
     else Ok (data_buffer, None))
    (fun _ => (data_buffer, None)).

(** One read of the recording loop of [collect_data] in
    [data_logger.py], under the label of the session. *)
Definition collect_data_turn (label : string) (data_buffer : list (list string))
  (r : serial_read) : list (list string) :=
  try_except
    (line0 <- decode r ;;
     let line := strip line0 in
     if nonempty line && (List.length (split_comma line) =? 8)%nat then
       let row := split_comma line ++ [label] in
       Ok (data_buffer ++ [row])
     else Ok data_buffer)
    (fun _ => data_buffer).

(** A well-formed line of the firmware and the row it parses to. *)
Definition good_line : string := "1200,1.5,-0.25,9.8,0.1,0.2,0.3,310".

Definition good_row : raw_row :=
  {| AccelX := Fin (15 # 10); AccelY := Fin (- (25 # 100));
     AccelZ := Fin (98 # 10); FSR := 310 |}.

(** Eight fields, none of them a number. *)
Definition letters_line : string := "a,b,c,d,e,f,g,h".

(** A field that [float] accepts. *)
Definition numeric_field (s : string) : Prop := returns (py_float s).

(** The recording accepts a line only if every field it stores is
    numeric. *)
Definition logger_accepts_only_numeric : Prop :=
  forall (label : string) (data_buffer : list (list string)) (line : string),
    collect_data_turn label data_buffer (Text line) <> data_buffer ->
    Forall numeric_field (split_comma (strip line)).

End Serial.


(** ** Live detection *)

Module Live.

Import Np Serial.

(** A parsed row as exact data, when its three accelerations are
    finite. *)
Definition exact_row (r : raw_row) : option Motion.sample :=
  match AccelX r, AccelY r, AccelZ r with
  | Fin x, Fin y, Fin z =>
      Some {| Motion.AccelX := x; Motion.AccelY := y; Motion.AccelZ := z;
              Motion.FSR := inject_Z (FSR r) |}
  | _, _, _ => None
  end.

Fixpoint exact_window (w : list raw_row) : option (list Motion.sample) :=
  match w with
  | [] => Some []
  | r :: w' =>
      match exact_row r, exact_window w' with
      | Some s, Some rows => Some (s :: rows)
      | _, _ => None
      end
  end.

(** What one turn of the loop shows: nothing while the buffer fills or
    after a dropped line, the status of the window (gated class and
    measured frequency), or nothing again when the analysis raised and
    the handler of the loop swallowed it.  A window that holds an
    infinity or a NaN (a field such as [inf] or [nan] on the wire) is
    outside the exact arithmetic of the extractor. *)
Inductive shown : Type :=
| Nothing
| Status (prediction : Z) (real_freq : Q)
| Swallowed (e : exn)
| NotExact.

Section Loop.

Context {K : Numeric}.
Variable model_predict : list Q -> result Z.

(** One turn of [while True] in [run_live_detection]. *)
Definition run_live_detection_turn (data_buffer : list raw_row) (r : serial_read)
  : list raw_row * shown :=
  let '(data_buffer', window) := live_turn data_buffer r in
  (data_buffer',
   match window with
   | None => Nothing
   | Some w =>
       match exact_window w with
       | None => NotExact
       | Some rows =>
           match Motion.analyse_window model_predict rows with
           | Ok (prediction, real_freq) => Status prediction real_freq
           | Raise e => Swallowed e
           end
       end
   end).

End Loop.

End Live.

(** ** Voice pipeline *)

Module Voice.

Import Np.

(** The functions of librosa the voice path calls, with the arguments
    the source fixes, and the two numeric builtins it needs.
    [feature_mfcc y sr] is every entry of
    [librosa.feature.mfcc(y=y, sr=sr, n_mfcc=13)]; [pyin y sr] the pitch
    track of [librosa.pyin(y, fmin=75, fmax=300, sr=sr)], NaN on an
    unvoiced frame; [feature_rms y] is
    [librosa.feature.rms(y=y, frame_length=1024, hop_length=512)[0]];
    [effects_harmonic y] is [librosa.effects.harmonic(y)], whose
    samples may be NaN or infinite;
    [effects_trim y] is [librosa.effects.trim(y, top_db=20)[0]];
    [log10] is the decimal logarithm of a positive value and
    [py_round x n] is [round(x, n)].  The samples of the audio itself
    are finite: the first call of the extractor, the MFCC, refuses a
    buffer that is not finite everywhere. *)
Class Librosa : Type := {
  feature_mfcc : list Q -> Z -> result (list npfloat);
  pyin : list Q -> Z -> result (list npfloat);
  feature_rms : list Q -> result (list npfloat);
  effects_harmonic : list Q -> result (list npfloat);
  effects_trim : list Q -> result (list Q);
  log10 : Q -> Q;
  py_round : npfloat -> Z -> npfloat
}.

Section Extractor.

Context {L : Librosa}.

(** [np.log10] *)
Definition np_log10 (x : npfloat) : npfloat :=
  match x with
  | Fin q => if Qltb 0 q then Fin (log10 q)
             else if Qeq_bool q 0 then NInf else NaN
  | PInf => PInf
  | NInf | NaN => NaN
  end.

(** [np.sum(a ** 2)] *)
Definition energy (a : list npfloat) : npfloat :=
  Fsum (map (fun v => Fmul v v) a).

(** [if noise_energy <= 0: noise_energy = 0.00001] *)
Definition floor_noise (noise_energy : npfloat) : npfloat :=
  if Fleb noise_energy (Fin 0) then Fin (1 # 100000) else noise_energy.

(** Step 5 of the extractor: the harmonics-to-noise ratio in dB. *)
Definition hnr_db (energy_total energy_harmonic : npfloat) : npfloat :=
  let noise_energy := Fsub energy_total energy_harmonic in
  let noise_energy := floor_noise noise_energy in
  Fmul (Fin 10) (np_log10 (Fdiv energy_harmonic noise_energy)).

(** [np.mean(np.abs(np.diff(x))) / np.mean(x) * 100] *)
Definition instability (x : list npfloat) : npfloat :=
  Fmul (Fdiv (Fmean (map Fabs (Fdiff x))) (Fmean x)) (Fin 100).

(** [f0[~np.isnan(f0)]] *)
Definition voiced (f0 : list npfloat) : list npfloat :=
  filter (fun v => negb (isnan v)) f0.

(** The statements the two extractors share, in the order of the
    source; [None] is the failure signal. *)
Definition voice_features (audio : list Q) (sample_rate : Z)
  : result (option (list npfloat)) :=
  m <- feature_mfcc audio sample_rate ;;
  let mfcc := Fmean m in
  f0 <- pyin audio sample_rate ;;
  let f0 := voiced f0 in
  if (List.length f0 <? 2)%nat then Ok None else
  let periods := map (Fdiv (Fin 1)) f0 in
  let jitter := instability periods in
  rms <- feature_rms audio ;;
  let target_len := Nat.min (List.length rms) (List.length f0) in
  let rms := firstn target_len rms in
  if (List.length rms <? 2)%nat then Ok None else
  let shimmer := instability rms in
  harmonic <- effects_harmonic audio ;;
  let energy_total := energy (map Fin audio) in
  let energy_harmonic := energy harmonic in
  let hnr := hnr_db energy_total energy_harmonic in
  Ok (Some [jitter; shimmer; hnr; mfcc]).

(** [extract_voice_features] of [api/server.py]: any exception is the
    failure signal. *)
Definition extract_voice_features (audio : list Q) (sample_rate : Z)
  : option (list npfloat) :=
  try_except (voice_features audio sample_rate) (fun _ => None).

(** [extract_features] of [live_voice_analysis.py]: no handler. *)
Definition extract_features (audio_array : list Q) (sample_rate : Z)
  : result (option (list npfloat)) :=
  voice_features audio_array sample_rate.

End Extractor.

(** *** Classifier adapter *)

(** A fitted classifier and a fitted scaler, by the methods called. *)
Record Model : Type := {
  predict : list npfloat -> result Z;
  predict_proba : list npfloat -> result (list npfloat)
}.

Record Scaler : Type := {
  transform : list npfloat -> result (list npfloat)
}.

(** A pickle file on disk. *)
Inductive pkl (A : Type) : Type :=
| Absent
| Corrupt
| Stored (a : A).

Arguments Absent {A}.
Arguments Corrupt {A}.
Arguments Stored {A} a.

Record disk : Type := {
  SPEECH_MODEL_FILE : pkl Model;
  SPEECH_SCALER_FILE : pkl Scaler
}.

(** [os.path.exists] *)
Definition path_exists {A : Type} (f : pkl A) : bool :=
  match f with Absent => false | _ => true end.

Definition joblib_load {A : Type} (f : pkl A) : result A :=
  match f with
  | Absent => Raise FileNotFoundError
  | Corrupt => Raise UnpicklingError
  | Stored a => Ok a
  end.

(** The module-level variables of [api/server.py]. *)
Record globals : Type := {
  speech_model : option Model;
  speech_scaler : option Scaler
}.

(** The load block of [api/server.py]: the two assignments run in
    order under one handler, and an exception keeps what was assigned
    before it. *)
Definition load_globals (d : disk) : globals :=
  let g := {| speech_model := None; speech_scaler := None |} in
  if path_exists (SPEECH_MODEL_FILE d) then
    match joblib_load (SPEECH_MODEL_FILE d) with
    | Raise _ => g
    | Ok m =>
        let g := {| speech_model := Some m;
                    speech_scaler := speech_scaler g |} in
        match joblib_load (SPEECH_SCALER_FILE d) with
        | Raise _ => g
        | Ok s => {| speech_model := speech_model g;
                     speech_scaler := Some s |}
        end
    end
  else g.

(** The load block of [analyze_voice]: only a missing file is handled,
    by leaving the function ([None]). *)
Definition analyze_voice_load (d : disk) : result (option (Model * Scaler)) :=
  match (model <- joblib_load (SPEECH_MODEL_FILE d) ;;
         scaler <- joblib_load (SPEECH_SCALER_FILE d) ;;
         Ok (model, scaler)) with
  | Ok ms => Ok (Some ms)
  | Raise FileNotFoundError => Ok None
  | Raise e => Raise e
  end.

Definition Fmax2 (x y : npfloat) : npfloat :=
  match x, y with
  | NaN, _ | _, NaN => NaN
  | _, _ => if Fleb x y then y else x
  end.

(** [np.max] *)
Definition np_max (l : list npfloat) : result npfloat :=
  match l with
  | [] => Raise ValueError
  | x :: t => Ok (fold_left Fmax2 t x)
  end.

(** What [/predict_audio] answers: the result, or an error with its
    HTTP status. *)
Inductive audio_response : Type :=
| Result (label : string) (confidence : npfloat) (features : list npfloat)
| Failure (status : Z) (message : string).

(** A number of the answer, as the JSON encoder of Flask meets it: a
    Python float, which a [numpy.float64] is, or a [numpy.float32],
    which is not one. *)
Inductive json_number : Type :=
| Float64 (x : npfloat)
| Float32 (x : npfloat).

Definition number_value (n : json_number) : npfloat :=
  match n with Float64 x | Float32 x => x end.

Definition encodable (n : json_number) : bool :=
  match n with Float64 _ => true | Float32 _ => false end.

(** [jsonify(result)]: the encoder raises [TypeError] on a value it
    does not know, and a [numpy.float32] is one. *)
Definition jsonify (label : string) (confidence : json_number)
  (features : list json_number) : result audio_response :=
  if forallb encodable (confidence :: features)
  then Ok (Result label (number_value confidence)
             (map number_value features))
  else Raise TypeError.

Section Adapter.

Context {L : Librosa}.

(** [speech_scaler.transform] on the global, which may be [None]. *)
Definition scaler_transform (scaler : option Scaler) (x : list npfloat)
  : result (list npfloat) :=
  match scaler with
  | None => Raise AttributeError
  | Some s => transform s x
  end.

(** [predict_audio] of [api/server.py]; [audio] and [rate] are the two
    keys of the request body, [None] when the key is absent.  The audio
    array is built with [dtype=np.float32], and [round] keeps the type
    of a numpy scalar.  The pitch track, and with it the jitter, is
    float64, and so is the confidence; the mean of the MFCC matrix
    of the float32 audio is a [numpy.float32].  Shimmer and HNR, also
    computed from float32 arrays, are [numpy.float32] under the
    promotion rules of numpy from 2.0 on. *)
Definition predict_audio (g : globals) (audio : option (list Q))
  (rate : option Z) : audio_response :=
  match speech_model g with
  | None => Failure 500 "Voice model not loaded"
  | Some model =>
      try_except
        (match audio, rate with
         | Some a, Some r =>
             audio_array <- effects_trim a ;;
             match extract_voice_features audio_array r with
             | None =>
                 Ok (Failure 400
                       "Could not extract features (too short/silent?)")
             | Some features =>
                 feat_scaled <- scaler_transform (speech_scaler g) features ;;
                 prediction <- predict model feat_scaled ;;
                 probs <- predict_proba model feat_scaled ;;
                 top <- np_max probs ;;
                 let confidence := Fmul top (Fin 100) in
                 let label := if (prediction =? 1)%Z then "Tremor"%string
                              else "Healthy"%string in
                 jsonify label (Float64 (py_round confidence 1))
                   [Float64 (py_round (nth 0 features NaN) 2);
                    Float32 (py_round (nth 1 features NaN) 2);
                    Float32 (py_round (nth 2 features NaN) 1);
                    Float32 (py_round (nth 3 features NaN) 2)]
             end
         | _, _ => Ok (Failure 400 "Missing audio data or sample rate")
         end)
        (fun e => Failure 500 (exn_str e))
  end.

(** One recording of the loop of [analyze_voice], after the load went
    through: [None] when no clear voice was found ([continue]). *)
Definition analyze_voice_round (model : Model) (scaler : Scaler)
  (audio : list Q) (sample_rate : Z)
  : result (option (Z * npfloat * list npfloat)) :=
  audio <- effects_trim audio ;;
  features <- extract_features audio sample_rate ;;
  match features with
  | None => Ok None
  | Some features =>
      feat_scaled <- transform scaler features ;;
      prediction <- predict model feat_scaled ;;
      probs <- predict_proba model feat_scaled ;;
      top <- np_max probs ;;
      let confidence := Fmul top (Fin 100) in
      Ok (Some (prediction, confidence, features))
  end.

End Adapter.

(** *** Concrete runs *)

(** A short clip. *)
Definition clip : list Q := [1 # 2; - (1 # 2); 1 # 4; - (1 # 4)].

(** A run of the library calls on a voiced clip: three voiced pitch
    estimates among five frames, four RMS values and a harmonic part of
    half the amplitude.  The logarithm is a stand-in; no property below
    depends on its values. *)
Definition voiced_run : Librosa := {|
  feature_mfcc := fun _ _ => Ok [Fin 1; Fin 3];
  pyin := fun _ _ => Ok [NaN; Fin 150; Fin 152; NaN; Fin 149];
  feature_rms := fun _ => Ok [Fin (5 # 10); Fin (6 # 10); Fin (55 # 100);
                              Fin (5 # 10)];
  effects_harmonic := fun y => Ok (map (fun v => Fin (v / 2)) y);
  effects_trim := fun y => Ok y;
  log10 := fun q => q - 1;
  py_round := fun x _ => x
|}.




(** Model and scaler are both loaded or both missing. *)
Definition loaded_together (g : globals) : Prop :=
  (speech_model g = None /\ speech_scaler g = None) \/
  (speech_model g <> None /\ speech_scaler g <> None).

End Voice.

(** ** More motion data *)

Module MotionData.

Import Motion.

(** A row with its pressure reading set to zero. *)
Definition zero_FSR (r : sample) : sample :=
  {| AccelX := AccelX r; AccelY := AccelY r; AccelZ := AccelZ r; FSR := 0 |}.

(** A frame of ten samples whose detrended magnitude is largest at
    index 1. *)
Definition ten_samples : list sample :=
  map (fun z => {| AccelX := 0; AccelY := 0; AccelZ := z; FSR := 310 |})
      [1; 9; 1; 1; 1; 1; 1; 1; 1; 1].

(** A classifier that always answers Tremor. *)
Definition always_tremor (features : list Q) : result Z := Ok 1%Z.

End MotionData.

(** ** The stream of reads *)

Module Stream.

Import Np Serial.

(** The row a read carries, when the live loop ingests it. *)
Definition accepted_row (r : serial_read) : option raw_row :=
  match r with
  | Undecodable => None
  | Text line0 =>
      let parts := split_comma (strip line0) in
      if (List.length parts =? 8)%nat then
        match parse_row parts with
        | Ok row => Some row
        | Raise _ => None
        end
      else None
  end.

(** The rows a sequence of reads carries, in order of arrival. *)
Fixpoint accepted_rows (reads : list serial_read) : list raw_row :=
  match reads with
  | [] => []
  | r :: rest =>
      match accepted_row r with
      | Some row => row :: accepted_rows rest
      | None => accepted_rows rest
      end
  end.

(** The buffer after the turns of the loop on a sequence of reads. *)
Fixpoint run (data_buffer : list raw_row) (reads : list serial_read)
  : list raw_row :=
  match reads with
  | [] => data_buffer
  | r :: rest => run (fst (live_turn data_buffer r)) rest
  end.

(** The last [n] items of a list. *)
Definition lastn {A : Type} (n : nat) (l : list A) : list A :=
  skipn (List.length l - n) l.

(** Two more lines of the firmware. *)
Definition second_line : string := "1220,1.25,0.5,9.5,0.0,0.0,0.0,305".

Definition second_row : raw_row :=
  {| AccelX := Fin (125 # 100); AccelY := Fin (5 # 10);
     AccelZ := Fin (95 # 10); FSR := 305 |}.

End Stream.

(** ** Sensor recording of the test battery *)

Module Recording.

Import Np Serial.

(** The number of commas of a line. *)
Fixpoint count_commas (s : string) : nat :=
  match s with
  | EmptyString => 0%nat
  | String c t => if Ascii.eqb c "," then S (count_commas t) else count_commas t
  end.

(** The row [read_sensor_data] of [cognitive_tests.py] builds from a
    line: every field is parsed. *)
Record sensor_row : Type := {
  Timestamp : npfloat;
  AccelX : npfloat;
  AccelY : npfloat;
  AccelZ : npfloat;
  GyroX : npfloat;
  GyroY : npfloat;
  GyroZ : npfloat;
  FSR : Z
}.

Definition parse_sensor_row (parts : list string) : result sensor_row :=
  ts <- py_float (nth 0 parts EmptyString) ;;
  ax <- py_float (nth 1 parts EmptyString) ;;
  ay <- py_float (nth 2 parts EmptyString) ;;
  az <- py_float (nth 3 parts EmptyString) ;;
  gx <- py_float (nth 4 parts EmptyString) ;;
  gy <- py_float (nth 5 parts EmptyString) ;;
  gz <- py_float (nth 6 parts EmptyString) ;;
  fsr <- py_int (nth 7 parts EmptyString) ;;
  Ok {| Timestamp := ts; AccelX := ax; AccelY := ay; AccelZ := az;
        GyroX := gx; GyroY := gy; GyroZ := gz; FSR := fsr |}.

(** One read of the loop of [read_sensor_data]. *)
Definition read_sensor_data_turn (data : list sensor_row) (r : serial_read)
  : list sensor_row :=
  try_except
    (line0 <- decode r ;;
     let line := strip line0 in
     if nonempty line then
       let parts := split_comma line in
       if (List.length parts =? 8)%nat then
         row <- parse_sensor_row parts ;;
         Ok (data ++ [row])
       else Ok data
     else Ok data)
    (fun _ => data).

(** [read_sensor_data]: the rows of the reads made within the duration;
    nothing without a serial connection. *)
Definition read_sensor_data (connected : bool) (reads : list serial_read)
  : list sensor_row :=
  if negb connected then []
  else fold_left read_sensor_data_turn reads [].

(** The part of a sensor row that the live loop keeps. *)
Definition live_part (row : sensor_row) : raw_row :=
  {| Serial.AccelX := AccelX row; Serial.AccelY := AccelY row;
     Serial.AccelZ := AccelZ row; Serial.FSR := FSR row |}.

(** A line whose timestamp and gyroscope fields are not numbers. *)
Definition partial_line : string := "t,1.5,-0.25,9.8,x,y,z,310".

End Recording.

(** ** The training table *)

Module TrainTable.

Import Motion Train.

(** The rows [df.iloc[start:start + WINDOW_SIZE]]. *)
Definition window_at (df : list labelled) (start : Z) : list labelled :=
  iloc df start (start + WINDOW_SIZE).

(** The rows of the window share one label. *)
Definition single_label (df : list labelled) (start : Z) : bool :=
  (List.length (unique (map Label (window_at df start))) <=? 1)%nat.

(** The visited starts whose window is kept. *)
Definition kept (df : list labelled) : list Z :=
  filter (single_label df) (starts df).

(** The label of the first row of a window. *)
Definition first_label (rows : list labelled) : Z := hd 0%Z (map Label rows).

Section Table.

Context {K : Numeric}.

(** The feature values the trainer appends for a window. *)
Definition window_features (rows : list labelled) : list Q :=
  match get_features_from_window (DataFrame_of (map row rows)) with
  | Ok d => dict_values d
  | Raise _ => []
  end.

End Table.

(** A recording of two sessions: [n] rows under label 0, then [m] rows
    under label 1. *)
Definition two_sessions (n m : nat) : list labelled :=
  repeat {| row := {| AccelX := 0; AccelY := 0; AccelZ := 98 # 10;
                      FSR := 300 |};
            Label := 0 |} n
  ++ repeat {| row := {| AccelX := 3; AccelY := 4; AccelZ := 0;
                         FSR := 310 |};
               Label := 1 |} m.

End TrainTable.

(** ** A classifier for the voice paths *)

Module VoiceReport.

Import Np Voice.

(** A classifier that answers class 1 with probability 3/4, and a scaler
    that leaves the features as they are. *)
Definition tremor_model : Model :=
  {| predict := fun _ => Ok 1%Z;
     predict_proba := fun _ => Ok [Fin (1 # 4); Fin (3 # 4)] |}.

Definition identity_scaler : Scaler := {| transform := fun x => Ok x |}.

End VoiceReport.

(** ** The fabricated training file *)

Module Fabricate.

Import Motion Train.

Definition SAMPLES_PER_CLASS : nat := 2000.

(** One generated segment of [fabricate_data.py]: [SAMPLES_PER_CLASS]
    rows under one label.  The values of a row come from the random
    generators and the waves of the source; [values k] stands for those
    of row [k]. *)
Definition generate_segment (label : Z) (values : nat -> sample)
  : list labelled :=
  map (fun k => {| row := values k; Label := label |})
      (seq 0 SAMPLES_PER_CLASS).

Definition generate_rest_segment : (nat -> sample) -> list labelled :=
  generate_segment 0.

Definition generate_tremor_segment : (nat -> sample) -> list labelled :=
  generate_segment 1.

Definition generate_voluntary_segment : (nat -> sample) -> list labelled :=
  generate_segment 2.

(** The main block: ten sessions of a rest, a tremor and a voluntary
    segment, concatenated.  [draws i c] are the values of the segment of
    class [c] in session [i]. *)
Definition df_list (draws : nat -> Z -> nat -> sample)
  : list (list labelled) :=
  flat_map (fun i => [generate_rest_segment (draws i 0%Z);
                      generate_tremor_segment (draws i 1%Z);
                      generate_voluntary_segment (draws i 2%Z)])
           (seq 0 10).

Definition final_df (draws : nat -> Z -> nat -> sample) : list labelled :=
  List.concat (df_list draws).

(** Draws that are the same row everywhere. *)
Definition still (i : nat) (c : Z) (k : nat) : sample :=
  {| AccelX := 0; AccelY := 0; AccelZ := 98 # 10; FSR := 300 |}.

End Fabricate.

(** ** The test battery *)

Module Battery.

Import Np Serial Motion.

Definition SAMPLING_RATE_SENSOR : Q := 50.
Definition SAMPLING_RATE_AUDIO : Z := 22050.

(** The sensor tests below take the rows [read_sensor_data] built, as
    exact data when their accelerations are finite, read the frame
    [DataFrame_of_records] makes of them, and touch its acceleration
    columns only. *)

(** [df.empty] *)
Definition empty (df : DataFrame) : bool := (df_len df =? 0)%nat.

(** [x > y] on floats. *)
Definition Fgtb (x y : npfloat) : bool :=
  match x, y with
  | NaN, _ | _, NaN => false
  | _, _ => negb (Fleb x y)
  end.

Section SensorTests.

Context {K : Numeric}.


(** [(pos_freqs >= 3.0) & (pos_freqs <= 6.0)] *)
Definition resting_band_mask (freqs : list Q) : list bool :=
  zip_with andb (map (fun f => Qleb 3 f) freqs)
                (map (fun f => Qleb f 6) freqs).

(** What [test_resting_tremor] prints: nothing without a recording, or
    the dominant frequency, the energy of the band and the flag. *)
Inductive resting_report : Type :=
| NoRecording
| Resting (peak_freq tremor_energy : Q) (flag : bool).

(** [test_resting_tremor], from the recording on. *)
Definition test_resting_tremor (data : list sample) : result resting_report :=
  let df := DataFrame_of_records data in
  if empty df then Ok NoRecording else
  ax <- col df "AccelX" ;;
  ay <- col df "AccelY" ;;
  az <- col df "AccelZ" ;;
  let acc_mag := magnitude ax ay az in
  let acc_mag := detrend acc_mag in
  let N := List.length acc_mag in
  yf <- scipy_fft_abs acc_mag ;;
  let xf := fftfreq N (1 / SAMPLING_RATE_SENSOR) in
  let pos_freqs := firstn (N / 2) xf in
  let pos_mags := map (Qmult (2 / inject_Z (Z.of_nat N))) (firstn (N / 2) yf) in
  let mask := resting_band_mask pos_freqs in
  let tremor_energy := np_sum (select mask pos_mags) in
  k <- np_argmax pos_mags ;;
  let peak_freq := nth k pos_freqs 0 in
  Ok (Resting peak_freq tremor_energy
        (Qltb 5 tremor_energy && (Qleb 3 peak_freq && Qleb peak_freq 6))).

(** The three verdicts of [test_action_tremor]. *)
Inductive action_verdict : Type :=
| Essential
| LowFrequency
| Steady.

Inductive action_report : Type :=
| NoAction
| Action (rms peak_freq : Q) (verdict : action_verdict).

(** [test_action_tremor], from the recording on; the peak frequency is
    read from the full array [xf]. *)
Definition test_action_tremor (data : list sample) : result action_report :=
  let df := DataFrame_of_records data in
  if empty df then Ok NoAction else
  ax <- col df "AccelX" ;;
  ay <- col df "AccelY" ;;
  az <- col df "AccelZ" ;;
  let acc_mag := magnitude ax ay az in
  let acc_mag := detrend acc_mag in
  let rms := np_sqrt (np_mean (map sq acc_mag)) in
  let N := List.length acc_mag in
  yf <- scipy_fft_abs acc_mag ;;
  let xf := fftfreq N (1 / SAMPLING_RATE_SENSOR) in
  let pos_mags := map (Qmult (2 / inject_Z (Z.of_nat N))) (firstn (N / 2) yf) in
  k <- np_argmax pos_mags ;;
  (* a numpy index past the end raises *)
  peak_freq <- (if (k <? List.length xf)%nat then Ok (nth k xf 0)
                else Raise IndexError) ;;
  Ok (Action rms peak_freq
        (if Qltb 2 rms && (Qleb 6 peak_freq && Qleb peak_freq 12) then Essential
         else if Qltb 2 rms && Qltb peak_freq 6 then LowFrequency
         else Steady)).



End SensorTests.


Section VocalTest.

Context {L : Voice.Librosa}.

(** What [test_vocal_motor] prints: the phonation time, the jitter and
    the two flags. *)
Record vocal_report : Type := {
  duration : Q;
  jitter : npfloat;
  hypophonia : bool;
  vocal_tremor : bool
}.

(** The number of samples [record_audio(10)] returns. *)
Definition recorded_samples : Z := 10 * SAMPLING_RATE_AUDIO.

(** [test_vocal_motor], from the recording [y] on; [None] when less
    than a second is left after trimming.  [librosa.pyin] runs at its
    default rate. *)
Definition test_vocal_motor (y : list Q) : result (option vocal_report) :=
  y_trimmed <- Voice.effects_trim y ;;
  if (Z.of_nat (List.length y_trimmed) <? SAMPLING_RATE_AUDIO)%Z then Ok None
  else
  let duration := inject_Z (Z.of_nat (List.length y_trimmed))
                  / inject_Z SAMPLING_RATE_AUDIO in
  f0 <- Voice.pyin y_trimmed 22050 ;;
  let f0 := Voice.voiced f0 in
  let jitter :=
    if (1 <? List.length f0)%nat then
      let periods := map (Fdiv (Fin 1)) f0 in
      Fdiv (Fmean (map Fabs (Fdiff periods))) (Fmean periods)
    else Fin 0 in
  Ok (Some {| duration := duration; jitter := jitter;
              hypophonia := Qltb duration 10;
              vocal_tremor := Fgtb (Fmul jitter (Fin 100))
                                   (Fin (104 # 100)) |}).

End VocalTest.

(** A recording of two rows, and one whose third gyroscope reading did
    not parse to a number. *)
Definition two_rows : list sample :=
  [{| AccelX := 3; AccelY := 4; AccelZ := 0; FSR := 310 |};
   {| AccelX := 0; AccelY := 0; AccelZ := 1; FSR := 312 |}].


(** A run of the library on a recording with a steady pitch, from which
    nothing is trimmed. *)
Definition steady_run : Voice.Librosa := {|
  Voice.feature_mfcc := fun _ _ => Ok [Fin 1];
  Voice.pyin := fun _ _ => Ok [Fin 150; Fin 150; NaN; Fin 150];
  Voice.feature_rms := fun _ => Ok [Fin (5 # 10); Fin (5 # 10)];
  Voice.effects_harmonic := fun y => Ok (map Fin y);
  Voice.effects_trim := fun y => Ok y;
  Voice.log10 := fun q => q - 1;
  Voice.py_round := fun x _ => x
|}.

End Battery.

(** ** Deployment of the voice model *)

Module Deploy.

Import Voice.

(** [shutil.copy(src, dst)] under [if os.path.exists(src)]: the target
    is overwritten by whatever the source file holds, and left as it is
    when there is no source file. *)
Definition copy_if_exists {A : Type} (src dst : pkl A) : pkl A :=
  if path_exists src then src else dst.

(** [copy_voice_model.py]: the two files are copied one by one from the
    training folder [src_dir] to the folder of the API [dst_dir]. *)
Definition copy_voice_model (src_dir dst_dir : disk) : disk :=
  {| SPEECH_MODEL_FILE :=
       copy_if_exists (SPEECH_MODEL_FILE src_dir) (SPEECH_MODEL_FILE dst_dir);
     SPEECH_SCALER_FILE :=
       copy_if_exists (SPEECH_SCALER_FILE src_dir)
                      (SPEECH_SCALER_FILE dst_dir) |}.

End Deploy.

(** ** The data set of the speech trainer *)

Module SpeechTrain.

Import Np Voice.

Definition MAX_SAMPLES_PER_CLASS : nat := 150.
Definition TARGET_SAMPLING_RATE : Z := 16000.

(** The lists [prepare_dataset] fills. *)
Record table : Type := {
  data_features : list (list npfloat);
  data_labels : list Z
}.

Section Dataset.

Context {L : Librosa}.

(** [extract_features] of [train_speech_svm_hf.py]: the statements of
    the served extractor behind a guard on the empty array, with no
    handler. *)
Definition extract_features (audio_array : list Q) (sample_rate : Z)
  : result (option (list npfloat)) :=
  if (List.length audio_array =? 0)%nat then Ok None
  else voice_features audio_array sample_rate.

(** One of the two loops of [prepare_dataset], over the samples of a
    data set as they are after resampling: it stops once [count]
    samples of the class have been taken. *)
Fixpoint class_loop (label : Z) (ds : list (list Q)) (count : nat)
  (t : table) : result table :=
  match ds with
  | [] => Ok t
  | audio :: rest =>
      if (MAX_SAMPLES_PER_CLASS <=? count)%nat then Ok t
      else
        feats <- extract_features audio TARGET_SAMPLING_RATE ;;
        match feats with
        | Some f =>
            class_loop label rest (S count)
              {| data_features := data_features t ++ [f];
                 data_labels := data_labels t ++ [label] |}
        | None => class_loop label rest count t
        end
  end.

Definition prepare_dataset (ds_healthy ds_pathology : list (list Q))
  : result table :=
  t <- class_loop 0 ds_healthy 0
         {| data_features := []; data_labels := [] |} ;;
  class_loop 1 ds_pathology 0 t.

(** The features of the samples of a data set from which the extractor
    returns some, in the order of the data set. *)
Definition extracted (ds : list (list Q)) : list (list npfloat) :=
  flat_map (fun audio =>
              match extract_features audio TARGET_SAMPLING_RATE with
              | Ok (Some f) => [f]
              | _ => []
              end) ds.

End Dataset.

End SpeechTrain.


(** * Properties *)

(** ** Boolean comparisons *)

Lemma Qleb_le (x y : Q) : Qleb x y = true <-> x <= y.
Proof. unfold Qleb. apply Qle_bool_iff. Qed.

Lemma Qltb_lt (x y : Q) : Qltb x y = true <-> x < y.
Proof.
  unfold Qltb. rewrite negb_true_iff. split.
  - intros H. apply Qnot_le_lt. intros Hle.
    apply Qle_bool_iff in Hle. congruence.
  - intros H. destruct (Qle_bool y x) eqn:E; [|reflexivity].
    apply Qle_bool_iff in E. exfalso. exact (Qlt_not_le _ _ H E).
Qed.

Lemma Qltb_ge (x y : Q) : Qltb x y = false <-> y <= x.
Proof.
  unfold Qltb. rewrite negb_false_iff. apply Qle_bool_iff.
Qed.

(** ** Decision gate *)

Module GateFacts.

Import Motion.

Lemma gate_api_tremor (f : Q) :
  gate_api 1 f = if Qltb 7 f || Qltb f 3 then 2%Z else 1%Z.
Proof.
  unfold gate_api. simpl. destruct (Qltb 7 f), (Qltb f 3); reflexivity.
Qed.

Lemma gate_live_tremor (f : Q) :
  gate_live 1 f = if Qltb f (35 # 10) || Qltb (75 # 10) f then 2%Z else 1%Z.
Proof. reflexivity. Qed.

Lemma gate_api_other (p : Z) (f : Q) : p <> 1%Z -> gate_api p f = p.
Proof.
  intros H. unfold gate_api. destruct (Z.eqb_spec p 1); [contradiction|reflexivity].
Qed.

Lemma gate_live_other (p : Z) (f : Q) : p <> 1%Z -> gate_live p f = p.
Proof.
  intros H. unfold gate_live. destruct (Z.eqb_spec p 1); [contradiction|reflexivity].
Qed.

Lemma gate_api_outside (f : Q) : f < 3 \/ 7 < f -> gate_api 1 f = 2%Z.
Proof.
  intros H. rewrite gate_api_tremor.
  destruct H as [H|H]; apply Qltb_lt in H; rewrite H;
    [rewrite orb_true_r|]; reflexivity.
Qed.

Lemma gate_live_outside (f : Q) :
  f < 35 # 10 \/ 75 # 10 < f -> gate_live 1 f = 2%Z.
Proof.
  intros H. rewrite gate_live_tremor.
  destruct H as [H|H]; apply Qltb_lt in H; rewrite H;
    [|rewrite orb_true_r]; reflexivity.
Qed.

Section Pipelines.

Context {K : Numeric}.
Variable model_predict : list Q -> result Z.

(** A request that carries the three accelerations reaches the gate
    with the class of the classifier and the first feature. *)
Lemma predict_runs_gate (df : DataFrame) (features : list Q) (p : Z) :
  has_column "AccelX" df = true ->
  has_column "AccelY" df = true ->
  has_column "AccelZ" df = true ->
  get_features (fill_FSR df) = Ok features ->
  model_predict features = Ok p ->
  predict model_predict true (Some df)
  = Verdict (gate_api p (nth 0 features 0))
            (labels (gate_api p (nth 0 features 0)))
            (nth 0 features 0) (nth 1 features 0).
Proof.
  intros HX HY HZ Hfeat Hp. unfold predict. simpl.
  rewrite HX, HY, HZ. simpl. rewrite Hfeat. simpl. rewrite Hp.
  reflexivity.
Qed.

Lemma analyse_window_runs_gate (rows : list sample) (features : list Q)
  (p : Z) :
  get_features_live (DataFrame_of rows) = Ok features ->
  model_predict features = Ok p ->
  analyse_window model_predict rows
  = Ok (gate_live p (nth 0 features 0), nth 0 features 0).
Proof.
  intros Hfeat Hp. unfold analyse_window.
  destruct rows as [|r rows].
  - change (get_features_live (DataFrame_of []))
      with (@Raise (list Q) ValueError) in Hfeat.
    discriminate Hfeat.
  - cbn [DataFrame_of_records]. rewrite Hfeat. simpl.
    rewrite Hp. reflexivity.
Qed.

(** Whatever verdict [/predict] gives, its class is the gate applied to
    some class of the classifier and to the frequency it reports. *)
Lemma predict_class_is_gate (loaded : bool) (data : option DataFrame)
  (c : Z) (l : string) (d t : Q) :
  predict model_predict loaded data = Verdict c l d t ->
  exists features p,
    model_predict features = Ok p /\ d = nth 0 features 0 /\
    c = gate_api p d.
Proof.
  unfold predict. destruct loaded; simpl; [|discriminate].
  destruct data as [df|]; [|discriminate].
  destruct (has_column "AccelX" df); simpl; [|discriminate].
  destruct (has_column "AccelY" df); simpl; [|discriminate].
  destruct (has_column "AccelZ" df); simpl; [|discriminate].
  match goal with |- context [get_features ?x] =>
    destruct (get_features x) as [features|e] end; simpl; [|discriminate].
  destruct (model_predict features) as [p|e] eqn:Hp; simpl; [|discriminate].
  intros H. injection H as <- _ <- _. exists features, p. auto.
Qed.

End Pipelines.

Lemma analyse_window_class_is_gate {K : Numeric}
  (model_predict : list Q -> result Z) (rows : list sample) (c : Z) (d : Q) :
  analyse_window model_predict rows = Ok (c, d) ->
  exists features p,
    model_predict features = Ok p /\ d = nth 0 features 0 /\
    c = gate_live p d.
Proof.
  unfold analyse_window.
  destruct (get_features_live (DataFrame_of_records rows)) as [features|e];
    simpl; [|discriminate].
  destruct (model_predict features) as [p|e] eqn:Hp; simpl; [|discriminate].
  intros H. injection H as <- <-. exists features, p. auto.
Qed.

(** The status a turn of the live loop shows is the gate applied to the
    class of the classifier and to the measured frequency. *)
Lemma iteration_status_is_gate {K : Numeric}
  (model_predict : list Q -> result Z) (data_buffer buffer' : list Serial.raw_row)
  (r : Serial.serial_read) (c : Z) (d : Q) :
  Live.run_live_detection_turn model_predict data_buffer r = (buffer', Live.Status c d) ->
  exists features p,
    model_predict features = Ok p /\ d = nth 0 features 0 /\
    c = gate_live p d.
Proof.
  unfold Live.run_live_detection_turn.
  destruct (Serial.live_turn data_buffer r) as [b' [w|]]; [|discriminate].
  destruct (Live.exact_window w) as [rows|]; [|discriminate].
  destruct (analyse_window model_predict rows) as [[c' d']|e] eqn:E;
    [|discriminate].
  intros H. injection H as _ <- <-.
  exact (analyse_window_class_is_gate model_predict rows c' d' E).
Qed.

(** C1. Decision gate override.  A class-1 (Tremor) prediction whose
    measured dominant frequency lies outside [3.0, 7.0] Hz becomes class
    2 (Voluntary) in the offline/API gate, and outside [3.5, 7.5] Hz in
    the live gate; the verdict of [/predict] and the result of the live
    analysis carry that class.  At 2.0 Hz both gates give class 2. *)
Theorem gate_override {K : Numeric} (model_predict : list Q -> result Z)
  (p : Z) (f : Q) (Hp : p = 1%Z) :
  (f < 3 \/ 7 < f -> gate_api p f = 2%Z) /\
  (f < 35 # 10 \/ 75 # 10 < f -> gate_live p f = 2%Z) /\
  (f == 2 -> gate_api p f = 2%Z /\ gate_live p f = 2%Z) /\
  (forall df features,
      has_column "AccelX" df = true -> has_column "AccelY" df = true ->
      has_column "AccelZ" df = true ->
      get_features (fill_FSR df) = Ok features ->
      model_predict features = Ok p ->
      nth 0 features 0 = f -> f < 3 \/ 7 < f ->
      predict model_predict true (Some df)
      = Verdict 2 "Voluntary" f (nth 1 features 0)) /\
  (forall rows features,
      get_features_live (DataFrame_of rows) = Ok features ->
      model_predict features = Ok p ->
      nth 0 features 0 = f -> f < 35 # 10 \/ 75 # 10 < f ->
      analyse_window model_predict rows = Ok (2%Z, f)).
Proof.
  subst p. split; [apply gate_api_outside|].
  split; [apply gate_live_outside|].
  split.
  - intros H2. split.
    + apply gate_api_outside. left. rewrite H2. reflexivity.
    + apply gate_live_outside. left. rewrite H2. reflexivity.
  - split.
    + intros df features HX HY HZ Hfeat Hp Hf Hout.
      rewrite (predict_runs_gate model_predict df features 1 HX HY HZ Hfeat Hp).
      rewrite Hf, (gate_api_outside f Hout). reflexivity.
    + intros rows features Hfeat Hp Hf Hout.
      rewrite (analyse_window_runs_gate model_predict rows features 1 Hfeat Hp).
      rewrite Hf, (gate_live_outside f Hout). reflexivity.
Qed.

Lemma gate_override_witness :
  gate_api 1 2 = 2%Z /\ gate_live 1 2 = 2%Z /\
  gate_api 1 (15 # 2) = 2%Z /\ gate_live 1 (31 # 10) = 2%Z.
Proof.
  pose proof (gate_override (fun _ => Ok 1%Z) 1 2 eq_refl) as (_ & _ & H2 & _).
  pose proof (gate_override (fun _ => Ok 1%Z) 1 (15 # 2) eq_refl) as (Ha & _).
  pose proof (gate_override (fun _ => Ok 1%Z) 1 (31 # 10) eq_refl) as (_ & Hl & _).
  split; [apply H2; reflexivity|].
  split; [apply H2; reflexivity|].
  split; [apply Ha; right; reflexivity | apply Hl; left; reflexivity].
Defined.

(** C10. Gate identity.  The gate rewrites class 1 only: a prediction
    other than 1 comes out unchanged for every frequency, a prediction 1
    comes out as 1 or 2, class 0 is produced from class 0 only, and the
    class of a verdict is the gate applied to the class of the
    classifier and to the measured dominant frequency, nothing else. *)
Theorem gate_identity {K : Numeric} (model_predict : list Q -> result Z)
  (p : Z) (f : Q) :
  (p <> 1%Z -> gate_api p f = p /\ gate_live p f = p) /\
  (p = 1%Z -> (gate_api p f = 1%Z \/ gate_api p f = 2%Z) /\
              (gate_live p f = 1%Z \/ gate_live p f = 2%Z)) /\
  (gate_api p f = 0%Z -> p = 0%Z) /\
  (gate_live p f = 0%Z -> p = 0%Z) /\
  (forall loaded data c l d t,
      predict model_predict loaded data = Verdict c l d t ->
      exists features q,
        model_predict features = Ok q /\ d = nth 0 features 0 /\
        c = gate_api q d) /\
  (forall data_buffer r buffer' c d,
      Live.run_live_detection_turn model_predict data_buffer r = (buffer', Live.Status c d) ->
      exists features q,
        model_predict features = Ok q /\ d = nth 0 features 0 /\
        c = gate_live q d).
Proof.
  assert (Hone : p = 1%Z ->
                 (gate_api p f = 1%Z \/ gate_api p f = 2%Z) /\
                 (gate_live p f = 1%Z \/ gate_live p f = 2%Z)).
  { intros ->. rewrite gate_api_tremor, gate_live_tremor.
    destruct (Qltb 7 f || Qltb f 3), (Qltb f (35 # 10) || Qltb (75 # 10) f);
      auto. }
  split; [intros H; split; [apply gate_api_other | apply gate_live_other]; exact H|].
  split; [exact Hone|].
  split.
  { intros H0. destruct (Z.eq_dec p 1) as [E|E].
    - destruct (Hone E) as [[H|H] _]; rewrite H in H0; discriminate.
    - rewrite (gate_api_other p f E) in H0. exact H0. }
  split.
  { intros H0. destruct (Z.eq_dec p 1) as [E|E].
    - destruct (Hone E) as [_ [H|H]]; rewrite H in H0; discriminate.
    - rewrite (gate_live_other p f E) in H0. exact H0. }
  split.
  - intros loaded data c l d t. apply predict_class_is_gate.
  - intros data_buffer r buffer' c d. apply iteration_status_is_gate.
Qed.

Lemma gate_identity_witness :
  gate_api 0 5 = 0%Z /\ gate_live 0 5 = 0%Z /\
  gate_api 2 1 = 2%Z /\ gate_live 2 9 = 2%Z.
Proof.
  pose proof (gate_identity (fun _ => Ok 0%Z) 0 5) as (H0 & _).
  pose proof (gate_identity (fun _ => Ok 0%Z) 2 1) as (H1 & _).
  pose proof (gate_identity (fun _ => Ok 0%Z) 2 9) as (H2 & _).
  split; [apply H0; discriminate|].
  split; [apply H0; discriminate|].
  split; [apply H1; discriminate | apply H2; discriminate].
Defined.

End GateFacts.

(** ** Arrays *)

Module ArrayFacts.

Lemma zip_with_length {A B C : Type} (f : A -> B -> C) (l : list A)
  (m : list B) :
  List.length (zip_with f l m) = Nat.min (List.length l) (List.length m).
Proof.
  revert m. induction l as [|a l IH]; intros [|b m]; simpl; auto.
Qed.

Lemma fftfreq_length (n : nat) (d : Q) : List.length (fftfreq n d) = n.
Proof. unfold fftfreq. rewrite length_map, length_seq. reflexivity. Qed.

Lemma nth_map_seq (f : nat -> Q) (n k : nat) :
  (k < n)%nat -> nth k (map f (seq 0 n)) 0 = f k.
Proof.
  intros Hk. rewrite (nth_indep _ 0 (f 0%nat))
    by (rewrite length_map, length_seq; exact Hk).
  rewrite map_nth, seq_nth by exact Hk. reflexivity.
Qed.

Lemma half_le (n : nat) : (n / 2 <= n)%nat.
Proof. apply Nat.Div0.div_le_upper_bound. lia. Qed.

Lemma half_double (n k : nat) : (k < n / 2)%nat -> (2 * k + 2 <= n)%nat.
Proof.
  intros Hk. pose proof (Nat.div_mod_eq n 2). lia.
Qed.

(** Below [N//2] the sample frequency of index [k] is [k] times the
    spacing. *)
Lemma fftfreq_nth (n : nat) (d : Q) (k : nat) :
  (k < n / 2)%nat ->
  nth k (fftfreq n d) 0
  = inject_Z (Z.of_nat k) * (1 / (inject_Z (Z.of_nat n) * d)).
Proof.
  intros Hk. pose proof (half_double n k Hk) as H2.
  unfold fftfreq. rewrite nth_map_seq by lia.
  assert (Hlt : (k <? (n - 1) / 2 + 1)%nat = true).
  { apply Nat.ltb_lt. pose proof (Nat.div_mod_eq (n - 1) 2).
    pose proof (Nat.mod_upper_bound (n - 1) 2). lia. }
  rewrite Hlt. reflexivity.
Qed.

Lemma argmax_from_spec (l : list Q) :
  forall (best_i : nat) (best : Q) (i : nat),
    (best_i < i)%nat ->
    let r := argmax_from best_i best i l in
    let v := value_at best i l r in
    (r = best_i \/ (i <= r < i + List.length l)%nat) /\
    best <= v /\
    (forall j, (j < List.length l)%nat -> nth j l 0 <= v) /\
    ((i <= r)%nat ->
     best < v /\ forall j, (j < r - i)%nat -> nth j l 0 < v).
Proof.
  induction l as [|x t IH]; intros best_i best i Hlt; simpl.
  - unfold value_at. replace (best_i <? i)%nat with true
      by (symmetry; apply Nat.ltb_lt; exact Hlt).
    repeat split; try (intros; lia); auto. apply Qle_refl.
  - destruct (Qltb best x) eqn:E.
    + apply Qltb_lt in E.
      specialize (IH i x (S i) (Nat.lt_succ_diag_r i)).
      cbv zeta in IH. destruct IH as (Hr & Hb & Hall & Hbefore).
      set (r := argmax_from i x (S i) t) in *.
      assert (Hv : value_at best i (x :: t) r = value_at x (S i) t r).
      { unfold value_at.
        destruct Hr as [Hr|Hr].
        - rewrite Hr. rewrite Nat.ltb_irrefl.
          replace (i <? S i)%nat with true by (symmetry; apply Nat.ltb_lt; lia).
          rewrite Nat.sub_diag. reflexivity.
        - replace (r <? i)%nat with false by (symmetry; apply Nat.ltb_ge; lia).
          replace (r <? S i)%nat with false by (symmetry; apply Nat.ltb_ge; lia).
          replace (r - i)%nat with (S (r - S i)) by lia. reflexivity. }
      rewrite Hv. split; [lia|].
      split; [apply Qlt_le_weak; apply (Qlt_le_trans _ x); assumption|].
      split.
      * intros [|j] Hj; [exact Hb | apply Hall; lia].
      * intros Hir. split; [apply (Qlt_le_trans _ x); assumption|].
        intros [|j] Hj; [apply Hbefore; lia | apply Hbefore; lia].
    + apply Qltb_ge in E.
      specialize (IH best_i best (S i) (Nat.lt_lt_succ_r _ _ Hlt)).
      cbv zeta in IH. destruct IH as (Hr & Hb & Hall & Hbefore).
      set (r := argmax_from best_i best (S i) t) in *.
      assert (Hv : value_at best i (x :: t) r = value_at best (S i) t r).
      { unfold value_at.
        destruct Hr as [Hr|Hr].
        - rewrite Hr.
          replace (best_i <? i)%nat with true by (symmetry; apply Nat.ltb_lt; lia).
          replace (best_i <? S i)%nat with true by (symmetry; apply Nat.ltb_lt; lia).
          reflexivity.
        - replace (r <? i)%nat with false by (symmetry; apply Nat.ltb_ge; lia).
          replace (r <? S i)%nat with false by (symmetry; apply Nat.ltb_ge; lia).
          replace (r - i)%nat with (S (r - S i)) by lia. reflexivity. }
      rewrite Hv. split; [lia|].
      split; [exact Hb|].
      split.
      * intros [|j] Hj; [apply (Qle_trans _ best); assumption | apply Hall; lia].
      * intros Hir. assert (Hsr : (S i <= r)%nat) by lia.
        destruct (Hbefore Hsr) as [Hbv Hbef]. split; [exact Hbv|].
        intros [|j] Hj; [apply (Qle_lt_trans _ best); assumption | apply Hbef; lia].
Qed.

(** [np.argmax] of a non-empty array: the index is in range, its value
    is the maximum, and every value before it is strictly smaller. *)
Lemma np_argmax_spec (l : list Q) :
  l <> [] ->
  exists k, np_argmax l = Ok k /\ (k < List.length l)%nat /\
    (forall j, (j < List.length l)%nat -> nth j l 0 <= nth k l 0) /\
    (forall j, (j < k)%nat -> nth j l 0 < nth k l 0).
Proof.
  destruct l as [|x t]; [congruence|]. intros _.
  exists (argmax_from 0 x 1 t). split; [reflexivity|].
  pose proof (argmax_from_spec t 0 x 1 Nat.lt_0_1) as H. cbv zeta in H.
  destruct H as (Hr & Hb & Hall & Hbefore).
  set (r := argmax_from 0 x 1 t) in *.
  assert (Hv : value_at x 1 t r = nth r (x :: t) 0).
  { unfold value_at. destruct r as [|r]; simpl; [reflexivity|].
    rewrite Nat.sub_0_r. reflexivity. }
  rewrite Hv in *. simpl List.length. split; [lia|]. split.
  - intros [|j] Hj; [exact Hb | apply Hall; lia].
  - intros j Hj. assert (H1 : (1 <= r)%nat) by lia.
    destruct (Hbefore H1) as [Hbv Hbef].
    destruct j as [|j]; [exact Hbv | apply Hbef; lia].
Qed.

(** A masked selection keeps the bins that satisfy both tests. *)
Lemma select_mask (p q : Q -> bool) (freqs mags : list Q) :
  select (zip_with andb (map p freqs) (map q freqs)) mags
  = map snd (filter (fun b => p (fst b) && q (fst b)) (combine freqs mags)).
Proof.
  revert mags. induction freqs as [|f freqs IH]; intros [|m mags]; simpl;
    try reflexivity.
  - destruct (p f && q f); reflexivity.
  - destruct (p f && q f); simpl; rewrite IH; reflexivity.
Qed.

End ArrayFacts.

(** ** Motion features *)

Module MotionFacts.

Import Motion ArrayFacts.

(** *** Columns of a frame *)

Lemma has_column_col (df : DataFrame) (c : string) :
  has_column c df = true -> exists v, col df c = Ok v.
Proof.
  unfold has_column, columns. induction df as [|[c' v] df IH]; simpl;
    [discriminate|].
  destruct (String.eqb c c'); simpl; [intros _; eauto | exact IH].
Qed.

Lemma no_column_col (df : DataFrame) (c : string) :
  has_column c df = false -> col df c = Raise KeyError.
Proof.
  unfold has_column, columns. induction df as [|[c' v] df IH]; simpl;
    [reflexivity|].
  destruct (String.eqb c c'); simpl; [discriminate | exact IH].
Qed.

Section Frames.

Context {K : Numeric}.

Lemma acc_signal_length (rows : list sample) :
  List.length (acc_signal rows) = List.length rows.
Proof.
  unfold acc_signal, detrend, magnitude.
  rewrite !length_map, !zip_with_length, !length_map. lia.
Qed.

Lemma scipy_fft_abs_nonempty (x : list Q) :
  x <> [] -> scipy_fft_abs x = Ok (fft_abs x).
Proof. destruct x; [congruence | reflexivity]. Qed.

Lemma acc_signal_nonempty (rows : list sample) :
  rows <> [] -> acc_signal rows <> [].
Proof.
  intros Hne E. apply (f_equal (@List.length Q)) in E.
  rewrite acc_signal_length in E. destruct rows; [congruence | discriminate].
Qed.

Lemma freqs_of_length (rows : list sample) :
  List.length (freqs_of rows) = (List.length rows / 2)%nat.
Proof.
  unfold freqs_of, positive_freqs. rewrite length_firstn, fftfreq_length.
  pose proof (half_le (List.length rows)). lia.
Qed.

Lemma mags_of_length (rows : list sample) :
  List.length (mags_of rows) = (List.length rows / 2)%nat.
Proof.
  unfold mags_of, positive_mags.
  rewrite length_map, length_firstn, fft_abs_length, acc_signal_length.
  pose proof (half_le (List.length rows)). lia.
Qed.

Lemma spectrum_length (rows : list sample) :
  List.length (spectrum rows) = (List.length rows / 2)%nat.
Proof.
  unfold spectrum.
  rewrite length_combine, freqs_of_length, mags_of_length. lia.
Qed.

Lemma spectrum_nth (rows : list sample) (k : nat) :
  nth k (spectrum rows) (0, 0) = (nth k (freqs_of rows) 0, nth k (mags_of rows) 0).
Proof.
  unfold spectrum.
  apply combine_nth. rewrite freqs_of_length, mags_of_length. reflexivity.
Qed.

(** The frequency of bin [k] is [k * SAMPLING_RATE / N]. *)
Lemma bin_frequency (rows : list sample) (k : nat) :
  (k < List.length rows / 2)%nat ->
  nth k (freqs_of rows) 0
  == inject_Z (Z.of_nat k) * SAMPLING_RATE / inject_Z (Z.of_nat (List.length rows)).
Proof.
  intros Hk. pose proof (half_double _ _ Hk) as H2.
  unfold freqs_of, positive_freqs.
  rewrite nth_firstn. replace (k <? List.length rows / 2)%nat with true
    by (symmetry; apply Nat.ltb_lt; exact Hk).
  rewrite fftfreq_nth by exact Hk. unfold SAMPLING_RATE.
  assert (Hn : ~ inject_Z (Z.of_nat (List.length rows)) == 0).
  { intros E. unfold Qeq in E. simpl in E. lia. }
  field. exact Hn.
Qed.

(** The amplitude of bin [k] is [2/N] times the modulus of the
    transform at [k]. *)
Lemma bin_amplitude (rows : list sample) (k : nat) :
  (k < List.length rows / 2)%nat ->
  nth k (mags_of rows) 0
  = (2 / inject_Z (Z.of_nat (List.length rows)))
    * nth k (fft_abs (acc_signal rows)) 0.
Proof.
  intros Hk. unfold mags_of, positive_mags.
  set (c := 2 / inject_Z (Z.of_nat (List.length rows))).
  rewrite (nth_indep _ 0 (Qmult c 0)).
  - rewrite map_nth, nth_firstn.
    replace (k <? List.length rows / 2)%nat with true
      by (symmetry; apply Nat.ltb_lt; exact Hk).
    reflexivity.
  - rewrite length_map, length_firstn, fft_abs_length, acc_signal_length.
    pose proof (half_le (List.length rows)). lia.
Qed.

Lemma bin_frequency_range (rows : list sample) (k : nat) :
  (k < List.length rows / 2)%nat ->
  0 <= nth k (freqs_of rows) 0 /\ nth k (freqs_of rows) 0 < SAMPLING_RATE / 2.
Proof.
  intros Hk. pose proof (half_double _ _ Hk) as H2.
  rewrite (bin_frequency rows k Hk). unfold SAMPLING_RATE.
  set (n := List.length rows) in *.
  assert (Hpos : 0 < inject_Z (Z.of_nat n)).
  { unfold Qlt. simpl. lia. }
  assert (E : 50 / 2 == inject_Z 25) by reflexivity.
  split.
  - apply Qle_shift_div_l; [exact Hpos|].
    change 50 with (inject_Z 50). change 0 with (inject_Z 0).
    rewrite <- !inject_Z_mult, <- Zle_Qle. lia.
  - apply Qlt_shift_div_r; [exact Hpos|].
    rewrite E. change 50 with (inject_Z 50).
    rewrite <- !inject_Z_mult, <- Zlt_Qlt. lia.
Qed.

Lemma band_sums (rows : list sample) :
  np_sum (select (tremor_band_mask (freqs_of rows)) (mags_of rows))
  = band_energy tremor_band (spectrum rows) /\
  np_sum (select (voluntary_band_mask (freqs_of rows)) (mags_of rows))
  = band_energy voluntary_band (spectrum rows).
Proof.
  unfold tremor_band_mask, voluntary_band_mask, band_energy, spectrum.
  rewrite !select_mask. split; reflexivity.
Qed.

(** The dominant frequency as the API extractor computes it. *)
Lemma get_features_nonempty (rows : list sample) :
  rows <> [] ->
  get_features (DataFrame_of rows)
  = (dom_freq <- (if (0 <? List.length (mags_of rows))%nat
                  then k <- np_argmax (mags_of rows) ;;
                       Ok (nth k (freqs_of rows) 0)
                  else Ok 0) ;;
     Ok (feature_vector rows dom_freq)).
Proof.
  intros Hne. unfold get_features.
  change (col (DataFrame_of rows) "AccelX") with (Ok (map AccelX rows)).
  change (col (DataFrame_of rows) "AccelY") with (Ok (map AccelY rows)).
  change (col (DataFrame_of rows) "AccelZ") with (Ok (map AccelZ rows)).
  cbn [bind].
  change (has_column "FSR" (DataFrame_of rows)) with true.
  change (col (DataFrame_of rows) "FSR") with (Ok (map FSR rows)).
  cbn [bind]. fold (acc_signal rows).
  rewrite acc_signal_length.
  destruct (List.length rows =? 0)%nat eqn:E.
  { apply Nat.eqb_eq in E. destruct rows; [congruence | discriminate]. }
  rewrite (scipy_fft_abs_nonempty _ (acc_signal_nonempty rows Hne)).
  cbn [bind]. fold (freqs_of rows) (mags_of rows).
  destruct (band_sums rows) as [-> ->]. reflexivity.
Qed.

(** Without the pressure channel the API extractor works on zeros. *)
Lemma get_features_no_FSR_nonempty (rows : list sample) :
  rows <> [] ->
  get_features (DataFrame_no_FSR rows)
  = (dom_freq <- (if (0 <? List.length (mags_of rows))%nat
                  then k <- np_argmax (mags_of rows) ;;
                       Ok (nth k (freqs_of rows) 0)
                  else Ok 0) ;;
     Ok [dom_freq;
         band_energy tremor_band (spectrum rows);
         band_energy voluntary_band (spectrum rows);
         np_std (acc_signal rows);
         np_mean (repeat 0 (List.length rows));
         np_std (repeat 0 (List.length rows))]).
Proof.
  intros Hne. unfold get_features.
  change (col (DataFrame_no_FSR rows) "AccelX") with (Ok (map AccelX rows)).
  change (col (DataFrame_no_FSR rows) "AccelY") with (Ok (map AccelY rows)).
  change (col (DataFrame_no_FSR rows) "AccelZ") with (Ok (map AccelZ rows)).
  cbn [bind].
  change (has_column "FSR" (DataFrame_no_FSR rows)) with false.
  cbn [bind]. fold (acc_signal rows).
  rewrite acc_signal_length.
  destruct (List.length rows =? 0)%nat eqn:E.
  { apply Nat.eqb_eq in E. destruct rows; [congruence | discriminate]. }
  rewrite (scipy_fft_abs_nonempty _ (acc_signal_nonempty rows Hne)).
  cbn [bind]. fold (freqs_of rows) (mags_of rows).
  destruct (band_sums rows) as [-> ->]. reflexivity.
Qed.

(** The dominant frequency of the API extractor is always defined. *)
Lemma api_dom_freq_defined (rows : list sample) :
  exists d,
    (if (0 <? List.length (mags_of rows))%nat
     then k <- np_argmax (mags_of rows) ;; Ok (nth k (freqs_of rows) 0)
     else Ok 0) = Ok d.
Proof.
  destruct (0 <? List.length (mags_of rows))%nat eqn:E.
  - apply Nat.ltb_lt in E.
    assert (Hm : mags_of rows <> []).
    { intros E0. rewrite E0 in E. simpl in E. lia. }
    destruct (np_argmax_spec _ Hm) as (k & Hk & _).
    rewrite Hk. eexists. reflexivity.
  - eexists. reflexivity.
Qed.

Lemma get_features_live_nonempty (rows : list sample) :
  rows <> [] ->
  get_features_live (DataFrame_of rows)
  = (k <- np_argmax (mags_of rows) ;;
     Ok (feature_vector rows (nth k (freqs_of rows) 0))).
Proof.
  intros Hne. unfold get_features_live.
  change (col (DataFrame_of rows) "AccelX") with (Ok (map AccelX rows)).
  change (col (DataFrame_of rows) "AccelY") with (Ok (map AccelY rows)).
  change (col (DataFrame_of rows) "AccelZ") with (Ok (map AccelZ rows)).
  change (col (DataFrame_of rows) "FSR") with (Ok (map FSR rows)).
  cbn [bind]. fold (acc_signal rows).
  rewrite acc_signal_length.
  rewrite (scipy_fft_abs_nonempty _ (acc_signal_nonempty rows Hne)).
  cbn [bind]. fold (freqs_of rows) (mags_of rows).
  destruct (band_sums rows) as [-> ->]. reflexivity.
Qed.

Lemma get_features_from_window_nonempty (rows : list sample) :
  rows <> [] ->
  get_features_from_window (DataFrame_of rows)
  = (k <- np_argmax (mags_of rows) ;;
     Ok (combine feature_names
                 (feature_vector rows (nth k (freqs_of rows) 0)))).
Proof.
  intros Hne. unfold get_features_from_window.
  change (col (DataFrame_of rows) "AccelX") with (Ok (map AccelX rows)).
  change (col (DataFrame_of rows) "AccelY") with (Ok (map AccelY rows)).
  change (col (DataFrame_of rows) "AccelZ") with (Ok (map AccelZ rows)).
  change (col (DataFrame_of rows) "FSR") with (Ok (map FSR rows)).
  cbn [bind]. fold (acc_signal rows).
  rewrite acc_signal_length.
  rewrite (scipy_fft_abs_nonempty _ (acc_signal_nonempty rows Hne)).
  cbn [bind]. fold (freqs_of rows) (mags_of rows).
  destruct (band_sums rows) as [-> ->]. reflexivity.
Qed.

(** With two samples or more the spectrum has a bin, and [np.argmax]
    finds its peak. *)
Lemma peak_exists (rows : list sample) :
  (2 <= List.length rows)%nat ->
  exists k, np_argmax (mags_of rows) = Ok k /\ peak_bin (spectrum rows) k.
Proof.
  intros HN.
  assert (Hhalf : (1 <= List.length rows / 2)%nat).
  { pose proof (Nat.div_mod_eq (List.length rows) 2).
    pose proof (Nat.mod_upper_bound (List.length rows) 2). lia. }
  assert (Hne : mags_of rows <> []).
  { intros E. apply (f_equal (@List.length Q)) in E.
    rewrite mags_of_length in E. change (List.length (@nil Q)) with 0%nat in E. lia. }
  destruct (np_argmax_spec (mags_of rows) Hne) as (k & Hk & Hlt & Hmax & Hfirst).
  exists k. split; [exact Hk|]. unfold peak_bin.
  rewrite spectrum_length. rewrite mags_of_length in Hlt, Hmax.
  split; [exact Hlt|]. split.
  - intros j Hj. rewrite !spectrum_nth. simpl. apply Hmax. exact Hj.
  - intros j Hj. rewrite !spectrum_nth. simpl. apply Hfirst. exact Hj.
Qed.

End Frames.


Lemma tremor_band_iff (f : Q) :
  tremor_band f = true <-> 35 # 10 <= f /\ f <= 75 # 10.
Proof.
  unfold tremor_band. rewrite andb_true_iff, !Qleb_le. reflexivity.
Qed.

Lemma voluntary_band_iff (f : Q) :
  voluntary_band f = true <-> 1 # 10 < f /\ f < 3.
Proof.
  unfold voluntary_band. rewrite andb_true_iff, !Qltb_lt. reflexivity.
Qed.

(** The API extractor on a frame of two samples or more agrees with the
    live extractor and with the trainer. *)
Lemma extractors_agree {K : Numeric} (rows : list sample) :
  (2 <= List.length rows)%nat ->
  exists k,
    peak_bin (spectrum rows) k /\
    get_features (DataFrame_of rows)
    = Ok (feature_vector rows (nth k (freqs_of rows) 0)) /\
    get_features_live (DataFrame_of rows)
    = Ok (feature_vector rows (nth k (freqs_of rows) 0)) /\
    get_features_from_window (DataFrame_of rows)
    = Ok (combine feature_names
                  (feature_vector rows (nth k (freqs_of rows) 0))).
Proof.
  intros HN.
  assert (Hne : rows <> []) by (destruct rows; [simpl in HN; lia | discriminate]).
  destruct (peak_exists rows HN) as (k & Hk & Hpeak).
  exists k. split; [exact Hpeak|].
  rewrite (get_features_nonempty rows Hne), (get_features_live_nonempty rows Hne),
    (get_features_from_window_nonempty rows Hne), Hk.
  destruct Hpeak as (Hlt & _). rewrite spectrum_length in Hlt.
  rewrite mags_of_length.
  replace (0 <? List.length rows / 2)%nat with true
    by (symmetry; apply Nat.ltb_lt; lia).
  repeat split; reflexivity.
Qed.

(** C2. Motion feature vector contract.  For every frame the extractor
    returns six values in the order (dom_freq, tremor_energy,
    voluntary_energy, acc_std, fsr_mean, fsr_std); tremor_energy is the
    sum of the one-sided amplitudes of the bins whose frequency lies in
    [3.5, 7.5] and voluntary_energy the sum over the bins in (0.1, 3.0);
    the live extractor returns the same vector and the trainer the same
    values under the six names in the same order. *)
Theorem feature_vector_contract {K : Numeric} (rows : list sample) :
  (exists dom_freq acc_std fsr_mean fsr_std,
      get_features (DataFrame_of rows)
      = Ok [dom_freq;
            band_energy tremor_band (spectrum rows);
            band_energy voluntary_band (spectrum rows);
            acc_std; fsr_mean; fsr_std]) /\
  (exists dom_freq acc_std fsr_mean fsr_std,
      get_features (DataFrame_no_FSR rows)
      = Ok [dom_freq;
            band_energy tremor_band (spectrum rows);
            band_energy voluntary_band (spectrum rows);
            acc_std; fsr_mean; fsr_std]) /\
  (rows <> [] ->
   exists dom_freq,
     get_features (DataFrame_of rows) = Ok (feature_vector rows dom_freq)) /\
  ((2 <= List.length rows)%nat ->
   exists v,
     get_features (DataFrame_of rows) = Ok v /\
     get_features_live (DataFrame_of rows) = Ok v /\
     get_features_from_window (DataFrame_of rows)
     = Ok (combine feature_names v) /\
     dict_values (combine feature_names v) = v) /\
  (forall f, tremor_band f = true <-> 35 # 10 <= f /\ f <= 75 # 10) /\
  (forall f, voluntary_band f = true <-> 1 # 10 < f /\ f < 3) /\
  (forall k, (k < List.length rows / 2)%nat ->
     fst (nth k (spectrum rows) (0, 0))
     == inject_Z (Z.of_nat k) * SAMPLING_RATE
        / inject_Z (Z.of_nat (List.length rows)) /\
     snd (nth k (spectrum rows) (0, 0))
     = (2 / inject_Z (Z.of_nat (List.length rows)))
       * nth k (fft_abs (acc_signal rows)) 0).
Proof.
  assert (Hnonempty : rows <> [] ->
            exists dom_freq,
              get_features (DataFrame_of rows)
              = Ok (feature_vector rows dom_freq)).
  { intros Hne. rewrite (get_features_nonempty rows Hne).
    destruct (api_dom_freq_defined rows) as [d ->]. exists d. reflexivity. }
  split.
  { destruct rows as [|r rows'].
    - exists 0, 0, 0, 0. reflexivity.
    - destruct Hnonempty as [d Hd]; [discriminate|].
      rewrite Hd. unfold feature_vector. eauto. }
  split.
  { destruct rows as [|r rows'].
    - exists 0, 0, 0, 0. reflexivity.
    - rewrite get_features_no_FSR_nonempty by discriminate.
      destruct (api_dom_freq_defined (r :: rows')) as [d ->].
      cbn [bind]. eauto. }
  split; [exact Hnonempty|].
  split.
  { intros HN. destruct (extractors_agree rows HN) as (k & _ & Ha & Hl & Ht).
    eexists. split; [exact Ha|]. split; [exact Hl|]. split; [exact Ht|].
    reflexivity. }
  split; [exact tremor_band_iff|].
  split; [exact voluntary_band_iff|].
  intros k Hk. rewrite spectrum_nth. simpl fst. simpl snd.
  split; [apply bin_frequency | apply bin_amplitude]; exact Hk.
Qed.

Lemma feature_vector_contract_witness :
  exists v,
    get_features (DataFrame_of four_samples) = Ok v /\
    get_features_live (DataFrame_of four_samples) = Ok v /\
    get_features_from_window (DataFrame_of four_samples)
    = Ok (combine feature_names v) /\
    dict_values (combine feature_names v) = v.
Proof.
  destruct (feature_vector_contract four_samples) as (_ & _ & _ & H & _).
  apply H. simpl. lia.
Defined.

(** C3 (amended).  For every frame of two samples or more, in the API
    and in the live extractor, dom_freq is the frequency
    [k * SAMPLING_RATE / N] of the bin [k] in [[0, N//2)] whose one-sided
    amplitude is maximal, bin 0 included, the lowest such [k] on a tie;
    it lies in [[0, SAMPLING_RATE/2)], so in [[0, 25)] for a frame of 100
    samples. *)
Theorem dom_freq_peak_bin {K : Numeric} (rows : list sample)
  (HN : (2 <= List.length rows)%nat) :
  List.length (spectrum rows) = (List.length rows / 2)%nat /\
  (forall k, (k < List.length rows / 2)%nat ->
     fst (nth k (spectrum rows) (0, 0))
     == inject_Z (Z.of_nat k) * SAMPLING_RATE
        / inject_Z (Z.of_nat (List.length rows)) /\
     snd (nth k (spectrum rows) (0, 0))
     = (2 / inject_Z (Z.of_nat (List.length rows)))
       * nth k (fft_abs (acc_signal rows)) 0) /\
  dom_freq_is_peak get_features rows /\
  dom_freq_is_peak get_features_live rows /\
  (forall features,
      get_features (DataFrame_of rows) = Ok features \/
      get_features_live (DataFrame_of rows) = Ok features ->
      0 <= nth 0 features 0 /\ nth 0 features 0 < SAMPLING_RATE / 2) /\
  SAMPLING_RATE / 2 == 25.
Proof.
  destruct (extractors_agree rows HN) as (k & Hpeak & Ha & Hl & _).
  split; [apply spectrum_length|].
  split.
  { intros j Hj. rewrite spectrum_nth. simpl fst. simpl snd.
    split; [apply bin_frequency | apply bin_amplitude]; exact Hj. }
  split.
  { exists k. eexists. split; [exact Ha|]. split; [exact Hpeak|].
    rewrite spectrum_nth. reflexivity. }
  split.
  { exists k. eexists. split; [exact Hl|]. split; [exact Hpeak|].
    rewrite spectrum_nth. reflexivity. }
  split; [|reflexivity].
  intros features Hf.
  assert (E : features = feature_vector rows (nth k (freqs_of rows) 0)).
  { destruct Hf as [Hf|Hf]; congruence. }
  subst features. simpl nth.
  destruct Hpeak as (Hlt & _). rewrite spectrum_length in Hlt.
  apply bin_frequency_range. exact Hlt.
Qed.

Lemma dom_freq_peak_bin_witness :
  dom_freq_is_peak get_features four_samples /\
  dom_freq_is_peak get_features_live four_samples.
Proof.
  assert (HN : (2 <= List.length four_samples)%nat) by (simpl; lia).
  destruct (dom_freq_peak_bin four_samples HN) as (_ & _ & Ha & Hl & _).
  split; assumption.
Defined.

(** A frame of one sample has no bin in [[0, N//2)]: the dominant
    frequency the API extractor returns for it is its fallback [0], not
    the frequency of a peak bin, and the live extractor raises. *)
Lemma dom_freq_single_sample_no_bin :
  single_sample <> [] /\
  ~ dom_freq_is_peak get_features single_sample /\
  ~ dom_freq_is_peak get_features_live single_sample.
Proof.
  split; [discriminate|].
  split; intros (k & features & _ & (Hk & _) & _);
    rewrite spectrum_length in Hk; simpl in Hk; lia.
Qed.

Lemma single_sample_features :
  (exists a m s, get_features (DataFrame_of single_sample) = Ok [0; 0; 0; a; m; s]) /\
  get_features_live (DataFrame_of single_sample) = Raise ValueError.
Proof.
  split; [|reflexivity].
  do 3 eexists. reflexivity.
Qed.

(** A frame that lacks a column an extractor reads. *)
Lemma missing_accel_raises {K : Numeric} (df : DataFrame) :
  has_column "AccelX" df = false \/ has_column "AccelY" df = false \/
  has_column "AccelZ" df = false ->
  get_features df = Raise KeyError /\
  get_features_live df = Raise KeyError /\
  get_features_from_window df = Raise KeyError.
Proof.
  intros H. unfold get_features, get_features_live, get_features_from_window.
  destruct (has_column "AccelX" df) eqn:HX.
  - destruct (has_column_col df _ HX) as [ax ->]. cbn [bind].
    destruct (has_column "AccelY" df) eqn:HY.
    + destruct (has_column_col df _ HY) as [ay ->]. cbn [bind].
      destruct H as [H|[H|H]]; try discriminate.
      rewrite (no_column_col df _ H). repeat split; reflexivity.
    + rewrite (no_column_col df _ HY). repeat split; reflexivity.
  - rewrite (no_column_col df _ HX). repeat split; reflexivity.
Qed.

Lemma missing_FSR_raises {K : Numeric} (df : DataFrame) :
  has_column "AccelX" df = true -> has_column "AccelY" df = true ->
  has_column "AccelZ" df = true -> has_column "FSR" df = false ->
  get_features_live df = Raise KeyError /\
  get_features_from_window df = Raise KeyError.
Proof.
  intros HX HY HZ HF. unfold get_features_live, get_features_from_window.
  destruct (has_column_col df _ HX) as [ax ->].
  destruct (has_column_col df _ HY) as [ay ->].
  destruct (has_column_col df _ HZ) as [az ->].
  rewrite (no_column_col df _ HF). split; reflexivity.
Qed.

End MotionFacts.

(** ** Serial ingestion *)

Module SerialFacts.

Import Np Serial.

Lemma eight_fields_nonempty (line : string) :
  List.length (split_comma line) = 8%nat -> nonempty line = true.
Proof.
  destruct line; [discriminate | reflexivity].
Qed.

Lemma parse_row_ok (parts : list string) (row : raw_row) :
  parse_row parts = Ok row <->
  py_float (nth 1 parts EmptyString) = Ok (AccelX row) /\
  py_float (nth 2 parts EmptyString) = Ok (AccelY row) /\
  py_float (nth 3 parts EmptyString) = Ok (AccelZ row) /\
  py_int (nth 7 parts EmptyString) = Ok (FSR row).
Proof.
  unfold parse_row. split.
  - destruct (py_float (nth 1 parts EmptyString)) as [ax|]; simpl; [|discriminate].
    destruct (py_float (nth 2 parts EmptyString)) as [ay|]; simpl; [|discriminate].
    destruct (py_float (nth 3 parts EmptyString)) as [az|]; simpl; [|discriminate].
    destruct (py_int (nth 7 parts EmptyString)) as [fsr|]; simpl; [|discriminate].
    intros H. injection H as <-. simpl. auto.
  - intros (-> & -> & -> & ->). simpl. destruct row; reflexivity.
Qed.

(** An accepted line: the row goes into the buffer whole. *)
Lemma live_turn_accept (data_buffer : list raw_row) (line : string)
  (row : raw_row) :
  List.length (split_comma (strip line)) = 8%nat ->
  parse_row (split_comma (strip line)) = Ok row ->
  fst (live_turn data_buffer (Text line))
  = deque_append WINDOW_SIZE data_buffer row.
Proof.
  intros H8 Hrow. unfold live_turn. simpl.
  rewrite (eight_fields_nonempty _ H8), H8, Hrow. simpl.
  destruct (List.length (deque_append WINDOW_SIZE data_buffer row) =? WINDOW_SIZE)%nat;
    reflexivity.
Qed.

(** Every other read leaves the buffer as it was. *)
Lemma live_turn_drop (data_buffer : list raw_row) (r : serial_read) :
  (forall line row, r = Text line ->
     List.length (split_comma (strip line)) = 8%nat ->
     parse_row (split_comma (strip line)) = Ok row -> False) ->
  live_turn data_buffer r = (data_buffer, None).
Proof.
  intros Hno. unfold live_turn. destruct r as [|line]; simpl; [reflexivity|].
  destruct (nonempty (strip line)); simpl; [|reflexivity].
  destruct (List.length (split_comma (strip line)) =? 8)%nat eqn:E8; [|reflexivity].
  apply Nat.eqb_eq in E8.
  destruct (parse_row (split_comma (strip line))) as [row|e] eqn:Erow; simpl;
    [|reflexivity].
  exfalso. exact (Hno line row eq_refl E8 Erow).
Qed.

(** The analysis is handed full windows only. *)
Lemma live_turn_window (data_buffer buffer' w : list raw_row)
  (r : serial_read) :
  live_turn data_buffer r = (buffer', Some w) ->
  w = buffer' /\ List.length w = WINDOW_SIZE.
Proof.
  unfold live_turn. destruct r as [|line]; simpl; [discriminate|].
  destruct (nonempty (strip line) &&
            (List.length (split_comma (strip line)) =? 8)%nat); [|discriminate].
  destruct (parse_row (split_comma (strip line))) as [row|e]; simpl;
    [|discriminate].
  destruct (List.length (deque_append WINDOW_SIZE data_buffer row) =? WINDOW_SIZE)%nat
    eqn:E; [|discriminate].
  intros H. injection H as <- <-. apply Nat.eqb_eq in E. auto.
Qed.

Lemma collect_data_turn_accept (label : string) (data_buffer : list (list string))
  (line : string) :
  List.length (split_comma (strip line)) = 8%nat ->
  collect_data_turn label data_buffer (Text line)
  = data_buffer ++ [split_comma (strip line) ++ [label]].
Proof.
  intros H8. unfold collect_data_turn. simpl.
  rewrite (eight_fields_nonempty _ H8), H8. reflexivity.
Qed.

Lemma collect_data_turn_drop (label : string) (data_buffer : list (list string))
  (r : serial_read) :
  (forall line, r = Text line ->
     List.length (split_comma (strip line)) <> 8%nat) ->
  collect_data_turn label data_buffer r = data_buffer.
Proof.
  intros Hno. unfold collect_data_turn. destruct r as [|line]; simpl; [reflexivity|].
  destruct (nonempty (strip line)); simpl; [|reflexivity].
  destruct (List.length (split_comma (strip line)) =? 8)%nat eqn:E8; [|reflexivity].
  apply Nat.eqb_eq in E8. exfalso. exact (Hno line eq_refl E8).
Qed.

(** C8 (amended).  On every read the live detector either ingests
    the row whole, which it does exactly when the line splits into 8
    comma-separated fields whose fields 1, 2 and 3 parse as floats and
    whose field 7 parses as an integer, or leaves its buffer unchanged;
    the data logger appends the 8 fields with the label exactly when
    the line splits into 8 fields, without a numeric check, and
    otherwise leaves the recording unchanged.  Both turns are total:
    no read makes them fail. *)
Theorem malformed_line_dropped (data_buffer : list raw_row) (label : string)
  (recording : list (list string)) (r : serial_read) :
  ((exists line row,
       r = Text line /\
       List.length (split_comma (strip line)) = 8%nat /\
       py_float (nth 1 (split_comma (strip line)) EmptyString) = Ok (AccelX row) /\
       py_float (nth 2 (split_comma (strip line)) EmptyString) = Ok (AccelY row) /\
       py_float (nth 3 (split_comma (strip line)) EmptyString) = Ok (AccelZ row) /\
       py_int (nth 7 (split_comma (strip line)) EmptyString) = Ok (FSR row) /\
       fst (live_turn data_buffer r)
       = deque_append WINDOW_SIZE data_buffer row)
   \/ live_turn data_buffer r = (data_buffer, None)) /\
  (forall line row,
      r = Text line ->
      List.length (split_comma (strip line)) = 8%nat ->
      parse_row (split_comma (strip line)) = Ok row ->
      fst (live_turn data_buffer r)
      = deque_append WINDOW_SIZE data_buffer row) /\
  ((exists line,
       r = Text line /\
       List.length (split_comma (strip line)) = 8%nat /\
       collect_data_turn label recording r
       = recording ++ [split_comma (strip line) ++ [label]])
   \/ collect_data_turn label recording r = recording) /\
  (forall line,
      r = Text line ->
      List.length (split_comma (strip line)) = 8%nat ->
      collect_data_turn label recording r
      = recording ++ [split_comma (strip line) ++ [label]]).
Proof.
  split.
  { destruct r as [|line].
    - right. apply live_turn_drop. intros line row H. discriminate.
    - destruct (Nat.eq_dec (List.length (split_comma (strip line))) 8) as [E8|N8].
      + destruct (parse_row (split_comma (strip line))) as [row|e] eqn:Erow.
        * left. exists line, row. split; [reflexivity|]. split; [exact E8|].
          destruct (proj1 (parse_row_ok _ _) Erow) as (H1 & H2 & H3 & H7).
          repeat (split; [assumption|]).
          apply live_turn_accept; assumption.
        * right. apply live_turn_drop. intros l row H _ Hrow.
          injection H as <-. congruence.
      + right. apply live_turn_drop. intros l row H H8 _.
        injection H as <-. contradiction. }
  split.
  { intros line row -> H8 Hrow. apply live_turn_accept; assumption. }
  split.
  { destruct r as [|line].
    - right. apply collect_data_turn_drop. intros line H. discriminate.
    - destruct (Nat.eq_dec (List.length (split_comma (strip line))) 8) as [E8|N8].
      + left. exists line. split; [reflexivity|]. split; [exact E8|].
        apply collect_data_turn_accept. exact E8.
      + right. apply collect_data_turn_drop. intros l H. injection H as <-. exact N8. }
  intros line -> H8. apply collect_data_turn_accept. exact H8.
Qed.

Lemma malformed_line_dropped_witness :
  fst (live_turn [] (Text good_line)) = deque_append WINDOW_SIZE [] good_row /\
  collect_data_turn "1" [] (Text good_line)
  = [split_comma (strip good_line) ++ ["1"%string]].
Proof.
  destruct (malformed_line_dropped [] "1" [] (Text good_line))
    as (_ & Hlive & _ & Hlog).
  split.
  - apply (Hlive good_line good_row); [reflexivity | reflexivity |].
    vm_compute. reflexivity.
  - apply (Hlog good_line); reflexivity.
Defined.

(** The data logger records a line of eight fields none of which is a
    number. *)
Lemma logger_accepts_letters : ~ logger_accepts_only_numeric.
Proof.
  intros H. specialize (H "1"%string [] letters_line).
  assert (Hne : collect_data_turn "1" [] (Text letters_line) <> []).
  { vm_compute. discriminate. }
  specialize (H Hne).
  assert (Hin : In "a"%string (split_comma (strip letters_line)))
    by (vm_compute; auto).
  rewrite Forall_forall in H. destruct (H _ Hin) as [v Hv].
  vm_compute in Hv. discriminate Hv.
Qed.

Lemma letters_line_live (data_buffer : list raw_row) :
  live_turn data_buffer (Text letters_line) = (data_buffer, None).
Proof. reflexivity. Qed.

End SerialFacts.

(** ** Degenerate frames *)

Module DegenerateFacts.

Import Motion MotionFacts.

Lemma col_zero_length (df : DataFrame) (c : string) :
  zero_length df -> has_column c df = true -> col df c = Ok [].
Proof.
  unfold zero_length, has_column, columns.
  induction df as [|[c' v] df IH]; simpl; intros Hz Hc; [discriminate|].
  inversion Hz as [|? ? Hv Hz']; subst. simpl in Hv.
  destruct (String.eqb c c'); simpl in *.
  - rewrite Hv. reflexivity.
  - apply IH; assumption.
Qed.

(** The frame that [pd.DataFrame([])] builds and the zero-row frames
    that keep their columns are zero-length frames. *)
Lemma zero_length_frames :
  zero_length (DataFrame_of_records []) /\
  zero_length (DataFrame_of []) /\
  zero_length (DataFrame_no_FSR []).
Proof. repeat split; repeat constructor. Qed.

(** C7 (amended).  On a zero-length frame that has the three
    acceleration columns the API extractor returns the all-zero
    six-feature vector, with or without the pressure column.  On a
    zero-length frame that lacks one of them, such as the frame without
    any column that [pd.DataFrame([])] builds, it raises KeyError at
    the column access, before its guard on the length.  The live
    extractor and the extractor of the trainer have no guard and raise
    on every zero-length frame: KeyError when a column they read is
    missing, ValueError from the transform of an empty array otherwise.
    The live loop hands its extractor a window only when the buffer
    holds WINDOW_SIZE rows. *)
Theorem zero_length_frame {K : Numeric} (df : DataFrame)
  (Hz : zero_length df) :
  (has_column "AccelX" df = true -> has_column "AccelY" df = true ->
   has_column "AccelZ" df = true ->
   get_features df = Ok [0; 0; 0; 0; 0; 0] /\
   (has_column "FSR" df = true ->
    get_features_live df = Raise ValueError /\
    get_features_from_window df = Raise ValueError) /\
   (has_column "FSR" df = false ->
    get_features_live df = Raise KeyError /\
    get_features_from_window df = Raise KeyError)) /\
  (has_column "AccelX" df = false \/ has_column "AccelY" df = false \/
   has_column "AccelZ" df = false ->
   get_features df = Raise KeyError /\
   get_features_live df = Raise KeyError /\
   get_features_from_window df = Raise KeyError) /\
  get_features (DataFrame_of_records []) = Raise KeyError /\
  (forall data_buffer r buffer' w,
      Serial.live_turn data_buffer r = (buffer', Some w) ->
      List.length w = Serial.WINDOW_SIZE /\ w <> []).
Proof.
  split; [|split; [exact (missing_accel_raises df)|split; [reflexivity|]]].
  - intros HX HY HZ.
    pose proof (col_zero_length df _ Hz HX) as EX.
    pose proof (col_zero_length df _ Hz HY) as EY.
    pose proof (col_zero_length df _ Hz HZ) as EZ.
    split; [|split].
    + unfold get_features. rewrite EX, EY, EZ. cbn [bind].
      destruct (has_column "FSR" df) eqn:HF.
      * rewrite (col_zero_length df _ Hz HF). reflexivity.
      * reflexivity.
    + intros HF. unfold get_features_live, get_features_from_window.
      rewrite EX, EY, EZ, (col_zero_length df _ Hz HF).
      split; reflexivity.
    + intros HF. exact (missing_FSR_raises df HX HY HZ HF).
  - intros data_buffer r buffer' w H.
    destruct (SerialFacts.live_turn_window _ _ _ _ H) as [_ Hlen].
    split; [exact Hlen|]. intros ->. discriminate Hlen.
Qed.

Lemma zero_length_frame_witness :
  @get_features run_kernel (DataFrame_of []) = Ok [0; 0; 0; 0; 0; 0] /\
  @get_features run_kernel (DataFrame_no_FSR []) = Ok [0; 0; 0; 0; 0; 0] /\
  @get_features run_kernel (DataFrame_of_records []) = Raise KeyError /\
  List.length (repeat Serial.good_row 100) = Serial.WINDOW_SIZE.
Proof.
  destruct zero_length_frames as (H0 & H1 & H2).
  destruct (@zero_length_frame run_kernel (DataFrame_of []) H1)
    as (Ha & _ & _ & Hw).
  destruct (@zero_length_frame run_kernel (DataFrame_no_FSR []) H2)
    as (Hb & _).
  destruct (@zero_length_frame run_kernel (DataFrame_of_records []) H0)
    as (_ & Hc & _).
  split; [apply Ha; reflexivity|].
  split; [apply Hb; reflexivity|].
  split; [apply Hc; left; reflexivity|].
  apply (Hw (repeat Serial.good_row 99) (Serial.Text Serial.good_line)
            (repeat Serial.good_row 100)).
  vm_compute. reflexivity.
Defined.

(** No extractor answers every zero-length frame with six zeros: the
    live extractor and the extractor of the trainer raise on the
    zero-row frame that keeps its columns, and every extractor raises
    on the frame without columns. *)
Lemma zero_length_frame_live_raises :
  (forall K : Numeric, ~ zero_frame_safe (@get_features_live K)) /\
  (forall K : Numeric, ~ zero_frame_safe (@get_features K)) /\
  (forall K : Numeric,
      @get_features_live K (DataFrame_of []) = Raise ValueError /\
      @get_features_from_window K (DataFrame_of []) = Raise ValueError /\
      @get_features K (DataFrame_of_records []) = Raise KeyError /\
      @get_features_live K (DataFrame_of_records []) = Raise KeyError).
Proof.
  destruct zero_length_frames as (H0 & H1 & _).
  split; [|split; [|intros K; repeat split; reflexivity]].
  - intros K H. specialize (H _ H1). discriminate H.
  - intros K H. specialize (H _ H0). discriminate H.
Qed.

End DegenerateFacts.

(** ** Batch windowing *)

Module TrainFacts.

Import Motion Train.

Lemma py_range_spec (stop s : Z) :
  In s (py_range 0 stop STEP_SIZE) <->
  (0 <= s /\ s mod STEP_SIZE = 0 /\ s < stop)%Z.
Proof.
  unfold py_range, STEP_SIZE. change (0 <? 50)%Z with true. cbv iota.
  rewrite in_map_iff. split.
  - intros (i & <- & Hi). apply in_seq in Hi.
    assert (Hlt : (Z.of_nat i < (stop - 0 + 50 - 1) / 50)%Z) by lia.
    split; [lia|]. split.
    + rewrite Z.add_0_l. apply Z.mod_mul. lia.
    + revert Hlt. Z.div_mod_to_equations. lia.
  - intros (H0 & Hmod & Hlt).
    exists (Z.to_nat (s / 50)).
    assert (Hq : (0 <= s / 50)%Z) by (apply Z.div_pos; lia).
    split.
    + rewrite Z2Nat.id by exact Hq.
      revert Hmod. Z.div_mod_to_equations. lia.
    + apply in_seq. split; [lia|].
      assert ((s / 50 < (stop - 0 + 50 - 1) / 50)%Z).
      { revert Hmod. Z.div_mod_to_equations. lia. }
      lia.
Qed.

(** The start indices the trainer visits: the multiples of the step
    whose window ends strictly before the end of the series. *)
Lemma starts_spec (df : list labelled) (s : Z) :
  In s (starts df) <->
  (0 <= s /\ s mod STEP_SIZE = 0 /\
   s + WINDOW_SIZE < Z.of_nat (List.length df))%Z.
Proof.
  unfold starts. rewrite py_range_spec. unfold WINDOW_SIZE. lia.
Qed.

(** A series shorter than a window yields no start index. *)
Lemma short_series_no_start (df : list labelled) :
  (Z.of_nat (List.length df) < WINDOW_SIZE)%Z -> starts df = [].
Proof.
  intros Hshort. destruct (starts df) as [|s rest] eqn:E; [reflexivity|].
  assert (Hin : In s (starts df)) by (rewrite E; left; reflexivity).
  apply starts_spec in Hin. unfold WINDOW_SIZE in *. lia.
Qed.

(** A window over two labels or more is skipped; a window under one
    label is extracted and appended with that label. *)
Lemma loop_body_discard {K : Numeric} (df : list labelled) (st : locals)
  (start : Z) :
  (1 < List.length
         (unique (map Label (iloc df start (start + WINDOW_SIZE)))))%nat ->
  loop_body df st start = Ok st.
Proof.
  intros H. unfold loop_body. apply Nat.ltb_lt in H. rewrite H. reflexivity.
Qed.

Lemma loop_body_extract {K : Numeric} (df : list labelled) (st : locals)
  (start l : Z) (f : list (string * Q)) :
  unique (map Label (iloc df start (start + WINDOW_SIZE))) = [l] ->
  get_features_from_window
    (DataFrame_of (map row (iloc df start (start + WINDOW_SIZE)))) = Ok f ->
  loop_body df st start
  = Ok {| X := X st ++ [dict_values f]; y := y st ++ [l];
          features := Some f |}.
Proof.
  intros Hl Hf. unfold loop_body. rewrite Hl, Hf. reflexivity.
Qed.

(** C4.  On a recording of exactly WINDOW_SIZE rows under one label the
    window [[0, WINDOW_SIZE)] lies inside the series and its start is a
    multiple of the step, yet the trainer visits no start index and
    extracts no window; on 150 rows it visits start 0 and not start 50.
    With no window extracted, [train] stops on the unbound local
    [features] instead of reporting that there is not enough data, and
    does so too on a recording shorter than a window. *)
Theorem batch_windowing_last_window {K : Numeric} :
  spec_start (Z.of_nat (List.length (recording 100))) 0 /\
  starts (recording 100) = [] /\
  windows (recording 100) = Ok locals0 /\
  spec_start (Z.of_nat (List.length (recording 150))) 50 /\
  starts (recording 150) = [0%Z] /\
  train (Some (recording 100)) = Raise UnboundLocalError /\
  starts (recording 10) = [] /\
  train (Some (recording 10)) = Raise UnboundLocalError.
Proof.
  split; [vm_compute; intuition discriminate|].
  split; [reflexivity|]. split; [reflexivity|].
  split; [vm_compute; intuition discriminate|].
  split; [reflexivity|]. split; [reflexivity|].
  split; reflexivity.
Qed.

End TrainFacts.

(** ** Voice features *)

Module VoiceFacts.

Import Np Voice.






Section Hnr.

Context {L : Librosa}.





(** An infinite harmonic energy against a finite total. *)
Lemma hnr_db_inf_harmonic (et : Q) : hnr_db (Fin et) PInf = PInf.
Proof. reflexivity. Qed.


End Hnr.

Section Extraction.

Context {L : Librosa}.

Variables (audio : list Q) (sample_rate : Z).
Variables (m f0 rms harmonic : list npfloat).

Hypothesis Hmfcc : feature_mfcc audio sample_rate = Ok m.
Hypothesis Hpyin : pyin audio sample_rate = Ok f0.
Hypothesis Hrms : feature_rms audio = Ok rms.
Hypothesis Hharm : effects_harmonic audio = Ok harmonic.



End Extraction.

(** A library call that raises: the server extractor turns it into the
    failure signal, the live extractor lets it through. *)
Lemma mfcc_error_paths {L : Librosa} (audio : list Q) (sample_rate : Z)
  (e : exn) :
  feature_mfcc audio sample_rate = Raise e ->
  extract_voice_features audio sample_rate = None /\
  extract_features audio sample_rate = Raise e.
Proof.
  intros H. unfold extract_voice_features, extract_features, voice_features.
  rewrite H. split; reflexivity.
Qed.




Lemma extract_voice_features_some {L : Librosa} (audio : list Q)
  (sample_rate : Z) (features : list npfloat) :
  extract_voice_features audio sample_rate = Some features ->
  voice_features audio sample_rate = Ok (Some features).
Proof.
  unfold extract_voice_features.
  destruct (voice_features audio sample_rate) as [[f|]|e]; simpl;
    intros H; congruence.
Qed.




(** *** Classifier adapter *)

Lemma load_globals_cases (d : disk) :
  loaded_together (load_globals d) \/
  (exists model, SPEECH_MODEL_FILE d = Stored model /\
                 load_globals d = {| speech_model := Some model;
                                     speech_scaler := None |}).
Proof.
  unfold load_globals, loaded_together.
  destruct (SPEECH_MODEL_FILE d) as [| |model]; simpl; auto.
  destruct (SPEECH_SCALER_FILE d) as [| |scaler]; simpl.
  - right. exists model. auto.
  - right. exists model. auto.
  - left. right. split; discriminate.
Qed.

(** The live analysis goes on with both or stops. *)
Lemma analyze_voice_load_together (d : disk) (model : Model) (scaler : Scaler) :
  analyze_voice_load d = Ok (Some (model, scaler)) <->
  SPEECH_MODEL_FILE d = Stored model /\ SPEECH_SCALER_FILE d = Stored scaler.
Proof.
  unfold analyze_voice_load.
  destruct (SPEECH_MODEL_FILE d) as [| |m']; simpl;
    try (split; [discriminate | intros [H _]; discriminate H]).
  destruct (SPEECH_SCALER_FILE d) as [| |s']; simpl;
    try (split; [discriminate | intros [_ H]; discriminate H]).
  split.
  - intros H. injection H as <- <-. auto.
  - intros [H1 H2]. injection H1 as <-. injection H2 as <-. reflexivity.
Qed.

(** With model and scaler loaded, the class comes from the model
    applied to the scaled features; the endpoint hands it, with the
    rounded measurements, to the JSON encoder. *)
Lemma scaler_applied_before_predict {L : Librosa} (model : Model)
  (scaler : Scaler) (a a' : list Q) (r : Z)
  (features scaled probs : list npfloat) (c : Z) (top : npfloat) :
  effects_trim a = Ok a' ->
  extract_voice_features a' r = Some features ->
  transform scaler features = Ok scaled ->
  predict model scaled = Ok c ->
  predict_proba model scaled = Ok probs ->
  np_max probs = Ok top ->
  predict_audio {| speech_model := Some model; speech_scaler := Some scaler |}
                (Some a) (Some r)
  = try_except
      (jsonify (if (c =? 1)%Z then "Tremor" else "Healthy")
               (Float64 (py_round (Fmul top (Fin 100)) 1))
               [Float64 (py_round (nth 0 features NaN) 2);
                Float32 (py_round (nth 1 features NaN) 2);
                Float32 (py_round (nth 2 features NaN) 1);
                Float32 (py_round (nth 3 features NaN) 2)])
      (fun e => Failure 500 (exn_str e)) /\
  analyze_voice_round model scaler a r
  = Ok (Some (c, Fmul top (Fin 100), features)).
Proof.
  intros Ht Hf Hs Hp Hpp Hm.
  pose proof (extract_voice_features_some _ _ _ Hf) as Hv.
  unfold predict_audio, analyze_voice_round, extract_features. simpl.
  rewrite Ht. cbn [bind]. rewrite Hf, Hv. cbn [bind scaler_transform].
  rewrite Hs. cbn [bind]. rewrite Hp. cbn [bind]. rewrite Hpp. cbn [bind].
  rewrite Hm. cbn [bind]. split; reflexivity.
Qed.

(** C6.  With the model file present and the scaler file missing or
    unreadable, the load block of the server leaves the model loaded
    and the scaler unset; [/predict_audio] then passes the model check
    and fails at the scaling step, while the live analysis stops at the
    load. *)
Theorem scaler_missing_state (model : Model) :
  load_globals {| SPEECH_MODEL_FILE := Stored model;
                  SPEECH_SCALER_FILE := Absent |}
  = {| speech_model := Some model; speech_scaler := None |} /\
  load_globals {| SPEECH_MODEL_FILE := Stored model;
                  SPEECH_SCALER_FILE := Corrupt |}
  = {| speech_model := Some model; speech_scaler := None |} /\
  ~ loaded_together {| speech_model := Some model; speech_scaler := None |} /\
  @predict_audio voiced_run
     {| speech_model := Some model; speech_scaler := None |}
     (Some clip) (Some 16000%Z)
  = Failure 500 "AttributeError" /\
  analyze_voice_load {| SPEECH_MODEL_FILE := Stored model;
                 SPEECH_SCALER_FILE := Absent |}
  = Ok None.
Proof.
  split; [reflexivity|]. split; [reflexivity|].
  split.
  - intros [[H _]|[_ H]]; simpl in *; [discriminate | congruence].
  - split; reflexivity.
Qed.

End VoiceFacts.

(** * Further properties of the code *)

From Stdlib Require Import Lqa.

(** ** Gates and verdicts *)

Module GateExtra.

Import Motion MotionData.

Ltac qltb_cases :=
  repeat match goal with
         | |- context [Qltb ?a ?b] =>
             let E := fresh "E" in
             destruct (Qltb a b) eqn:E;
             [apply Qltb_lt in E | apply Qltb_ge in E]
         end.

(** X1.  The two gates differ on a Tremor prediction only, and only for
    a measured frequency in [3.0, 3.5) (the API keeps Tremor, the live
    gate says Voluntary) or in (7.0, 7.5] (the API says Voluntary, the
    live gate keeps Tremor); everywhere else they give the same class. *)
Theorem gates_disagree (p : Z) (f : Q) :
  (gate_api p f <> gate_live p f <->
   p = 1%Z /\ ((3 <= f /\ f < 35 # 10) \/ (7 < f /\ f <= 75 # 10))) /\
  (p = 1%Z -> 3 <= f -> f < 35 # 10 ->
   gate_api p f = 1%Z /\ gate_live p f = 2%Z) /\
  (p = 1%Z -> 7 < f -> f <= 75 # 10 ->
   gate_api p f = 2%Z /\ gate_live p f = 1%Z).
Proof.
  split; [|split].
  - destruct (Z.eq_dec p 1) as [->|Hp].
    + rewrite GateFacts.gate_api_tremor, GateFacts.gate_live_tremor.
      qltb_cases; simpl; split;
        try (intros H; exfalso; apply H; reflexivity);
        try (intros _; discriminate);
        try (intros [_ [[? ?]|[? ?]]]; exfalso; lra);
        try (intros _; split; [reflexivity|]; lra).
    + rewrite (GateFacts.gate_api_other p f Hp), (GateFacts.gate_live_other p f Hp).
      split; [intros H; exfalso; apply H; reflexivity | intros [H _]; contradiction].
  - intros -> H1 H2.
    rewrite GateFacts.gate_api_tremor, GateFacts.gate_live_tremor.
    qltb_cases; simpl; try (split; reflexivity); exfalso; lra.
  - intros -> H1 H2.
    rewrite GateFacts.gate_api_tremor, GateFacts.gate_live_tremor.
    qltb_cases; simpl; try (split; reflexivity); exfalso; lra.
Qed.

Lemma gates_disagree_witness :
  (gate_api 1 (32 # 10) = 1%Z /\ gate_live 1 (32 # 10) = 2%Z) /\
  (gate_api 1 (72 # 10) = 2%Z /\ gate_live 1 (72 # 10) = 1%Z).
Proof.
  destruct (gates_disagree 1 (32 # 10)) as (_ & Hlow & _).
  destruct (gates_disagree 1 (72 # 10)) as (_ & _ & Hhigh).
  split; [apply Hlow | apply Hhigh]; try reflexivity; unfold Qle, Qlt; simpl; lia.
Defined.

(** X2.  A verdict of class Tremor is never shown with a frequency
    outside the band of its gate: when [/predict] answers class 1 the
    classifier said 1, the label is Tremor and the reported dom_freq is
    in [3.0, 7.0]; when the live loop shows class 1 the classifier said
    1 and the measured frequency is in [3.5, 7.5]. *)
Theorem tremor_verdict_in_band {K : Numeric}
  (model_predict : list Q -> result Z) :
  (forall loaded data l d t,
      predict model_predict loaded data = Verdict 1 l d t ->
      3 <= d /\ d <= 7 /\ l = "Tremor"%string /\
      exists features, model_predict features = Ok 1%Z /\
                       d = nth 0 features 0) /\
  (forall data_buffer r buffer' d,
      Live.run_live_detection_turn model_predict data_buffer r
      = (buffer', Live.Status 1 d) ->
      35 # 10 <= d /\ d <= 75 # 10 /\
      exists features, model_predict features = Ok 1%Z /\
                       d = nth 0 features 0).
Proof.
  split.
  - intros loaded data l d t H.
    assert (Hl : l = labels 1).
    { revert H. unfold predict. destruct loaded; simpl; [|discriminate].
      destruct data as [df|]; [|discriminate].
      destruct (has_column "AccelX" df); simpl; [|discriminate].
      destruct (has_column "AccelY" df); simpl; [|discriminate].
      destruct (has_column "AccelZ" df); simpl; [|discriminate].
      destruct (get_features (fill_FSR df)) as [v|e]; simpl; [|discriminate].
      destruct (model_predict v) as [q|e]; simpl; [|discriminate].
      intros H. injection H as H1 H2 _ _. rewrite <- H2, H1. reflexivity. }
    destruct (GateFacts.predict_class_is_gate model_predict _ _ _ _ _ _ H)
      as (features & p & Hp & Hd & Hc).
    destruct (Z.eq_dec p 1) as [->|Hne].
    + rewrite GateFacts.gate_api_tremor in Hc.
      revert Hc. qltb_cases; simpl; intros Hc; try discriminate.
      repeat split; try assumption. exists features. auto.
    + rewrite (GateFacts.gate_api_other p d Hne) in Hc. congruence.
  - intros data_buffer r buffer' d H.
    destruct (GateFacts.iteration_status_is_gate model_predict _ _ _ _ _ H)
      as (features & p & Hp & Hd & Hc).
    destruct (Z.eq_dec p 1) as [->|Hne].
    + rewrite GateFacts.gate_live_tremor in Hc.
      revert Hc. qltb_cases; simpl; intros Hc; try discriminate.
      repeat split; try assumption. exists features. auto.
    + rewrite (GateFacts.gate_live_other p d Hne) in Hc. congruence.
Qed.

Lemma tremor_verdict_in_band_witness :
  exists d t,
    predict always_tremor true (Some (DataFrame_of ten_samples))
    = Verdict 1 "Tremor" d t /\ 3 <= d /\ d <= 7.
Proof.
  destruct (tremor_verdict_in_band always_tremor) as [H _].
  assert (E : exists d t,
             predict always_tremor true (Some (DataFrame_of ten_samples))
             = Verdict 1 "Tremor" d t).
  { vm_compute. eexists. eexists. reflexivity. }
  destruct E as (d & t & E). exists d, t. split; [exact E|].
  destruct (H _ _ _ _ _ E) as (H1 & H2 & _). split; assumption.
Defined.

End GateExtra.

(** ** Requests and frames *)

Module MotionExtra.

Import Motion MotionData ArrayFacts MotionFacts.

Lemma col_app (df extra : DataFrame) (c : string) (v : list Q) :
  col df c = Ok v -> col (df ++ extra) c = Ok v.
Proof.
  induction df as [|[c' v'] df IH]; simpl; [discriminate|].
  destruct (String.eqb c c'); [auto | exact IH].
Qed.

Lemma has_column_fill (df : DataFrame) (c : string) :
  has_column c df = true -> has_column c (fill_FSR df) = true.
Proof.
  intros H. unfold fill_FSR. destruct (has_column "FSR" df); [exact H|].
  unfold has_column, columns in *. rewrite map_app, existsb_app, H.
  reflexivity.
Qed.

Lemma has_FSR_fill (df : DataFrame) : has_column "FSR" (fill_FSR df) = true.
Proof.
  unfold fill_FSR. destruct (has_column "FSR" df) eqn:E; [exact E|].
  unfold has_column, columns. rewrite map_app, existsb_app. simpl.
  apply orb_true_r.
Qed.

Section Requests.

Context {K : Numeric}.

(** With the three accelerations present the API extractor returns,
    whatever the columns hold and whether or not there is a pressure
    channel. *)
Lemma get_features_returns (df : DataFrame) :
  has_column "AccelX" df = true -> has_column "AccelY" df = true ->
  has_column "AccelZ" df = true ->
  exists v, get_features df = Ok v /\ List.length v = 6%nat.
Proof.
  intros HX HY HZ.
  destruct (has_column_col df _ HX) as [ax Eax].
  destruct (has_column_col df _ HY) as [ay Eay].
  destruct (has_column_col df _ HZ) as [az Eaz].
  assert (Hfsr : exists fsr,
             (if has_column "FSR" df then col df "FSR"
              else Ok (repeat 0 (List.length (detrend (magnitude ax ay az)))))
             = Ok fsr).
  { destruct (has_column "FSR" df) eqn:HF; [|eauto].
    exact (has_column_col df _ HF). }
  destruct Hfsr as [fsr Efsr].
  unfold get_features. rewrite Eax, Eay, Eaz. cbn [bind].
  rewrite Efsr. cbn [bind].
  set (acc := detrend (magnitude ax ay az)).
  destruct (List.length acc =? 0)%nat eqn:EN; [eexists; split; reflexivity|].
  destruct acc as [|a acc'] eqn:Eacc; [discriminate|].
  cbn [scipy_fft_abs bind].
  set (mags := positive_mags _ _).
  destruct (0 <? List.length mags)%nat eqn:Em.
  - destruct mags as [|m0 mags']; [discriminate|].
    cbn [np_argmax bind]. eexists. split; reflexivity.
  - cbn [bind]. eexists. split; reflexivity.
Qed.

End Requests.

Lemma zero_FSR_frame (rows : list sample) :
  fill_FSR (DataFrame_no_FSR rows) = DataFrame_of (map zero_FSR rows).
Proof.
  unfold fill_FSR. change (has_column "FSR" (DataFrame_no_FSR rows)) with false.
  cbv iota. unfold DataFrame_no_FSR, DataFrame_of, df_len. simpl app.
  rewrite !map_map. simpl. rewrite length_map.
  repeat f_equal. induction rows as [|r rows IH]; simpl; [reflexivity|].
  rewrite IH. reflexivity.
Qed.

(** X3.  A request without the pressure channel is answered exactly
    like the same request with FSR = 0 in every row: the extractor gives
    the same features and [/predict] the same response. *)
Theorem missing_FSR_is_zero_FSR {K : Numeric}
  (model_predict : list Q -> result Z) (rows : list sample) :
  get_features (DataFrame_no_FSR rows)
  = get_features (DataFrame_of (map zero_FSR rows)) /\
  forall loaded,
    predict model_predict loaded (Some (DataFrame_no_FSR rows))
    = predict model_predict loaded (Some (DataFrame_of (map zero_FSR rows))).
Proof.
  assert (Hzeros : map FSR (map zero_FSR rows) = repeat 0 (List.length rows)).
  { induction rows as [|r rows IH]; simpl; [reflexivity|].
    rewrite IH. reflexivity. }
  split.
  - unfold get_features.
    change (col (DataFrame_no_FSR rows) "AccelX") with (Ok (map AccelX rows)).
    change (col (DataFrame_no_FSR rows) "AccelY") with (Ok (map AccelY rows)).
    change (col (DataFrame_no_FSR rows) "AccelZ") with (Ok (map AccelZ rows)).
    change (has_column "FSR" (DataFrame_no_FSR rows)) with false.
    change (col (DataFrame_of (map zero_FSR rows)) "AccelX")
      with (Ok (map AccelX (map zero_FSR rows))).
    change (col (DataFrame_of (map zero_FSR rows)) "AccelY")
      with (Ok (map AccelY (map zero_FSR rows))).
    change (col (DataFrame_of (map zero_FSR rows)) "AccelZ")
      with (Ok (map AccelZ (map zero_FSR rows))).
    change (has_column "FSR" (DataFrame_of (map zero_FSR rows))) with true.
    change (col (DataFrame_of (map zero_FSR rows)) "FSR")
      with (Ok (map FSR (map zero_FSR rows))).
    rewrite Hzeros, !map_map. cbn [bind zero_FSR AccelX AccelY AccelZ].
    change (fun x : sample => AccelX x) with AccelX.
    change (fun x : sample => AccelY x) with AccelY.
    change (fun x : sample => AccelZ x) with AccelZ.
    fold (acc_signal rows). rewrite acc_signal_length. reflexivity.
  - intros loaded. unfold predict.
    change (has_column "AccelX" (DataFrame_no_FSR rows)) with true.
    change (has_column "AccelY" (DataFrame_no_FSR rows)) with true.
    change (has_column "AccelZ" (DataFrame_no_FSR rows)) with true.
    change (has_column "AccelX" (DataFrame_of (map zero_FSR rows))) with true.
    change (has_column "AccelY" (DataFrame_of (map zero_FSR rows))) with true.
    change (has_column "AccelZ" (DataFrame_of (map zero_FSR rows))) with true.
    rewrite zero_FSR_frame.
    change (fill_FSR (DataFrame_of (map zero_FSR rows)))
      with (DataFrame_of (map zero_FSR rows)).
    reflexivity.
Qed.

(** X4.  A request that carries the three acceleration columns is never
    refused by the extractor, whatever its number of rows (one row
    included) and with or without the pressure channel: the features
    are six values, the answer is the gated verdict when the classifier
    returns a class and a 500 only when the classifier raises. *)
Theorem predict_answers {K : Numeric} (model_predict : list Q -> result Z)
  (df : DataFrame)
  (HX : has_column "AccelX" df = true)
  (HY : has_column "AccelY" df = true)
  (HZ : has_column "AccelZ" df = true) :
  exists features,
    get_features (fill_FSR df) = Ok features /\
    List.length features = 6%nat /\
    predict model_predict true (Some df)
    = match model_predict features with
      | Ok p =>
          Verdict (gate_api p (nth 0 features 0))
                  (labels (gate_api p (nth 0 features 0)))
                  (nth 0 features 0) (nth 1 features 0)
      | Raise e => Error 500 (exn_str e)
      end.
Proof.
  destruct (get_features_returns (fill_FSR df)
              (has_column_fill df _ HX) (has_column_fill df _ HY)
              (has_column_fill df _ HZ)) as (features & Hf & Hlen).
  exists features. split; [exact Hf|]. split; [exact Hlen|].
  unfold predict. simpl negb. cbv iota.
  rewrite HX, HY, HZ. simpl negb. cbv iota. rewrite Hf. cbn [bind].
  destruct (model_predict features); reflexivity.
Qed.

Lemma predict_answers_witness :
  exists features,
    get_features (fill_FSR (DataFrame_no_FSR single_sample)) = Ok features /\
    List.length features = 6%nat /\
    predict always_tremor true (Some (DataFrame_no_FSR single_sample))
    = Verdict 2 "Voluntary" (nth 0 features 0) (nth 1 features 0).
Proof.
  destruct (predict_answers always_tremor (DataFrame_no_FSR single_sample)
              eq_refl eq_refl eq_refl) as (features & Hf & Hlen & Hp).
  exists features. split; [exact Hf|]. split; [exact Hlen|].
  rewrite Hp. unfold always_tremor.
  vm_compute in Hf. injection Hf as <-. reflexivity.
Defined.

(** X5.  A frame that lacks an acceleration column makes all three
    extractors raise KeyError.  A frame that lacks only the pressure
    channel makes the live extractor and the trainer's extractor raise
    KeyError, while the API extractor substitutes zeros and returns six
    features. *)
Theorem missing_column_behaviour {K : Numeric} (df : DataFrame) :
  (has_column "AccelX" df = false \/ has_column "AccelY" df = false \/
   has_column "AccelZ" df = false ->
   get_features df = Raise KeyError /\
   get_features_live df = Raise KeyError /\
   get_features_from_window df = Raise KeyError) /\
  (has_column "AccelX" df = true -> has_column "AccelY" df = true ->
   has_column "AccelZ" df = true -> has_column "FSR" df = false ->
   get_features_live df = Raise KeyError /\
   get_features_from_window df = Raise KeyError /\
   exists v, get_features df = Ok v /\ List.length v = 6%nat).
Proof.
  split; [apply missing_accel_raises|].
  intros HX HY HZ HF.
  destruct (missing_FSR_raises df HX HY HZ HF) as [Hl Ht].
  split; [exact Hl|]. split; [exact Ht|].
  apply get_features_returns; assumption.
Qed.

Lemma missing_column_behaviour_witness :
  get_features_live (DataFrame_no_FSR four_samples) = Raise KeyError /\
  get_features_from_window (DataFrame_no_FSR four_samples) = Raise KeyError /\
  exists v, get_features (DataFrame_no_FSR four_samples) = Ok v /\
            List.length v = 6%nat.
Proof.
  destruct (missing_column_behaviour (DataFrame_no_FSR four_samples))
    as [_ H].
  apply H; reflexivity.
Defined.

End MotionExtra.

(** ** Signal *)

Module SignalExtra.

Import Motion MotionData ArrayFacts MotionFacts.



(** A masked selection by one test keeps the bins that pass it. *)
Lemma band_energy_select (p : Q -> bool) (freqs mags : list Q) :
  band_energy p (combine freqs mags) = np_sum (select (map p freqs) mags).
Proof.
  unfold band_energy. f_equal. revert mags.
  induction freqs as [|f freqs IH]; intros [|m mags]; simpl; try reflexivity.
  - destruct (p f); reflexivity.
  - destruct (p f); simpl; rewrite IH; reflexivity.
Qed.

Lemma select_nil (mask : list bool) : select mask [] = [].
Proof. destruct mask as [|[|] mask]; reflexivity. Qed.

Lemma select_false (a : nat) (mask : list bool) (mags : list Q) :
  select (repeat false a ++ mask) mags = select mask (skipn a mags).
Proof.
  revert mags. induction a as [|a IH]; intros mags; [reflexivity|].
  destruct mags as [|m mags]; simpl; [rewrite select_nil; reflexivity|].
  apply IH.
Qed.

Lemma select_true (b : nat) (mask : list bool) (mags : list Q) :
  select (repeat true b ++ mask) mags
  = firstn b mags ++ select mask (skipn b mags).
Proof.
  revert mags. induction b as [|b IH]; intros mags; [reflexivity|].
  destruct mags as [|m mags]; simpl; [rewrite select_nil; reflexivity|].
  rewrite IH. reflexivity.
Qed.

Lemma select_all_false (c : nat) (mags : list Q) :
  select (repeat false c) mags = [].
Proof.
  revert mags. induction c as [|c IH]; intros [|m mags]; simpl; auto.
Qed.

(** A contiguous block of bins. *)
Lemma select_block (a b c : nat) (mags : list Q) :
  select (repeat false a ++ repeat true b ++ repeat false c) mags
  = firstn b (skipn a mags).
Proof.
  rewrite select_false, select_true, select_all_false, app_nil_r.
  reflexivity.
Qed.



(** X7.  On a full window of 100 samples the bins are 0.5 Hz apart, the
    tremor energy is the sum of the amplitudes of bins 7 to 15 (3.5 to
    7.5 Hz) and the voluntary energy the sum of bins 1 to 5 (0.5 to 2.5
    Hz); bin 0, the 3.0 Hz bin and the bins above 7.5 Hz count in
    neither, and no frequency is in both bands. *)
Theorem window_band_bins {K : Numeric} (rows : list sample)
  (HN : List.length rows = 100%nat) :
  (forall k, (k < 50)%nat ->
     nth k (freqs_of rows) 0 == inject_Z (Z.of_nat k) / 2) /\
  band_energy tremor_band (spectrum rows)
  = np_sum (firstn 9 (skipn 7 (mags_of rows))) /\
  band_energy voluntary_band (spectrum rows)
  = np_sum (firstn 5 (skipn 1 (mags_of rows))) /\
  (exists dom_freq acc_std fsr_mean fsr_std,
      get_features (DataFrame_of rows)
      = Ok [dom_freq;
            np_sum (firstn 9 (skipn 7 (mags_of rows)));
            np_sum (firstn 5 (skipn 1 (mags_of rows)));
            acc_std; fsr_mean; fsr_std] /\
      get_features_live (DataFrame_of rows)
      = Ok [dom_freq;
            np_sum (firstn 9 (skipn 7 (mags_of rows)));
            np_sum (firstn 5 (skipn 1 (mags_of rows)));
            acc_std; fsr_mean; fsr_std]) /\
  (forall f, tremor_band f && voluntary_band f = false).
Proof.
  assert (Ht : band_energy tremor_band (spectrum rows)
               = np_sum (firstn 9 (skipn 7 (mags_of rows)))).
  { unfold spectrum. rewrite band_energy_select. unfold freqs_of.
    rewrite HN.
    replace (map tremor_band (positive_freqs 100))
      with (repeat false 7 ++ repeat true 9 ++ repeat false 34)
      by (vm_compute; reflexivity).
    rewrite select_block. reflexivity. }
  assert (Hv : band_energy voluntary_band (spectrum rows)
               = np_sum (firstn 5 (skipn 1 (mags_of rows)))).
  { unfold spectrum. rewrite band_energy_select. unfold freqs_of.
    rewrite HN.
    replace (map voluntary_band (positive_freqs 100))
      with (repeat false 1 ++ repeat true 5 ++ repeat false 44)
      by (vm_compute; reflexivity).
    rewrite select_block. reflexivity. }
  split.
  { intros k Hk.
    assert (Hk' : (k < List.length rows / 2)%nat) by (rewrite HN; exact Hk).
    rewrite (bin_frequency rows k Hk'), HN. unfold SAMPLING_RATE.
    change (inject_Z (Z.of_nat 100)) with 100. field. }
  split; [exact Ht|]. split; [exact Hv|].
  split.
  { assert (H2 : (2 <= List.length rows)%nat) by (rewrite HN; lia).
    destruct (extractors_agree rows H2) as (k & _ & Ha & Hl & _).
    unfold feature_vector in Ha, Hl. rewrite Ht, Hv in Ha, Hl.
    do 4 eexists. split; [exact Ha | exact Hl]. }
  intros f. unfold tremor_band, voluntary_band, Qleb.
  destruct (Qle_bool (35 # 10) f) eqn:E1; [|reflexivity].
  destruct (Qltb f 3) eqn:E2; [|rewrite !andb_false_r; reflexivity].
  apply Qle_bool_iff in E1. apply Qltb_lt in E2. exfalso. lra.
Qed.

Lemma window_band_bins_witness :
  band_energy tremor_band
    (spectrum (repeat {| AccelX := 0; AccelY := 0; AccelZ := 1; FSR := 0 |} 100))
  = np_sum (firstn 9 (skipn 7
      (mags_of (repeat {| AccelX := 0; AccelY := 0; AccelZ := 1; FSR := 0 |} 100)))).
Proof.
  destruct (window_band_bins
              (repeat {| AccelX := 0; AccelY := 0; AccelZ := 1; FSR := 0 |} 100))
    as (_ & H & _).
  - reflexivity.
  - exact H.
Defined.

End SignalExtra.

(** ** The rolling buffer *)

Module StreamExtra.

Import Np Serial Stream SerialFacts.

Lemma lastn_short {A : Type} (n : nat) (l : list A) :
  (List.length l <= n)%nat -> lastn n l = l.
Proof.
  intros H. unfold lastn. replace (List.length l - n)%nat with 0%nat by lia.
  reflexivity.
Qed.

Lemma lastn_length {A : Type} (n : nat) (l : list A) :
  List.length (lastn n l) = Nat.min n (List.length l).
Proof. unfold lastn. rewrite length_skipn. lia. Qed.

Lemma lastn_lastn_app {A : Type} (n : nat) (l m : list A) :
  lastn n (lastn n l ++ m) = lastn n (l ++ m).
Proof.
  unfold lastn at 1 3. rewrite !length_app, lastn_length, !skipn_app.
  unfold lastn. rewrite skipn_skipn, !length_skipn.
  f_equal; f_equal; lia.
Qed.

Lemma deque_append_lastn {A : Type} (n : nat) (d : list A) (x : A) :
  deque_append n d x = lastn n (d ++ [x]).
Proof. reflexivity. Qed.

(** What one turn does, by the row the read carries. *)
Lemma live_turn_spec (data_buffer : list raw_row) (r : serial_read) :
  live_turn data_buffer r
  = match accepted_row r with
    | Some row =>
        let data_buffer' := deque_append WINDOW_SIZE data_buffer row in
        (data_buffer',
         if (List.length data_buffer' =? WINDOW_SIZE)%nat
         then Some data_buffer' else None)
    | None => (data_buffer, None)
    end.
Proof.
  unfold live_turn, accepted_row. destruct r as [|line]; simpl; [reflexivity|].
  destruct (List.length (split_comma (strip line)) =? 8)%nat eqn:E8.
  - apply Nat.eqb_eq in E8. rewrite (eight_fields_nonempty _ E8). simpl.
    destruct (parse_row (split_comma (strip line))) as [row|e]; simpl;
      [|reflexivity].
    destruct (List.length (deque_append WINDOW_SIZE data_buffer row) =? WINDOW_SIZE)%nat;
      reflexivity.
  - rewrite andb_false_r. reflexivity.
Qed.

Lemma run_spec (reads : list serial_read) :
  forall data_buffer,
    (List.length data_buffer <= WINDOW_SIZE)%nat ->
    run data_buffer reads
    = lastn WINDOW_SIZE (data_buffer ++ accepted_rows reads).
Proof.
  induction reads as [|r rest IH]; intros data_buffer Hlen; simpl.
  - rewrite app_nil_r, lastn_short; auto.
  - rewrite live_turn_spec. destruct (accepted_row r) as [row|]; simpl.
    + rewrite IH.
      * rewrite deque_append_lastn, lastn_lastn_app, <- app_assoc. reflexivity.
      * rewrite deque_append_lastn, lastn_length. lia.
    + apply IH. exact Hlen.
Qed.

(** X8.  The live buffer is a first-in first-out window: started from
    a buffer of at most WINDOW_SIZE rows, after any sequence of reads it
    holds the last WINDOW_SIZE rows of the old buffer followed by the
    accepted rows in order of arrival; it never holds more than
    WINDOW_SIZE rows, and a dropped line leaves it as it was. *)
Theorem buffer_is_last_window (data_buffer : list raw_row)
  (reads : list serial_read)
  (Hlen : (List.length data_buffer <= WINDOW_SIZE)%nat) :
  run data_buffer reads
  = lastn WINDOW_SIZE (data_buffer ++ accepted_rows reads) /\
  List.length (run data_buffer reads)
  = Nat.min WINDOW_SIZE
            (List.length data_buffer + List.length (accepted_rows reads)) /\
  (accepted_rows reads = [] -> run data_buffer reads = data_buffer).
Proof.
  pose proof (run_spec reads data_buffer Hlen) as H.
  split; [exact H|]. split.
  - rewrite H, lastn_length, length_app. reflexivity.
  - intros E. rewrite H, E, app_nil_r. apply lastn_short. exact Hlen.
Qed.

Lemma buffer_is_last_window_witness :
  run [] [Text good_line; Text letters_line; Undecodable; Text second_line]
  = [good_row; second_row].
Proof.
  assert (Hlen : (List.length (@nil raw_row) <= WINDOW_SIZE)%nat)
    by (simpl; unfold WINDOW_SIZE; lia).
  destruct (buffer_is_last_window []
              [Text good_line; Text letters_line; Undecodable; Text second_line]
              Hlen) as (H & _).
  rewrite H. vm_compute. reflexivity.
Defined.

(** X9.  Started from an empty buffer, the loop hands no window to the
    analysis before the 100th accepted line; from then on every
    accepted line yields one window, the last WINDOW_SIZE accepted rows
    ending with the new one, and a dropped line yields none. *)
Theorem window_emission (reads : list serial_read) (r : serial_read) :
  snd (live_turn (run [] reads) r)
  = match accepted_row r with
    | Some row =>
        if (99 <=? List.length (accepted_rows reads))%nat
        then Some (lastn WINDOW_SIZE (accepted_rows reads ++ [row]))
        else None
    | None => None
    end.
Proof.
  assert (H0 : (List.length (@nil raw_row) <= WINDOW_SIZE)%nat)
    by (simpl; lia).
  pose proof (run_spec reads [] H0) as Hrun. simpl app in Hrun.
  rewrite live_turn_spec. destruct (accepted_row r) as [row|]; [|reflexivity].
  cbv zeta. simpl snd.
  rewrite deque_append_lastn, Hrun, lastn_lastn_app, lastn_length, length_app.
  simpl List.length. unfold WINDOW_SIZE.
  destruct (99 <=? List.length (accepted_rows reads))%nat eqn:E.
  - apply Nat.leb_le in E.
    replace (Nat.min 100 (List.length (accepted_rows reads) + 1)) with 100%nat
      by lia.
    reflexivity.
  - apply Nat.leb_gt in E.
    destruct (Nat.min 100 (List.length (accepted_rows reads) + 1) =? 100)%nat
      eqn:E'; [|reflexivity].
    apply Nat.eqb_eq in E'. lia.
Qed.

End StreamExtra.

(** ** Lines and fields *)

Module LineExtra.

Import Np Serial Recording SerialFacts.

Lemma split_comma_nonempty (s : string) : split_comma s <> [].
Proof.
  destruct s as [|c t]; simpl; [discriminate|].
  destruct (Ascii.eqb c ","); [discriminate|].
  destruct (split_comma t); discriminate.
Qed.

Lemma split_comma_length (s : string) :
  List.length (split_comma s) = S (count_commas s).
Proof.
  induction s as [|c t IH]; simpl; [reflexivity|].
  destruct (Ascii.eqb c ","); simpl; [rewrite IH; reflexivity|].
  destruct (split_comma t) as [|f fs] eqn:E; simpl in *; [discriminate|].
  exact IH.
Qed.

Lemma split_comma_fields (s : string) :
  Forall (fun f => count_commas f = 0%nat) (split_comma s).
Proof.
  induction s as [|c t IH]; simpl.
  - constructor; [reflexivity | constructor].
  - destruct (Ascii.eqb c ",") eqn:Ec.
    + constructor; [reflexivity | exact IH].
    + destruct (split_comma t) as [|f fs]; [repeat constructor; simpl; rewrite Ec; reflexivity|].
      inversion IH as [|? ? Hf Hfs]; subst.
      constructor; [simpl; rewrite Ec; exact Hf | exact Hfs].
Qed.

Lemma concat_cons (sep x : string) (l : list string) :
  l <> [] -> String.concat sep (x :: l) = (x ++ sep ++ String.concat sep l)%string.
Proof. destruct l; [congruence | reflexivity]. Qed.

Lemma concat_head (sep : string) (c : ascii) (f : string) (fs : list string) :
  String.concat sep (String c f :: fs) = String c (String.concat sep (f :: fs)).
Proof. destruct fs; reflexivity. Qed.

Lemma split_comma_join (s : string) :
  String.concat "," (split_comma s) = s.
Proof.
  induction s as [|c t IH]; [reflexivity|].
  simpl split_comma. destruct (Ascii.eqb_spec c ",") as [->|Hc].
  - rewrite concat_cons by apply split_comma_nonempty.
    rewrite IH. reflexivity.
  - destruct (split_comma t) as [|f fs] eqn:E;
      [exfalso; exact (split_comma_nonempty t E)|].
    rewrite concat_head, IH. reflexivity.
Qed.

(** X10.  The data logger records a line exactly when, stripped of
    surrounding whitespace, it holds seven commas; the recorded row is
    the eight fields followed by the label, no field holds a comma,
    and joining the fields with commas gives the stripped line back. *)
Theorem logger_seven_commas (label : string) (recording : list (list string))
  (line : string) :
  (count_commas (strip line) = 7%nat ->
   collect_data_turn label recording (Text line)
   = recording ++ [split_comma (strip line) ++ [label]]) /\
  (count_commas (strip line) <> 7%nat ->
   collect_data_turn label recording (Text line) = recording) /\
  List.length (split_comma (strip line)) = S (count_commas (strip line)) /\
  Forall (fun f => count_commas f = 0%nat) (split_comma (strip line)) /\
  String.concat "," (split_comma (strip line)) = strip line.
Proof.
  split; [|split; [|split; [|split]]].
  - intros H. apply collect_data_turn_accept.
    rewrite split_comma_length, H. reflexivity.
  - intros H. apply collect_data_turn_drop. intros l E. injection E as <-.
    rewrite split_comma_length. lia.
  - apply split_comma_length.
  - apply split_comma_fields.
  - apply split_comma_join.
Qed.

Lemma logger_seven_commas_witness :
  collect_data_turn "1" [] (Text good_line)
  = [split_comma (strip good_line) ++ ["1"%string]] /\
  collect_data_turn "1" [] (Text "310") = [].
Proof.
  destruct (logger_seven_commas "1" [] good_line) as (H & _).
  destruct (logger_seven_commas "1" [] "310") as (_ & H' & _).
  split; [apply H; reflexivity | apply H'; vm_compute; discriminate].
Defined.

Lemma parse_sensor_row_live (parts : list string) (row : sensor_row) :
  parse_sensor_row parts = Ok row -> parse_row parts = Ok (live_part row).
Proof.
  unfold parse_sensor_row, parse_row.
  destruct (py_float (nth 0 parts EmptyString)) as [ts|]; cbn [bind]; [|discriminate].
  destruct (py_float (nth 1 parts EmptyString)) as [ax|]; cbn [bind]; [|discriminate].
  destruct (py_float (nth 2 parts EmptyString)) as [ay|]; cbn [bind]; [|discriminate].
  destruct (py_float (nth 3 parts EmptyString)) as [az|]; cbn [bind]; [|discriminate].
  destruct (py_float (nth 4 parts EmptyString)) as [gx|]; cbn [bind]; [|discriminate].
  destruct (py_float (nth 5 parts EmptyString)) as [gy|]; cbn [bind]; [|discriminate].
  destruct (py_float (nth 6 parts EmptyString)) as [gz|]; cbn [bind]; [|discriminate].
  destruct (py_int (nth 7 parts EmptyString)) as [fsr|]; cbn [bind]; [|discriminate].
  intros H. injection H as <-. reflexivity.
Qed.

(** X11.  The recorder of the test battery parses all eight fields, the
    live loop only fields 1, 2, 3 and 7: every line the recorder keeps
    is ingested by the live loop with the same accelerations and
    pressure, two lines of eight fields that agree on fields 1, 2, 3
    and 7 are the same line to the live loop, and a line whose
    timestamp or gyroscope fields are not numbers is ingested by the
    live loop and dropped by the recorder. *)
Theorem recorder_stricter_than_live (data : list sensor_row)
  (data_buffer : list raw_row) (r : serial_read) :
  (read_sensor_data_turn data r = data \/
   exists row,
     read_sensor_data_turn data r = data ++ [row] /\
     fst (live_turn data_buffer r)
     = deque_append WINDOW_SIZE data_buffer (live_part row)) /\
  (forall l1 l2,
      List.length (split_comma (strip l1)) = 8%nat ->
      List.length (split_comma (strip l2)) = 8%nat ->
      (forall i, In i [1; 2; 3; 7]%nat ->
         nth i (split_comma (strip l1)) EmptyString
         = nth i (split_comma (strip l2)) EmptyString) ->
      live_turn data_buffer (Text l1) = live_turn data_buffer (Text l2)) /\
  (fst (live_turn data_buffer (Text partial_line))
   = deque_append WINDOW_SIZE data_buffer good_row /\
   read_sensor_data_turn data (Text partial_line) = data).
Proof.
  split; [|split].
  - unfold read_sensor_data_turn. destruct r as [|line]; simpl; [left; reflexivity|].
    destruct (nonempty (strip line)); simpl; [|left; reflexivity].
    destruct (List.length (split_comma (strip line)) =? 8)%nat eqn:E8;
      [|left; reflexivity].
    apply Nat.eqb_eq in E8.
    destruct (parse_sensor_row (split_comma (strip line))) as [row|e] eqn:Erow;
      simpl; [|left; reflexivity].
    right. exists row. split; [reflexivity|].
    apply live_turn_accept; [exact E8|].
    apply parse_sensor_row_live. exact Erow.
  - intros l1 l2 H1 H2 Hsame. unfold live_turn. simpl.
    rewrite (eight_fields_nonempty _ H1), (eight_fields_nonempty _ H2), H1, H2.
    simpl. unfold parse_row.
    rewrite (Hsame 1%nat), (Hsame 2%nat), (Hsame 3%nat), (Hsame 7%nat);
      simpl; auto 6.
  - split; [|reflexivity].
    apply live_turn_accept; [reflexivity | vm_compute; reflexivity].
Qed.

Lemma recorder_stricter_than_live_witness :
  live_turn [] (Text good_line) = live_turn [] (Text partial_line).
Proof.
  destruct (recorder_stricter_than_live [] [] Undecodable) as (_ & H & _).
  apply H; [reflexivity | reflexivity |].
  intros i [<-|[<-|[<-|[<-|[]]]]]; reflexivity.
Defined.

End LineExtra.

(** ** The training table *)

Module TrainExtra.

Import Motion Train TrainTable TrainFacts MotionFacts.

Lemma In_unique (l : list Z) (x : Z) : In x (unique l) <-> In x l.
Proof.
  induction l as [|a t IH]; simpl; [tauto|].
  rewrite filter_In, IH, negb_true_iff, Z.eqb_neq.
  destruct (Z.eq_dec a x); intuition congruence.
Qed.

Lemma NoDup_unique (l : list Z) : NoDup (unique l).
Proof.
  induction l as [|a t IH]; simpl; constructor.
  - rewrite filter_In, negb_true_iff, Z.eqb_neq. intros [_ H]. congruence.
  - apply NoDup_filter. exact IH.
Qed.

Lemma unique_head (l : list Z) : hd 0%Z (unique l) = hd 0%Z l.
Proof. destruct l; reflexivity. Qed.

(** More than one distinct value means two different elements. *)
Lemma unique_mixed (l : list Z) :
  (1 < List.length (unique l))%nat <->
  exists a b, In a l /\ In b l /\ a <> b.
Proof.
  split.
  - pose proof (NoDup_unique l) as Hnd.
    destruct (unique l) as [|a [|b u]] eqn:E; simpl; try lia. intros _.
    exists a, b. rewrite <- (In_unique l a), <- (In_unique l b), E. simpl.
    split; [auto|]. split; [auto|].
    inversion Hnd as [|? ? Hnotin _]; subst. intros ->. apply Hnotin. left.
    reflexivity.
  - intros (a & b & Ha & Hb & Hab).
    apply In_unique in Ha. apply In_unique in Hb.
    destruct (unique l) as [|x [|y u]]; simpl in *; try lia;
      try contradiction.
Qed.

Lemma window_at_length (df : list labelled) (s : Z) :
  In s (starts df) -> List.length (window_at df s) = 100%nat.
Proof.
  intros Hs. apply starts_spec in Hs. unfold WINDOW_SIZE in Hs.
  unfold window_at, iloc, WINDOW_SIZE.
  replace (s + 100 - s)%Z with 100%Z by lia.
  rewrite length_firstn, length_skipn. change (Z.to_nat 100) with 100%nat.
  lia.
Qed.

Section Table.

Context {K : Numeric}.

(** On a window of two rows or more the trainer's extractor returns
    the six named features. *)
Lemma window_extract (rows : list labelled) :
  (2 <= List.length rows)%nat ->
  exists v,
    get_features_from_window (DataFrame_of (map row rows))
    = Ok (combine feature_names v) /\
    List.length v = 6%nat /\ window_features rows = v.
Proof.
  intros H2.
  assert (H2' : (2 <= List.length (map row rows))%nat)
    by (rewrite length_map; exact H2).
  destruct (extractors_agree (map row rows) H2') as (k & _ & _ & _ & Ht).
  eexists. split; [exact Ht|]. split; [reflexivity|].
  unfold window_features. rewrite Ht. reflexivity.
Qed.

(** The state after one visited start. *)
Lemma loop_body_spec (df : list labelled) (st : locals) (s : Z) :
  In s (starts df) ->
  (single_label df s = false /\ loop_body df st s = Ok st) \/
  (single_label df s = true /\
   exists v,
     List.length v = 6%nat /\ window_features (window_at df s) = v /\
     loop_body df st s
     = Ok {| X := X st ++ [v];
             y := y st ++ [first_label (window_at df s)];
             features := Some (combine feature_names v) |}).
Proof.
  intros Hs. pose proof (window_at_length df s Hs) as Hlen.
  unfold single_label, loop_body. fold (window_at df s).
  destruct (1 <? List.length (unique (map Label (window_at df s))))%nat eqn:E.
  - left. apply Nat.ltb_lt in E. split; [|reflexivity].
    apply Nat.leb_gt. exact E.
  - right. apply Nat.ltb_ge in E. split; [apply Nat.leb_le; exact E|].
    destruct (window_extract (window_at df s)) as (v & Hv & Hv6 & Hwf);
      [rewrite Hlen; lia|].
    exists v. split; [exact Hv6|]. split; [exact Hwf|].
    rewrite Hv. cbn [bind].
    assert (Hl : exists l0 u, unique (map Label (window_at df s)) = l0 :: u
                              /\ l0 = first_label (window_at df s)).
    { unfold first_label.
      destruct (window_at df s) as [|r0 w]; [discriminate Hlen|].
      simpl. eauto. }
    destruct Hl as (l0 & u & -> & ->). cbn [bind].
    unfold dict_values. f_equal. f_equal. f_equal.
    clear -Hv6. destruct v as [|a [|b [|c [|d [|e [|f [|g v]]]]]]];
      try discriminate. reflexivity.
Qed.

(** The state after a run over visited starts. *)
Lemma for_each_spec (df : list labelled) (ss : list Z) :
  Forall (fun s => In s (starts df)) ss ->
  forall st,
  exists st',
    for_each df ss st = Ok st' /\
    X st' = X st ++ map (fun s => window_features (window_at df s))
                        (filter (single_label df) ss) /\
    y st' = y st ++ map (fun s => first_label (window_at df s))
                        (filter (single_label df) ss) /\
    (filter (single_label df) ss = [] -> features st' = features st) /\
    (filter (single_label df) ss <> [] ->
     exists v, List.length v = 6%nat /\
               features st' = Some (combine feature_names v)).
Proof.
  induction ss as [|s ss IH]; intros Hall st.
  - exists st. simpl. rewrite !app_nil_r. repeat split; auto. congruence.
  - inversion Hall as [|? ? Hs Hrest]; subst.
    cbn [for_each filter].
    destruct (loop_body_spec df st s Hs) as [[Hsl Hb]|[Hsl (v & Hv6 & Hwf & Hb)]];
      rewrite Hsl, Hb; cbn [bind].
    + apply IH. exact Hrest.
    + destruct (IH Hrest {| X := X st ++ [v];
                            y := y st ++ [first_label (window_at df s)];
                            features := Some (combine feature_names v) |})
        as (st' & Hrun & HX & Hy & Hnone & Hsome).
      exists st'. split; [exact Hrun|]. cbn [X y features map] in *.
      split; [rewrite HX, <- app_assoc, Hwf; reflexivity|].
      split; [rewrite Hy, <- app_assoc; reflexivity|].
      split; [discriminate|]. intros _.
      destruct (filter (single_label df) ss) eqn:E.
      * exists v. split; [exact Hv6|]. rewrite Hnone by reflexivity.
        reflexivity.
      * apply Hsome. discriminate.
Qed.

Lemma windows_spec (df : list labelled) :
  exists st,
    windows df = Ok st /\
    X st = map (fun s => window_features (window_at df s)) (kept df) /\
    y st = map (fun s => first_label (window_at df s)) (kept df) /\
    (kept df = [] -> features st = None) /\
    (kept df <> [] ->
     exists v, List.length v = 6%nat /\
               features st = Some (combine feature_names v)).
Proof.
  unfold windows, kept.
  apply (for_each_spec df (starts df)).
  apply Forall_forall. auto.
Qed.

End Table.

(** X12.  Every window the trainer visits is a run of exactly
    WINDOW_SIZE consecutive rows of the recording, row [i] of the
    window at [start] being row [start + i] of the file, and the
    second half of a window is the first half of the next one. *)
Theorem window_shape (df : list labelled) (s : Z)
  (Hs : In s (starts df)) :
  List.length (window_at df s) = 100%nat /\
  (forall i, (i < 100)%nat ->
     nth_error (window_at df s) i = nth_error df (Z.to_nat s + i)) /\
  (In (s + STEP_SIZE)%Z (starts df) ->
   skipn 50 (window_at df s)
   = firstn 50 (window_at df (s + STEP_SIZE))).
Proof.
  pose proof (window_at_length df s Hs) as Hlen.
  pose proof (proj1 (starts_spec df s) Hs) as (H0 & _ & _).
  assert (Hw : forall t, window_at df t
                         = firstn 100 (skipn (Z.to_nat t) df)).
  { intros t. unfold window_at, iloc, WINDOW_SIZE.
    replace (t + 100 - t)%Z with 100%Z by lia. reflexivity. }
  split; [exact Hlen|]. split.
  - intros i Hi. rewrite Hw, nth_error_firstn, nth_error_skipn.
    replace (i <? 100)%nat with true by (symmetry; apply Nat.ltb_lt; exact Hi).
    reflexivity.
  - intros _. rewrite !Hw, skipn_firstn_comm, skipn_skipn.
    unfold STEP_SIZE. rewrite firstn_firstn.
    replace (Z.to_nat (s + 50)) with (50 + Z.to_nat s)%nat by lia.
    reflexivity.
Qed.

Lemma window_shape_witness :
  List.length (window_at (recording 250) 50) = 100%nat /\
  skipn 50 (window_at (recording 250) 50)
  = firstn 50 (window_at (recording 250) 100).
Proof.
  assert (Hs : In 50%Z (starts (recording 250))) by (vm_compute; auto).
  destruct (window_shape (recording 250) 50 Hs) as (H1 & _ & H2).
  split; [exact H1|]. apply H2. vm_compute. auto.
Defined.



Lemma train_some_window {K : Numeric} (df : list labelled) :
  kept df <> [] ->
  train (Some df)
  = Ok (Samples
          (map (fun s => window_features (window_at df s)) (kept df))
          (map (fun s => first_label (window_at df s)) (kept df))
          feature_names).
Proof.
  intros Hk. destruct (windows_spec df) as (st & Hw & HX & Hy & _ & Hf).
  destruct (Hf Hk) as (v & Hv6 & Hfeat).
  unfold train. rewrite Hw. cbn [bind]. rewrite Hfeat. cbn [bind].
  rewrite HX, Hy, length_map.
  destruct (kept df) as [|s0 ks]; [congruence|]. cbn [List.length Nat.eqb].
  f_equal. f_equal.
  clear -Hv6. destruct v as [|a [|b [|c [|d [|e [|f [|g v]]]]]]];
    try discriminate. reflexivity.
Qed.



(** X15.  A visited window is skipped, leaving the table as it was,
    exactly when two of its rows carry different labels. *)
Theorem discard_rule {K : Numeric} (df : list labelled) (st : locals)
  (s : Z) (Hs : In s (starts df)) :
  loop_body df st s = Ok st <->
  exists a b, In a (window_at df s) /\ In b (window_at df s) /\
              Label a <> Label b.
Proof.
  assert (Hmix : single_label df s = false <->
                 exists a b, In a (window_at df s) /\ In b (window_at df s) /\
                             Label a <> Label b).
  { unfold single_label. rewrite Nat.leb_gt, unique_mixed. split.
    - intros (la & lb & Ha & Hb & Hab).
      apply in_map_iff in Ha. destruct Ha as (a & <- & Ha).
      apply in_map_iff in Hb. destruct Hb as (b & <- & Hb).
      exists a, b. auto.
    - intros (a & b & Ha & Hb & Hab). exists (Label a), (Label b).
      split; [apply in_map; exact Ha|]. split; [apply in_map; exact Hb|].
      exact Hab. }
  rewrite <- Hmix.
  destruct (loop_body_spec df st s Hs) as [[Hsl Hb]|[Hsl (v & _ & _ & Hb)]];
    rewrite Hb, Hsl.
  - split; reflexivity.
  - split; [|discriminate]. intros H. injection H as H.
    apply (f_equal (fun t => List.length (X t))) in H. cbn [X] in H.
    rewrite length_app in H. simpl in H. lia.
Qed.

Lemma discard_rule_witness :
  loop_body (two_sessions 150 150) locals0 100 = Ok locals0.
Proof.
  assert (Hs : In 100%Z (starts (two_sessions 150 150)))
    by (vm_compute; auto).
  apply (discard_rule (two_sessions 150 150) locals0 100 Hs).
  exists {| row := {| AccelX := 0; AccelY := 0; AccelZ := 98 # 10;
                      FSR := 300 |}; Label := 0 |},
         {| row := {| AccelX := 3; AccelY := 4; AccelZ := 0;
                      FSR := 310 |}; Label := 1 |}.
  split; [vm_compute; auto|]. split; [|discriminate].
  vm_compute. do 50 right. left. reflexivity.
Defined.

End TrainExtra.

(** ** The voice endpoint and the voice command line *)

Module VoiceExtra.

Import Np Voice VoiceReport VoiceFacts.


(** X17.  A recording that the command line analyses to a verdict is
    answered by the endpoint, under the same model and scaler, with
    status 500, from the JSON encoder; a recording in which the command
    line finds no clear voice is answered with status 400. *)
Theorem voice_paths_answers {L : Librosa} (model : Model) (scaler : Scaler)
  (audio : list Q) (rate : Z) :
  (forall prediction confidence features,
      analyze_voice_round model scaler audio rate
      = Ok (Some (prediction, confidence, features)) ->
      predict_audio {| speech_model := Some model;
                       speech_scaler := Some scaler |}
                    (Some audio) (Some rate)
      = Failure 500 "TypeError") /\
  (analyze_voice_round model scaler audio rate = Ok None ->
   predict_audio {| speech_model := Some model;
                    speech_scaler := Some scaler |}
                 (Some audio) (Some rate)
   = Failure 400 "Could not extract features (too short/silent?)").
Proof.
  unfold analyze_voice_round, predict_audio, extract_voice_features,
    extract_features.
  cbn [speech_model speech_scaler scaler_transform].
  destruct (effects_trim audio) as [a'|e]; cbn [bind];
    [|split; [intros ? ? ?|]; discriminate].
  destruct (voice_features a' rate) as [[f|]|e]; cbn [bind try_except];
    [|split; [intros ? ? ?; discriminate | reflexivity]
     |split; [intros ? ? ?|]; discriminate].
  destruct (transform scaler f) as [scaled|e]; cbn [bind];
    [|split; [intros ? ? ?|]; discriminate].
  destruct (predict model scaled) as [c|e]; cbn [bind];
    [|split; [intros ? ? ?|]; discriminate].
  destruct (predict_proba model scaled) as [probs|e]; cbn [bind];
    [|split; [intros ? ? ?|]; discriminate].
  destruct (np_max probs) as [top|e]; cbn [bind];
    [|split; [intros ? ? ?|]; discriminate].
  split; [intros ? ? ? _; reflexivity | discriminate].
Qed.

Lemma voice_paths_answers_witness :
  @predict_audio voiced_run
    {| speech_model := Some tremor_model;
       speech_scaler := Some identity_scaler |}
    (Some clip) (Some 16000%Z)
  = Failure 500 "TypeError".
Proof.
  assert (E : exists confidence features,
             @analyze_voice_round voiced_run tremor_model identity_scaler
               clip 16000
             = Ok (Some (1%Z, confidence, features)))
    by (vm_compute; eauto).
  destruct E as (confidence & features & E).
  exact (proj1 (@voice_paths_answers voiced_run _ _ _ _) _ _ _ E).
Defined.

Lemma Fsum_repeat (q : Q) (n : nat) :
  exists s, Fsum (repeat (Fin q) n) = Fin s /\
            s == inject_Z (Z.of_nat n) * q.
Proof.
  induction n as [|n (s & Hs & Es)].
  - exists 0. split; [reflexivity|]. simpl. ring.
  - exists (q + s). split.
    + cbn [repeat]. unfold Fsum in *. cbn [fold_right]. rewrite Hs. reflexivity.
    + rewrite Es, Nat2Z.inj_succ, <- Z.add_1_r, inject_Z_plus.
      change (inject_Z 1) with 1. ring.
Qed.

Lemma Fdiff_repeat (x : npfloat) (n : nat) :
  Fdiff (repeat x (S n)) = repeat (Fsub x x) n.
Proof.
  induction n as [|n IH]; [reflexivity|].
  change (Fdiff (repeat x (S (S n))))
    with (Fsub x x :: Fdiff (repeat x (S n))).
  rewrite IH. reflexivity.
Qed.

Lemma Qeq_bool_false (a : Q) : ~ a == 0 -> Qeq_bool a 0 = false.
Proof.
  intros H. destruct (Qeq_bool a 0) eqn:E; [|reflexivity].
  apply Qeq_bool_eq in E. contradiction.
Qed.

(** X18.  The instability measure behind jitter and shimmer: on a
    series of two or more equal finite values it is zero when the value
    is not zero, and NaN when the value is zero. *)
Theorem steady_series_instability (v : Q) (n : nat)
  (Hn : (2 <= n)%nat) :
  (~ v == 0 ->
   exists q, instability (repeat (Fin v) n) = Fin q /\ q == 0) /\
  (v == 0 -> instability (repeat (Fin v) n) = NaN).
Proof.
  destruct n as [|[|n]]; try lia.
  assert (Hd : exists d, Fmean (map Fabs (Fdiff (repeat (Fin v) (S (S n)))))
                         = Fin d /\ d == 0).
  { rewrite Fdiff_repeat, map_repeat. cbn [Fsub Fneg Fadd Fabs].
    destruct (Fsum_repeat (Qabs (v + - v)) (S n)) as (s & Hs & Es).
    unfold Fmean. rewrite Hs, repeat_length. cbn [Fdiv].
    rewrite Qeq_bool_false.
    - eexists. split; [reflexivity|]. rewrite Es.
      assert (E0 : Qabs (v + - v) == 0).
      { assert (E1 : v + - v == 0) by ring. rewrite E1. reflexivity. }
      rewrite E0. field. unfold Qeq. simpl. lia.
    - unfold Qeq. simpl. lia. }
  destruct Hd as (d & Hd & Ed).
  destruct (Fsum_repeat v (S (S n))) as (s & Hs & Es).
  assert (Hm : exists m, Fmean (repeat (Fin v) (S (S n))) = Fin m /\ m == v).
  { unfold Fmean. rewrite Hs, repeat_length. cbn [Fdiv].
    rewrite Qeq_bool_false by (unfold Qeq; simpl; lia).
    eexists. split; [reflexivity|]. rewrite Es. field.
    unfold Qeq. simpl. lia. }
  destruct Hm as (m & Hm & Em).
  unfold instability. rewrite Hd, Hm. cbn [Fdiv]. split.
  - intros Hv. rewrite Qeq_bool_false by (rewrite Em; exact Hv).
    cbn [Fmul]. eexists. split; [reflexivity|]. rewrite Ed. field.
    rewrite Em. exact Hv.
  - intros Hv.
    assert (Em0 : Qeq_bool m 0 = true)
      by (apply Qeq_bool_iff; rewrite Em; exact Hv).
    rewrite Em0. unfold inf_of_sign.
    assert (H1 : Qltb 0 d = false).
    { apply Qltb_ge. rewrite Ed. apply Qle_refl. }
    assert (H2 : Qltb d 0 = false).
    { apply Qltb_ge. rewrite Ed. apply Qle_refl. }
    rewrite H1, H2. reflexivity.
Qed.

Lemma steady_series_instability_witness :
  (exists q, instability (repeat (Fin 150) 3) = Fin q /\ q == 0) /\
  instability (repeat (Fin 0) 3) = NaN.
Proof.
  split.
  - apply (steady_series_instability 150 3); [lia|].
    intros E. discriminate E.
  - apply (steady_series_instability 0 3); [lia|]. reflexivity.
Defined.

End VoiceExtra.

(** ** Training on the fabricated file *)

Module FabricateExtra.

Import Motion Train TrainTable Fabricate TrainExtra.

Lemma iloc_map {A B : Type} (f : A -> B) (df : list A) (a b : Z) :
  map f (iloc df a b) = iloc (map f df) a b.
Proof. unfold iloc. rewrite skipn_map, firstn_map. reflexivity. Qed.

Section SameLabels.

Variables df df' : list labelled.
Hypothesis same : map Label df = map Label df'.

Lemma starts_same : starts df = starts df'.
Proof.
  unfold starts. apply (f_equal (@List.length Z)) in same.
  rewrite !length_map in same. rewrite same. reflexivity.
Qed.

Lemma window_labels_same (s : Z) :
  map Label (window_at df s) = map Label (window_at df' s).
Proof. unfold window_at. rewrite !iloc_map, same. reflexivity. Qed.

Lemma kept_same : kept df = kept df'.
Proof.
  unfold kept. rewrite starts_same. apply filter_ext. intros s.
  unfold single_label. rewrite window_labels_same. reflexivity.
Qed.

Lemma first_labels_same :
  map (fun s => first_label (window_at df s)) (kept df)
  = map (fun s => first_label (window_at df' s)) (kept df').
Proof.
  rewrite kept_same. apply map_ext. intros s. unfold first_label.
  rewrite window_labels_same. reflexivity.
Qed.

End SameLabels.

Lemma segment_labels (label : Z) (values : nat -> sample) :
  map Label (generate_segment label values)
  = map (fun _ => label) (seq 0 SAMPLES_PER_CLASS).
Proof. unfold generate_segment. rewrite map_map. reflexivity. Qed.

Lemma final_df_labels (draws : nat -> Z -> nat -> sample) :
  map Label (final_df draws) = map Label (final_df still).
Proof.
  unfold final_df, df_list, generate_rest_segment, generate_tremor_segment,
    generate_voluntary_segment.
  cbn [seq flat_map app List.concat].
  rewrite !map_app, !segment_labels. reflexivity.
Qed.

Lemma still_length : Z.of_nat (List.length (final_df still)) = 60000%Z.
Proof. vm_compute. reflexivity. Qed.

Lemma still_starts : Z.of_nat (List.length (starts (final_df still))) = 1198%Z.
Proof. vm_compute. reflexivity. Qed.

Lemma still_kept :
  kept (final_df still)
  = filter (fun s => negb (s mod 2000 =? 1950)%Z) (starts (final_df still)).
Proof. vm_compute. reflexivity. Qed.

Lemma still_labels :
  map (fun s => first_label (window_at (final_df still) s))
      (kept (final_df still))
  = List.concat
      (map (fun i => repeat 0%Z 39 ++ repeat 1%Z 39
                     ++ repeat 2%Z (if (i =? 9)%nat then 38 else 39))
           (seq 0 10)).
Proof. vm_compute. reflexivity. Qed.

(** X19.  Training on the file that [fabricate_data.py] writes, whatever
    the random draws: the file has 60000 rows, the loop visits 1198
    starts and discards exactly those whose window straddles the border
    of two segments, and the table gets, session after session, 39 rows
    of rest, 39 of tremor and 39 of voluntary movement, 38 in the last
    session: 1169 rows in all. *)
Theorem fabricated_table {K : Numeric} (draws : nat -> Z -> nat -> sample) :
  exists X y,
    train (Some (final_df draws)) = Ok (Samples X y feature_names) /\
    Z.of_nat (List.length (final_df draws)) = 60000%Z /\
    Z.of_nat (List.length (starts (final_df draws))) = 1198%Z /\
    kept (final_df draws)
    = filter (fun s => negb (s mod 2000 =? 1950)%Z) (starts (final_df draws)) /\
    y = List.concat
          (map (fun i => repeat 0%Z 39 ++ repeat 1%Z 39
                         ++ repeat 2%Z (if (i =? 9)%nat then 38 else 39))
               (seq 0 10)) /\
    List.length X = 1169%nat /\ List.length y = 1169%nat.
Proof.
  pose proof (final_df_labels draws) as Hl.
  pose proof (kept_same _ _ Hl) as Hk.
  pose proof (starts_same _ _ Hl) as Hs.
  pose proof (first_labels_same _ _ Hl) as Hy.
  assert (Hlen : List.length
                   (map (fun s => first_label (window_at (final_df draws) s))
                        (kept (final_df draws))) = 1169%nat).
  { rewrite Hy, still_labels. vm_compute. reflexivity. }
  assert (Hne : kept (final_df draws) <> []).
  { intros E. rewrite E in Hlen. discriminate Hlen. }
  eexists. eexists. split; [apply train_some_window; exact Hne|].
  split.
  { apply (f_equal (@List.length Z)) in Hl. rewrite !length_map in Hl.
    rewrite Hl. apply still_length. }
  split; [rewrite Hs; apply still_starts|].
  split; [rewrite Hk, Hs; apply still_kept|].
  split; [rewrite Hy; apply still_labels|].
  split; [|exact Hlen].
  rewrite length_map in Hlen. rewrite length_map. exact Hlen.
Qed.

End FabricateExtra.

(** ** The test battery *)

Module BatteryExtra.

Import Np Serial Motion Battery ArrayFacts MotionFacts.

Section Sensor.

Context {K : Numeric}.

Lemma records_nonempty (data : list sample) :
  data <> [] ->
  DataFrame_of_records data = DataFrame_of data /\
  empty (DataFrame_of_records data) = false.
Proof.
  intros Hne. destruct data as [|r data]; [congruence|].
  split; reflexivity.
Qed.

(** The resting test on a recording with rows, in terms of the spectrum
    of the recording. *)
Lemma test_resting_tremor_nonempty (data : list sample) :
  data <> [] ->
  test_resting_tremor data
  = (k <- np_argmax (mags_of data) ;;
     let peak_freq := nth k (freqs_of data) 0 in
     let tremor_energy :=
       np_sum (select (resting_band_mask (freqs_of data)) (mags_of data)) in
     Ok (Resting peak_freq tremor_energy
           (Qltb 5 tremor_energy
            && (Qleb 3 peak_freq && Qleb peak_freq 6)))).
Proof.
  intros Hne. unfold test_resting_tremor.
  destruct (records_nonempty data Hne) as [-> ->].
  change (col (DataFrame_of data) "AccelX") with (Ok (map AccelX data)).
  change (col (DataFrame_of data) "AccelY") with (Ok (map AccelY data)).
  change (col (DataFrame_of data) "AccelZ") with (Ok (map AccelZ data)).
  cbn [bind]. fold (acc_signal data).
  rewrite acc_signal_length.
  rewrite (scipy_fft_abs_nonempty _ (acc_signal_nonempty data Hne)).
  cbn [bind]. reflexivity.
Qed.

(** The same for the action test. *)
Lemma test_action_tremor_nonempty (data : list sample) :
  data <> [] ->
  test_action_tremor data
  = (k <- np_argmax (mags_of data) ;;
     peak_freq <- (if (k <? List.length data)%nat
                   then Ok (nth k (fftfreq (List.length data)
                                           (1 / SAMPLING_RATE_SENSOR)) 0)
                   else Raise IndexError) ;;
     let rms := np_sqrt (np_mean (map sq (acc_signal data))) in
     Ok (Action rms peak_freq
           (if Qltb 2 rms && (Qleb 6 peak_freq && Qleb peak_freq 12)
            then Essential
            else if Qltb 2 rms && Qltb peak_freq 6 then LowFrequency
            else Steady))).
Proof.
  intros Hne. unfold test_action_tremor.
  destruct (records_nonempty data Hne) as [-> ->].
  change (col (DataFrame_of data) "AccelX") with (Ok (map AccelX data)).
  change (col (DataFrame_of data) "AccelY") with (Ok (map AccelY data)).
  change (col (DataFrame_of data) "AccelZ") with (Ok (map AccelZ data)).
  cbn [bind]. fold (acc_signal data).
  rewrite acc_signal_length.
  rewrite (scipy_fft_abs_nonempty _ (acc_signal_nonempty data Hne)).
  cbn [bind]. rewrite fftfreq_length. reflexivity.
Qed.

(** X20.  The resting-tremor test by the size of the recording: without
    a row it ends without a report, on a single row it stops on the
    peak search over an empty spectrum, and on two rows or more it
    reports the frequency of the peak bin of the recording, which lies
    below half the sampling rate and is the dominant frequency the live
    extractor returns for these rows; the flag needs that peak between
    3 and 6 Hz and a band energy above 5. *)
Theorem resting_tremor_regimes (data : list sample) :
  (data = [] -> test_resting_tremor data = Ok NoRecording) /\
  (List.length data = 1%nat -> test_resting_tremor data = Raise ValueError) /\
  ((2 <= List.length data)%nat ->
   exists k peak energy flag features,
     test_resting_tremor data = Ok (Resting peak energy flag) /\
     peak_bin (spectrum data) k /\
     peak = fst (nth k (spectrum data) (0, 0)) /\
     0 <= peak /\ peak < SAMPLING_RATE_SENSOR / 2 /\
     get_features_live (DataFrame_of data) = Ok features /\
     nth 0 features 0 = peak /\
     (flag = true <-> 5 < energy /\ 3 <= peak /\ peak <= 6)).
Proof.
  split; [intros ->; reflexivity|]. split.
  - intros H1.
    assert (Hne : data <> []) by (intros ->; discriminate H1).
    rewrite (test_resting_tremor_nonempty data Hne).
    assert (E : mags_of data = []).
    { apply length_zero_iff_nil. rewrite mags_of_length, H1. reflexivity. }
    rewrite E. reflexivity.
  - intros H2.
    assert (Hne : data <> []) by (intros ->; simpl in H2; lia).
    destruct (peak_exists data H2) as (k & Hk & Hpeak).
    rewrite (test_resting_tremor_nonempty data Hne),
      (get_features_live_nonempty data Hne), Hk.
    cbn [bind].
    pose proof Hpeak as (Hlt & _). rewrite spectrum_length in Hlt.
    destruct (bin_frequency_range data k Hlt) as [Hlo Hhi].
    exists k. eexists. eexists. eexists. eexists.
    split; [reflexivity|]. split; [exact Hpeak|].
    split; [rewrite spectrum_nth; reflexivity|].
    split; [exact Hlo|]. split; [exact Hhi|].
    split; [reflexivity|]. split; [reflexivity|].
    rewrite !andb_true_iff, Qltb_lt, !Qleb_le. reflexivity.
Qed.

(** X21.  On two rows or more the action-tremor test reads its peak
    frequency at the same bin as the resting-tremor test and shows the
    same value; it says steady exactly when the intensity is at most 2
    or the peak is above 12 Hz, and its other two verdicts both need an
    intensity above 2. *)
Theorem action_tremor_verdicts (data : list sample)
  (H2 : (2 <= List.length data)%nat) :
  exists rms peak verdict energy flag,
    test_action_tremor data = Ok (Action rms peak verdict) /\
    test_resting_tremor data = Ok (Resting peak energy flag) /\
    (verdict = Steady <-> rms <= 2 \/ 12 < peak) /\
    (verdict = Essential <-> 2 < rms /\ 6 <= peak /\ peak <= 12) /\
    (verdict = LowFrequency <-> 2 < rms /\ peak < 6).
Proof.
  assert (Hne : data <> []) by (intros ->; simpl in H2; lia).
  destruct (peak_exists data H2) as (k & Hk & Hpeak).
  pose proof Hpeak as (Hlt & _). rewrite spectrum_length in Hlt.
  pose proof (half_le (List.length data)) as Hhalf.
  rewrite (test_action_tremor_nonempty data Hne),
    (test_resting_tremor_nonempty data Hne), Hk.
  cbn [bind].
  replace (k <? List.length data)%nat with true
    by (symmetry; apply Nat.ltb_lt; lia).
  cbn [bind].
  assert (Epeak : nth k (freqs_of data) 0
                  = nth k (fftfreq (List.length data)
                                   (1 / SAMPLING_RATE_SENSOR)) 0).
  { unfold freqs_of, positive_freqs. rewrite nth_firstn.
    replace (k <? List.length data / 2)%nat with true
      by (symmetry; apply Nat.ltb_lt; exact Hlt).
    reflexivity. }
  rewrite Epeak.
  set (peak := nth k (fftfreq (List.length data) (1 / SAMPLING_RATE_SENSOR)) 0).
  set (rms := np_sqrt (np_mean (map sq (acc_signal data)))).
  exists rms, peak. eexists. eexists. eexists.
  split; [reflexivity|]. split; [reflexivity|].
  destruct (Qltb 2 rms) eqn:Er;
    [apply Qltb_lt in Er | apply Qltb_ge in Er];
    (destruct (Qleb 6 peak) eqn:E6;
     [apply Qleb_le in E6
     |assert (E6' : peak < 6)
        by (apply Qnot_le_lt; intros C; apply Qleb_le in C; congruence)]);
    (destruct (Qleb peak 12) eqn:E12;
     [apply Qleb_le in E12
     |assert (E12' : 12 < peak)
        by (apply Qnot_le_lt; intros C; apply Qleb_le in C; congruence)]);
    (destruct (Qltb peak 6) eqn:El;
     [apply Qltb_lt in El | apply Qltb_ge in El]);
    cbn [andb];
    repeat split; intros; try discriminate; try reflexivity; try lra;
    repeat match goal with
           | H : _ /\ _ |- _ => destruct H
           | H : _ \/ _ |- _ => destruct H
           end; try lra; auto.
Qed.




End Sensor.

Lemma action_tremor_verdicts_witness :
  exists rms peak verdict energy flag,
    test_action_tremor two_rows = Ok (Action rms peak verdict) /\
    test_resting_tremor two_rows = Ok (Resting peak energy flag).
Proof.
  assert (H2 : (2 <= List.length two_rows)%nat) by (simpl; lia).
  destruct (action_tremor_verdicts two_rows H2)
    as (rms & peak & verdict & energy & flag & Ha & Hr & _).
  exists rms, peak, verdict, energy, flag. split; assumption.
Defined.

Lemma resting_tremor_regimes_witness :
  test_resting_tremor [] = Ok NoRecording /\
  test_resting_tremor single_sample = Raise ValueError /\
  exists peak energy flag,
    test_resting_tremor two_rows = Ok (Resting peak energy flag).
Proof.
  destruct (resting_tremor_regimes []) as (H0 & _ & _).
  destruct (resting_tremor_regimes single_sample) as (_ & H1 & _).
  destruct (resting_tremor_regimes two_rows) as (_ & _ & H2).
  split; [apply H0; reflexivity|]. split; [apply H1; reflexivity|].
  destruct H2 as (k & peak & energy & flag & features & H & _);
    [simpl; lia|].
  exists peak, energy, flag. exact H.
Defined.





(** X24.  The vocal test records ten seconds.  Whatever is trimmed from
    the recording, the phonation time it shows is between 1 and 10
    seconds, and it raises the flag of a short phonation unless nothing
    at all was trimmed. *)
Theorem vocal_motor_hypophonia {L : Voice.Librosa} (y y_trimmed : list Q)
  (r : vocal_report)
  (Hy : Z.of_nat (List.length y) = recorded_samples)
  (Ht : Voice.effects_trim y = Ok y_trimmed)
  (Hsub : (List.length y_trimmed <= List.length y)%nat)
  (Hr : test_vocal_motor y = Ok (Some r)) :
  1 <= duration r /\ duration r <= 10 /\
  (hypophonia r = false <-> List.length y_trimmed = List.length y).
Proof.
  unfold test_vocal_motor in Hr. rewrite Ht in Hr. cbn [bind] in Hr.
  unfold recorded_samples, SAMPLING_RATE_AUDIO in *.
  destruct (Z.of_nat (List.length y_trimmed) <? 22050)%Z eqn:E;
    [discriminate|].
  apply Z.ltb_ge in E.
  destruct (Voice.pyin y_trimmed 22050) as [f0|e]; [|discriminate].
  cbn [bind] in Hr. injection Hr as <-.
  cbn [duration hypophonia].
  set (n := Z.of_nat (List.length y_trimmed)) in *.
  assert (Hn : (n <= 220500)%Z) by lia.
  assert (E1 : 1 <= inject_Z n / inject_Z 22050).
  { apply Qle_shift_div_l; [reflexivity|].
    rewrite Qmult_1_l. rewrite <- Zle_Qle. exact E. }
  assert (E10 : inject_Z n / inject_Z 22050 <= 10).
  { apply Qle_shift_div_r; [reflexivity|].
    change (10 * inject_Z 22050) with (inject_Z 220500).
    rewrite <- Zle_Qle. exact Hn. }
  split; [exact E1|]. split; [exact E10|].
  rewrite Qltb_ge. split.
  - intros H.
    assert (H' : 10 * inject_Z 22050 <= inject_Z n).
    { apply (Qmult_le_r _ _ (/ inject_Z 22050)); [reflexivity|].
      setoid_replace (10 * inject_Z 22050 * / inject_Z 22050) with 10
        by (field; discriminate).
      exact H. }
    change (10 * inject_Z 22050) with (inject_Z 220500) in H'.
    rewrite <- Zle_Qle in H'. lia.
  - intros H.
    assert (En : n = 220500%Z) by lia.
    rewrite En. apply Qle_shift_div_l; [reflexivity|].
    apply Qle_refl.
Qed.

Lemma vocal_motor_hypophonia_witness :
  exists r,
    @test_vocal_motor steady_run
      (repeat (1 # 2) (Z.to_nat recorded_samples)) = Ok (Some r) /\
    hypophonia r = false /\ duration r <= 10.
Proof.
  set (y := repeat (1 # 2) (Z.to_nat recorded_samples)).
  assert (Hlen : Z.of_nat (List.length y) = recorded_samples).
  { unfold y. rewrite repeat_length. apply Z2Nat.id.
    unfold recorded_samples, SAMPLING_RATE_AUDIO. lia. }
  assert (Ht : @Voice.effects_trim steady_run y = Ok y) by reflexivity.
  assert (Hr : exists r, @test_vocal_motor steady_run y = Ok (Some r)).
  { unfold test_vocal_motor. rewrite Ht. cbn [bind]. rewrite Hlen.
    change (recorded_samples <? SAMPLING_RATE_AUDIO)%Z with false.
    cbn iota. cbn [Voice.pyin steady_run bind]. eexists. reflexivity. }
  destruct Hr as (r & Hr).
  destruct (@vocal_motor_hypophonia steady_run y y r Hlen Ht (le_n _) Hr)
    as (_ & H10 & Hh).
  exists r. split; [exact Hr|]. split; [apply Hh; reflexivity | exact H10].
Defined.

End BatteryExtra.

(** ** Requests of a single row *)

Module RequestExtra.

Import Motion MotionFacts GateFacts.

(** X25.  A request of a single row has no bin in its spectrum: the
    extractor of the API reports a dominant frequency of 0 and no band
    energy, so the gate turns a tremor verdict of the classifier into a
    voluntary one, and [/predict] never answers Tremor for it; the live
    extractor and the extractor of the trainer raise on such a frame. *)
Theorem single_row_request {K : Numeric}
  (model_predict : list Q -> result Z) (r : sample) :
  (exists a m s, get_features (DataFrame_of [r]) = Ok [0; 0; 0; a; m; s]) /\
  get_features_live (DataFrame_of [r]) = Raise ValueError /\
  get_features_from_window (DataFrame_of [r]) = Raise ValueError /\
  (forall c label f e,
      predict model_predict true (Some (DataFrame_of [r]))
      = Verdict c label f e ->
      c <> 1%Z /\ f = 0 /\ e = 0).
Proof.
  assert (E : exists a m s,
             get_features (DataFrame_of [r]) = Ok [0; 0; 0; a; m; s])
    by (do 3 eexists; reflexivity).
  split; [exact E|]. split; [reflexivity|]. split; [reflexivity|].
  destruct E as (a & m & s & E).
  intros c label f e H. unfold predict in H.
  change (has_column "AccelX" (DataFrame_of [r])) with true in H.
  change (has_column "AccelY" (DataFrame_of [r])) with true in H.
  change (has_column "AccelZ" (DataFrame_of [r])) with true in H.
  change (fill_FSR (DataFrame_of [r])) with (DataFrame_of [r]) in H.
  cbn [negb] in H. rewrite E in H. cbn [bind] in H.
  destruct (model_predict [0; 0; 0; a; m; s]) as [p|x];
    cbn [bind try_except nth] in H; [|discriminate].
  injection H as <- _ <- <-.
  split; [|split; reflexivity].
  unfold gate_api. destruct (p =? 1)%Z eqn:Ep.
  - change (Qltb 7 0) with false. change (Qltb 0 3) with true.
    cbn iota. discriminate.
  - apply Z.eqb_neq. exact Ep.
Qed.

Lemma single_row_request_witness :
  predict MotionData.always_tremor true (Some (DataFrame_of single_sample))
  = Verdict 2 "Voluntary" 0 0.
Proof.
  assert (E : exists c label f e,
             predict MotionData.always_tremor true
                     (Some (DataFrame_of single_sample))
             = Verdict c label f e) by (vm_compute; eauto 6).
  destruct E as (c & label & f & e & E).
  destruct (proj2 (proj2 (proj2
              (single_row_request MotionData.always_tremor
                 {| AccelX := 0; AccelY := 0; AccelZ := 98 # 10;
                    FSR := 310 |}))) c label f e E) as (_ & _ & _).
  vm_compute. reflexivity.
Defined.

End RequestExtra.

(** ** Deployment of the voice model *)

Module DeployExtra.

Import Voice Deploy.

(** X26.  The copy script moves the two files one by one.  With both
    files in the training folder the API then loads that model and that
    scaler, whatever its folder held before.  With the model file alone
    in the training folder, the API loads the new model together with
    the scaler of an earlier deployment when its folder still holds
    one, and comes up with a model and no scaler when it holds none. *)
Theorem deploy_then_load (src_dir dst_dir : disk) (model : Model) :
  SPEECH_MODEL_FILE src_dir = Stored model ->
  (forall scaler,
      SPEECH_SCALER_FILE src_dir = Stored scaler ->
      load_globals (copy_voice_model src_dir dst_dir)
      = {| speech_model := Some model; speech_scaler := Some scaler |}) /\
  (SPEECH_SCALER_FILE src_dir = Absent ->
   (forall old,
       SPEECH_SCALER_FILE dst_dir = Stored old ->
       load_globals (copy_voice_model src_dir dst_dir)
       = {| speech_model := Some model; speech_scaler := Some old |}) /\
   (SPEECH_SCALER_FILE dst_dir = Absent ->
    load_globals (copy_voice_model src_dir dst_dir)
    = {| speech_model := Some model; speech_scaler := None |})).
Proof.
  intros Hm. unfold load_globals, copy_voice_model, copy_if_exists.
  cbn [SPEECH_MODEL_FILE SPEECH_SCALER_FILE]. rewrite Hm.
  cbn [path_exists joblib_load speech_model speech_scaler].
  split.
  - intros scaler ->. reflexivity.
  - intros ->. cbn [path_exists]. split.
    + intros old ->. reflexivity.
    + intros ->. reflexivity.
Qed.

Lemma deploy_then_load_witness :
  load_globals
    (copy_voice_model
       {| SPEECH_MODEL_FILE := Stored VoiceReport.tremor_model;
          SPEECH_SCALER_FILE := Absent |}
       {| SPEECH_MODEL_FILE := Absent;
          SPEECH_SCALER_FILE := Stored VoiceReport.identity_scaler |})
  = {| speech_model := Some VoiceReport.tremor_model;
       speech_scaler := Some VoiceReport.identity_scaler |}.
Proof.
  destruct (deploy_then_load
              {| SPEECH_MODEL_FILE := Stored VoiceReport.tremor_model;
                 SPEECH_SCALER_FILE := Absent |}
              {| SPEECH_MODEL_FILE := Absent;
                 SPEECH_SCALER_FILE := Stored VoiceReport.identity_scaler |}
              VoiceReport.tremor_model eq_refl) as (_ & H).
  destruct (H eq_refl) as (Hold & _).
  apply Hold. reflexivity.
Defined.

End DeployExtra.

(** ** The data set of the speech trainer *)

Module SpeechTrainExtra.

Import Np Voice SpeechTrain.

Section Dataset.

Context {L : Librosa}.

Lemma voice_features_four (audio : list Q) (sample_rate : Z)
  (f : list npfloat) :
  voice_features audio sample_rate = Ok (Some f) -> List.length f = 4%nat.
Proof.
  unfold voice_features.
  destruct (feature_mfcc audio sample_rate) as [m|]; cbn [bind]; [|discriminate].
  destruct (pyin audio sample_rate) as [f0|]; cbn [bind]; [|discriminate].
  destruct (List.length (voiced f0) <? 2)%nat; [discriminate|].
  destruct (feature_rms audio) as [rms|]; cbn [bind]; [|discriminate].
  destruct (List.length _ <? 2)%nat; [discriminate|].
  destruct (effects_harmonic audio) as [harmonic|]; cbn [bind]; [|discriminate].
  intros H. injection H as <-. reflexivity.
Qed.

Lemma extracted_four (ds : list (list Q)) :
  Forall (fun f => List.length f = 4%nat) (extracted ds).
Proof.
  unfold extracted. apply Forall_forall. intros f Hf.
  apply in_flat_map in Hf. destruct Hf as (audio & _ & Hf).
  destruct (SpeechTrain.extract_features audio TARGET_SAMPLING_RATE)
    as [[g|]|e] eqn:E; try destruct Hf as [<-|[]]; try destruct Hf.
  unfold SpeechTrain.extract_features in E.
  destruct (List.length audio =? 0)%nat; [discriminate|].
  exact (voice_features_four _ _ _ E).
Qed.

(** A loop that ends takes the first samples the extractor accepts, up
    to the cap. *)
Lemma class_loop_spec (label : Z) (ds : list (list Q)) :
  forall (count : nat) (t t' : table),
    class_loop label ds count t = Ok t' ->
    let taken := firstn (MAX_SAMPLES_PER_CLASS - count) (extracted ds) in
    data_features t' = data_features t ++ taken /\
    data_labels t' = data_labels t ++ repeat label (List.length taken).
Proof.
  induction ds as [|audio rest IH]; intros count t t' H; cbn zeta.
  - injection H as <-. unfold extracted. cbn [flat_map].
    rewrite firstn_nil. cbn. rewrite !app_nil_r. split; reflexivity.
  - cbn [class_loop] in H.
    destruct (MAX_SAMPLES_PER_CLASS <=? count)%nat eqn:Ec.
    + injection H as <-. apply Nat.leb_le in Ec.
      replace (MAX_SAMPLES_PER_CLASS - count)%nat with 0%nat by lia.
      cbn. rewrite !app_nil_r. split; reflexivity.
    + apply Nat.leb_gt in Ec.
      unfold extracted. cbn [flat_map]. fold (extracted rest).
      destruct (SpeechTrain.extract_features audio TARGET_SAMPLING_RATE)
        as [[f|]|e]; cbn [bind] in H; [| |discriminate].
      * destruct (IH _ _ _ H) as [HF HL]. cbn zeta in HF, HL.
        cbn [data_features data_labels] in HF, HL.
        replace (MAX_SAMPLES_PER_CLASS - count)%nat
          with (S (MAX_SAMPLES_PER_CLASS - S count)) by lia.
        cbn [app firstn List.length repeat].
        rewrite HF, HL, <- !app_assoc. split; reflexivity.
      * cbn [app]. exact (IH _ _ _ H).
Qed.

(** X27.  When [prepare_dataset] returns, its table holds the features
    of the first healthy samples the extractor accepts, at most 150 of
    them, under label 0, followed by those of the first pathological
    samples it accepts, at most 150, under label 1: one label per row
    of features, each row of four values. *)
Theorem prepare_dataset_table (ds_healthy ds_pathology : list (list Q))
  (t : table)
  (H : prepare_dataset ds_healthy ds_pathology = Ok t) :
  let healthy := firstn MAX_SAMPLES_PER_CLASS (extracted ds_healthy) in
  let pathology := firstn MAX_SAMPLES_PER_CLASS (extracted ds_pathology) in
  data_features t = healthy ++ pathology /\
  data_labels t = repeat 0%Z (List.length healthy)
                  ++ repeat 1%Z (List.length pathology) /\
  List.length (data_features t) = List.length (data_labels t) /\
  (List.length healthy <= 150)%nat /\ (List.length pathology <= 150)%nat /\
  Forall (fun f => List.length f = 4%nat) (data_features t).
Proof.
  cbn zeta. unfold prepare_dataset in H.
  destruct (class_loop 0 ds_healthy 0
              {| data_features := []; data_labels := [] |})
    as [t0|e] eqn:E0; cbn [bind] in H; [|discriminate].
  destruct (class_loop_spec _ _ _ _ _ E0) as [HF0 HL0].
  destruct (class_loop_spec _ _ _ _ _ H) as [HF1 HL1].
  cbn zeta in *. cbn [data_features data_labels app] in HF0, HL0.
  rewrite Nat.sub_0_r in *.
  rewrite HF1, HL1, HF0, HL0.
  split; [reflexivity|]. split; [reflexivity|].
  split; [rewrite !length_app, !repeat_length; reflexivity|].
  split; [rewrite length_firstn; unfold MAX_SAMPLES_PER_CLASS; lia|].
  split; [rewrite length_firstn; unfold MAX_SAMPLES_PER_CLASS; lia|].
  assert (Hsub : forall ds f,
             In f (firstn MAX_SAMPLES_PER_CLASS (extracted ds)) ->
             List.length f = 4%nat).
  { intros ds f Hf.
    apply (proj1 (Forall_forall _ _) (extracted_four ds)).
    rewrite <- (firstn_skipn MAX_SAMPLES_PER_CLASS (extracted ds)).
    apply in_or_app. left. exact Hf. }
  apply Forall_app. split; apply Forall_forall; intros f Hf;
    exact (Hsub _ f Hf).
Qed.

End Dataset.

Lemma prepare_dataset_table_witness :
  exists t,
    @prepare_dataset voiced_run [clip; []; clip] [clip] = Ok t /\
    data_labels t = [0; 0; 1]%Z.
Proof.
  assert (E : exists t, @prepare_dataset voiced_run [clip; []; clip] [clip]
                        = Ok t) by (vm_compute; eauto).
  destruct E as (t & E). exists t. split; [exact E|].
  destruct (@prepare_dataset_table voiced_run _ _ t E) as (_ & -> & _).
  vm_compute. reflexivity.
Defined.

End SpeechTrainExtra.
